(** * Autobit backend: metering pipeline

    A shallow embedding of the server lifecycle (app/routers/servers.py),
    the runtime adapter (app/docker_manager.py), the usage sampler
    (app/workers/usage_sampler.py), the usage aggregation query
    (app/routers/usage.py) and the invoice generator (app/routers/billing.py),
    followed by the properties established about them.

    Python [float] is IEEE binary64 and is embedded as Rocq's primitive
    [float]; Python [int] is [Z]; a [datetime] is an instant at the
    resolution of Python's datetimes, embedded as a [Z] count of
    microseconds since the epoch; [str] is text, embedded as the [string]
    of its UTF-8 encoding; MongoDB collections are lists of documents in
    natural (insertion) order.  The store keeps a date as a whole number of
    milliseconds: [Bson.datetime] is what the driver makes of a datetime it
    encodes, in a document and in a query alike. *)

From Stdlib Require Import ZArith Ascii String.
From Stdlib Require Import PrimFloat SpecFloat FloatOps.
From stdpp Require Import base option list sorting gmap strings pretty.

Set Warnings "-inexact-float".
Local Open Scope string_scope.
Local Open Scope Z_scope.

(** ** FastAPI's [HTTPException] and the status codes in use *)

Record HTTPException := {
  status_code : Z;
  detail : string
}.

Definition HTTP_400_BAD_REQUEST : Z := 400.
Definition HTTP_404_NOT_FOUND : Z := 404.
Definition HTTP_500_INTERNAL_SERVER_ERROR : Z := 500.

(** What a route answers: the value it returns, or the status and detail
    of the error the caller receives. *)
Inductive response (A : Type) :=
| Ok (a : A)
| Raise (e : HTTPException).
Arguments Ok {A} a.
Arguments Raise {A} e.

(** Python exceptions that reach a handler of the modelled code.
    [ValidationError model field] is pydantic's refusal of a null [field]
    when it builds [model]. *)
Inductive exn :=
| KeyError (key : string)
| ValueError (msg : string)
| OverflowError (msg : string)
| TypeError (msg : string)
| ValidationError (model field : string)
| DockerException (msg : string)
| HTTP (e : HTTPException).

(** [str(e)], as interpolated into the detail of a wrapping error.  Of
    pydantic's report the last line, a link into the documentation of the
    installed release, is left out. *)
Definition str_exn (e : exn) : string :=
  match e with
  | KeyError k => "'" ++ k ++ "'"
  | ValueError msg | OverflowError msg | TypeError msg
  | DockerException msg => msg
  | ValidationError model field =>
      "1 validation error for " ++ model ++ String "010" field
      ++ String "010" "  Input should be a valid string "
      ++ "[type=string_type, input_value=None, input_type=NoneType]"
  | HTTP e => pretty (status_code e) ++ ": " ++ detail e
  end.

(** ** Python numerics and text *)

Module Py.

(** [float(n)] for an [int]: the nearest binary64 value, ties to even. *)
Definition float_of_int (n : Z) : float :=
  SF2Prim (binary_normalize prec emax n 0 false).

Definition sf_of_int (n : Z) : spec_float :=
  match n with
  | Z0 => S754_zero false
  | Zpos p => S754_finite false p 0
  | Zneg p => S754_finite true p 0
  end.

(** [a / b] on two [int]s: the correctly rounded quotient.  Python raises
    ZeroDivisionError for [b = 0]; every call site below divides by a
    non-zero literal. *)
Definition int_true_div (a b : Z) : float :=
  SF2Prim (SFdiv prec emax (sf_of_int a) (sf_of_int b)).

(** Nearest integer to [num / den] for [den > 0], ties to even. *)
Definition half_even (num den : Z) : Z :=
  let q := num / den in
  match 2 * (num mod den) ?= den with
  | Lt => q
  | Gt => q + 1
  | Eq => if Z.even q then q else q + 1
  end.

(** [round(x, ndigits)] for a float and [ndigits >= 0]: CPython rounds the
    exact binary value of [x] to [ndigits] decimals (ties to even) and
    converts that decimal back to the nearest float; NaN and the
    infinities are returned as they are, and the sign of a zero result is
    kept. *)
Definition round (x : float) (ndigits : Z) : float :=
  match Prim2SF x with
  | S754_finite s m e =>
      let p10 := 10 ^ ndigits in
      let n := if 0 <=? e then Z.pos m * 2 ^ e * p10
               else half_even (Z.pos m * p10) (2 ^ (- e)) in
      match n with
      | Zpos n' =>
          SF2Prim (SFdiv prec emax (S754_finite s n' 0) (sf_of_int p10))
      | _ => SF2Prim (S754_zero s)
      end
  | _ => x
  end.

(** [int(x)] for a float: truncation toward zero; an infinity raises
    OverflowError and NaN raises ValueError. *)
Definition int_of_float (x : float) : exn + Z :=
  match Prim2SF x with
  | S754_zero _ => inr 0
  | S754_finite s m e =>
      let a := if 0 <=? e then Z.pos m * 2 ^ e else Z.pos m / 2 ^ (- e) in
      inr (if s then - a else a)
  | S754_infinity _ =>
      inl (OverflowError "cannot convert float infinity to integer")
  | S754_nan => inl (ValueError "cannot convert float NaN to integer")
  end.

(** [timedelta.total_seconds()] of a difference of two datetimes: the
    microsecond count divided by [10**6]. *)
Definition total_seconds (delta : Z) : float := int_true_div delta (10 ^ 6).

(** [timedelta(days=n)], in microseconds. *)
Definition days (n : Z) : Z := n * 86400000000.

(** Truthiness of an [Optional[str]]: [None] and the empty string are
    falsy. *)
Definition truthy (s : option string) : bool :=
  match s with
  | Some EmptyString | None => false
  | Some _ => true
  end.

Definition lower_ascii (c : ascii) : ascii :=
  let n := nat_of_ascii c in
  if (65 <=? n)%nat && (n <=? 90)%nat then ascii_of_nat (n + 32) else c.

(** [str.lower()].  The letters of ASCII are lowered, and so is the Kelvin
    sign U+212A (bytes 226, 132, 170), the one character outside ASCII
    that [lower()] turns into ASCII text, namely [k].  Every other
    character outside ASCII is left as it is; where [lower()] changes
    such a character, what it puts in its place lies outside ASCII as
    well. *)
Fixpoint lower (s : string) : string :=
  match s with
  | EmptyString => EmptyString
  | String c r =>
      match r with
      | String c1 (String c2 r') =>
          if bool_decide (c = "226"%char ∧ c1 = "132"%char
                          ∧ c2 = "170"%char)
          then String "k" (lower r')
          else String (lower_ascii c) (lower r)
      | _ => String (lower_ascii c) (lower r)
      end
  end.

(** [str.isascii()]. *)
Fixpoint isascii (s : string) : bool :=
  match s with
  | EmptyString => true
  | String c r => (nat_of_ascii c <? 128)%nat && isascii r
  end.

End Py.

(** ** app/models.py *)

Inductive ServerStatus := CREATED | RUNNING | STOPPED | DELETED.
Inductive InvoiceStatus := DRAFT | SENT | PAID | OVERDUE.
Inductive TransactionMethod := CREDIT_CARD | BANK_TRANSFER | PAYPAL.

Global Instance ServerStatus_eq_dec : EqDecision ServerStatus.
Proof. solve_decision. Defined.
Global Instance InvoiceStatus_eq_dec : EqDecision InvoiceStatus.
Proof. solve_decision. Defined.

(** [ServerInDB], and the server document of the store.  [name] is
    declared [str]; an assignment to an attribute is not validated, so the
    object, and the document written from it, can hold [None] there. *)
Module ServerInDB.
Record t := mk {
  name : option string;
  image : string;
  cpu_limit : float;
  cores : Z;
  ram_gib : float;
  disk_gib : float;
  id : string;
  user_id : string;
  status : ServerStatus;
  container_id : option string;
  created_at : Z;
  updated_at : Z
}.
End ServerInDB.

(** [ServerCreate]: the request body of server creation. *)
Module ServerCreate.
Record t := mk {
  name : string;
  image : string;
  cpu_limit : float;
  cores : Z;
  ram_gib : float;
  disk_gib : float
}.
End ServerCreate.

(** A field of a request body whose fields are all [Optional] with default
    [None]: left out of the request, sent as [null], or sent with a value.
    [dict(exclude_unset=True)] leaves out the first kind only. *)
Inductive field (A : Type) :=
| Unset
| Null
| Value (a : A).
Arguments Unset {A}.
Arguments Null {A}.
Arguments Value {A} a.

Module ServerUpdate.
Record t := mk {
  name : field string;
  cpu_limit : field float;
  cores : field Z;
  ram_gib : field float;
  disk_gib : field float
}.
End ServerUpdate.

Module UsageSample.
Record t := mk {
  id : string;
  server_id : string;
  ts : Z;
  cpu_pct : float;
  ram_mib : float;
  disk_gib : float
}.
End UsageSample.

Module LineItem.
Record t := mk {
  kind : string;
  unit : string;
  quantity : float;
  rate : float;
  amount : float
}.
End LineItem.

Module Invoice.
Record t := mk {
  id : string;
  user_id : string;
  period_start : Z;
  period_end : Z;
  line_items : list LineItem.t;
  subtotal : float;
  total : float;
  status : InvoiceStatus;
  created_at : Z
}.
End Invoice.

Module TransactionInDB.
Record t := mk {
  invoice_id : string;
  amount : float;
  method : TransactionMethod;
  id : string;
  ts : Z
}.
End TransactionInDB.

(** [ServerInDB] and [Server] built from the fields of a stored document:
    pydantic refuses to build [model] when the document's [name] is
    null. *)
Definition parse (model : string) (server_doc : ServerInDB.t)
  : exn + ServerInDB.t :=
  match ServerInDB.name server_doc with
  | None => inl (ValidationError model "name")
  | Some _ => inr server_doc
  end.

(** ** app/config.py: the billing rates of [Settings] *)

Module Settings.
Record t := mk {
  vcpu_rate_per_core_hour : float;
  ram_rate_per_gib_hour : float;
  disk_rate_per_gib_hour : float
}.
End Settings.

Definition settings : Settings.t :=
  {| Settings.vcpu_rate_per_core_hour := 0.0100;
     Settings.ram_rate_per_gib_hour := 0.0015;
     Settings.disk_rate_per_gib_hour := 0.00005 |}.

(** ** What the driver writes

    The driver encodes a document, and the values of a query, as BSON: a
    datetime loses what it has below the millisecond, and an [int] that
    does not fit 8 bytes is refused with OverflowError (the wording is the
    one of the driver's C encoder).  Floats and text are kept as they
    are. *)

Module Bson.

Definition datetime (t : Z) : Z := t / 1000 * 1000.

Definition int64 (n : Z) : bool := (- 2 ^ 63 <=? n) && (n <? 2 ^ 63).

Definition server (s : ServerInDB.t) : exn + ServerInDB.t :=
  if int64 (ServerInDB.cores s) then
    inr (ServerInDB.mk (ServerInDB.name s) (ServerInDB.image s)
           (ServerInDB.cpu_limit s) (ServerInDB.cores s)
           (ServerInDB.ram_gib s) (ServerInDB.disk_gib s) (ServerInDB.id s)
           (ServerInDB.user_id s) (ServerInDB.status s)
           (ServerInDB.container_id s)
           (datetime (ServerInDB.created_at s))
           (datetime (ServerInDB.updated_at s)))
  else inl (OverflowError "MongoDB can only handle up to 8-byte ints").

Definition usage_sample (s : UsageSample.t) : UsageSample.t :=
  UsageSample.mk (UsageSample.id s) (UsageSample.server_id s)
    (datetime (UsageSample.ts s)) (UsageSample.cpu_pct s)
    (UsageSample.ram_mib s) (UsageSample.disk_gib s).

Definition invoice (i : Invoice.t) : Invoice.t :=
  Invoice.mk (Invoice.id i) (Invoice.user_id i)
    (datetime (Invoice.period_start i)) (datetime (Invoice.period_end i))
    (Invoice.line_items i) (Invoice.subtotal i) (Invoice.total i)
    (Invoice.status i) (datetime (Invoice.created_at i)).

Definition transaction (t : TransactionInDB.t) : TransactionInDB.t :=
  TransactionInDB.mk (TransactionInDB.invoice_id t)
    (TransactionInDB.amount t) (TransactionInDB.method t)
    (TransactionInDB.id t) (datetime (TransactionInDB.ts t)).

End Bson.

(** ** The document store (app/database.py)

    Four collections.  A query document is a decidable predicate on the
    collection's documents. *)

Module Mongo.
Section Collection.
Context {A : Type}.
Variable P : A → Prop.
Context `{!∀ x, Decision (P x)}.

(** [find(q)]: the matching documents, in natural order. *)
Definition find (c : list A) : list A := filter P c.

(** [find_one(q)]: the first matching document. *)
Definition find_one (c : list A) : option A := head (filter P c).

(** [update_one(q, {"$set": ...})]: rewrites the first match. *)
Fixpoint update_one (f : A → A) (c : list A) : list A :=
  match c with
  | [] => []
  | d :: r => if decide (P d) then f d :: r else d :: update_one f r
  end.

(** [delete_one(q)]: removes the first match. *)
Fixpoint delete_one (c : list A) : list A :=
  match c with
  | [] => []
  | d :: r => if decide (P d) then r else d :: delete_one r
  end.
End Collection.

Definition insert_one {A} (d : A) (c : list A) : list A := c ++ [d].

(** [.sort(key, 1)]: ascending by an integer key.  The store promises no
    order among documents with equal keys; this insertion sort leaves them
    in their natural order, which is the order a scan of an index on the
    key yields. *)
Section Sort.
Context {A : Type}.
Variable key : A → Z.

Fixpoint insert_by (x : A) (l : list A) : list A :=
  match l with
  | [] => [x]
  | y :: r => if decide (key x ≤ key y) then x :: l else y :: insert_by x r
  end.

Fixpoint sort_by (l : list A) : list A :=
  match l with
  | [] => []
  | x :: r => insert_by x (sort_by r)
  end.

(** The order [sort_by] establishes between neighbours. *)
Definition by_key (a b : A) : Prop := key a ≤ key b.
End Sort.
End Mongo.

Record Database := {
  servers : list ServerInDB.t;
  usage_samples : list UsageSample.t;
  invoices : list Invoice.t;
  transactions : list TransactionInDB.t
}.

(** ** The container runtime behind app/docker_manager.py

    The Docker daemon is outside the repository.  [DockerClient] is the
    smallest daemon state that answers the calls docker_manager.py makes:
    the containers with their status, the local images, the images the
    registry can deliver, and the number of containers created so far, from
    which the next container id is drawn. *)

Module Docker.

(** The fields of [container.stats(stream=False)] that are read. *)
Record RawStats := {
  total_usage : Z;
  pre_total_usage : Z;
  system_cpu_usage : Z;
  pre_system_cpu_usage : Z;
  percpu_usage_len : Z;
  memory_usage : Z;
  (** ['storage_stats'] may be absent, and may lack ['size'] *)
  storage_stats : option (option Z)
}.

Record Container := {
  Id : string;
  Name : string;
  Image : string;
  CpuQuota : Z;
  CpuPeriod : Z;
  Memory : Z;
  MemorySwap : Z;
  Status : string;
  (** [None]: the stats call fails or lacks one of the keys read *)
  Stats : option RawStats
}.

Record DockerClient := {
  containers : list Container;
  images : list string;
  registry : list string;
  created : nat
}.

Definition new_id (n : nat) : string := "ctr-" ++ pretty n.

(** [client.containers.get(id)]; [None] is docker's NotFound. *)
Definition get (c : DockerClient) (cid : string) : option Container :=
  Mongo.find_one (λ k, Id k = cid) (containers c).

Definition set_status (st : string) (k : Container) : Container :=
  {| Id := Id k; Name := Name k; Image := Image k; CpuQuota := CpuQuota k;
     CpuPeriod := CpuPeriod k; Memory := Memory k;
     MemorySwap := MemorySwap k; Status := st; Stats := Stats k |}.

Definition with_containers (c : DockerClient) (l : list Container)
  : DockerClient :=
  {| containers := l; images := images c; registry := registry c;
     created := created c |}.

(** [container.start()] and [container.stop(timeout=10)]. *)
Definition start (c : DockerClient) (cid : string) : DockerClient :=
  with_containers c
    (Mongo.update_one (λ k, Id k = cid) (set_status "running") (containers c)).

Definition stop (c : DockerClient) (cid : string) : DockerClient :=
  with_containers c
    (Mongo.update_one (λ k, Id k = cid) (set_status "exited") (containers c)).

(** [container.remove(force=True)]. *)
Definition remove (c : DockerClient) (cid : string) : DockerClient :=
  with_containers c (Mongo.delete_one (λ k, Id k = cid) (containers c)).

(** [images.get(name)], and [images.pull(...)] when it is not local:
    [None] when the registry does not have the image either.  An image
    reference is ASCII text; the daemon has no image under another name
    and the registry delivers none. *)
Definition ensure_image (c : DockerClient) (image_name : string)
  : option DockerClient :=
  if negb (Py.isascii image_name) then None
  else if decide (image_name ∈ images c) then Some c
  else if decide (image_name ∈ registry c) then
    Some {| containers := containers c; images := image_name :: images c;
            registry := registry c; created := created c |}
  else None.

(** [containers.create(...)]: the daemon refuses a name already in use
    (409 Conflict), otherwise adds a container under a new id. *)
Definition create (c : DockerClient) (image_name cname : string)
    (cpu_quota cpu_period mem_limit memswap_limit : Z)
  : option (Container * DockerClient) :=
  if decide (Exists (λ k, Name k = cname) (containers c)) then None
  else
    let k := {| Id := new_id (created c); Name := cname;
                Image := image_name; CpuQuota := cpu_quota;
                CpuPeriod := cpu_period; Memory := mem_limit;
                MemorySwap := memswap_limit; Status := "created";
                Stats := None |} in
    Some (k, {| containers := containers c ++ [k]; images := images c;
                registry := registry c; created := S (created c) |}).

End Docker.

(** ** app/docker_manager.py *)

Record DockerManager := {
  client : option Docker.DockerClient;
  available : bool
}.

(** [DockerManager.__init__]: [reachable] is the daemon that answers the
    ping, if any. *)
Definition DockerManager_init (reachable : option Docker.DockerClient)
  : DockerManager :=
  match reachable with
  | Some c => {| client := Some c; available := true |}
  | None => {| client := None; available := false |}
  end.

(** The guard [not self.available or self.client is None]: the connected
    client when the guard is false. *)
Definition connected (dm : DockerManager) : option Docker.DockerClient :=
  if negb (available dm) then None else client dm.

Definition with_client (dm : DockerManager) (c : Docker.DockerClient)
  : DockerManager :=
  {| client := Some c; available := available dm |}.

Definition create_container (dm : DockerManager) (server : ServerInDB.t)
  : (exn + string) * DockerManager :=
  match connected dm with
  | None => (inr ("mock-container-" ++ ServerInDB.id server), dm)
  | Some c =>
      match Py.int_of_float (ServerInDB.cpu_limit server * 100000)%float with
      | inl e => (inl e, dm)
      | inr cpu_quota =>
          let cpu_period := 100000 in
          match Py.int_of_float
                  (ServerInDB.ram_gib server * 1024 * 1024 * 1024)%float with
          | inl e => (inl e, dm)
          | inr memory_limit =>
              let image_name := Py.lower (ServerInDB.image server) in
              match Docker.ensure_image c image_name with
              | None => (inl (DockerException "pull failed"), dm)
              | Some c1 =>
                  match Docker.create c1 image_name
                          ("autobit-server-" ++ ServerInDB.id server)
                          cpu_quota cpu_period memory_limit memory_limit with
                  | None =>
                      (inl (DockerException "Conflict"), with_client dm c1)
                  | Some (container, c2) =>
                      (inr (Docker.Id container), with_client dm c2)
                  end
              end
          end
      end
  end.

Definition start_container (dm : DockerManager) (container_id : string)
  : bool * DockerManager :=
  match connected dm with
  | None => (true, dm)
  | Some c =>
      match Docker.get c container_id with
      | Some _ => (true, with_client dm (Docker.start c container_id))
      | None => (false, dm)
      end
  end.

Definition stop_container (dm : DockerManager) (container_id : string)
  : bool * DockerManager :=
  match connected dm with
  | None => (true, dm)
  | Some c =>
      match Docker.get c container_id with
      | Some _ => (true, with_client dm (Docker.stop c container_id))
      | None => (false, dm)
      end
  end.

Definition delete_container (dm : DockerManager) (container_id : string)
  : bool * DockerManager :=
  match connected dm with
  | None => (true, dm)
  | Some c =>
      match Docker.get c container_id with
      | Some _ => (true, with_client dm (Docker.remove c container_id))
      | None => (false, dm)
      end
  end.

(** The mock reading of [get_container_stats]. *)
Definition mock_stats : gmap string float :=
  {[ "cpu_percent" := 25.0%float;
     "memory_usage_mb" := 512.0%float;
     "disk_usage_gb" := 1.0%float ]}.

Definition real_stats (stats : Docker.RawStats) : gmap string float :=
  let cpu_delta := Docker.total_usage stats - Docker.pre_total_usage stats in
  let system_delta :=
    Docker.system_cpu_usage stats - Docker.pre_system_cpu_usage stats in
  let cpu_percent :=
    if decide (system_delta > 0 ∧ cpu_delta > 0) then
      (Py.int_true_div cpu_delta system_delta
       * Py.float_of_int (Docker.percpu_usage_len stats) * 100.0)%float
    else 0.0%float in
  let memory_usage :=
    Py.int_true_div (Docker.memory_usage stats) (1024 * 1024) in
  let disk_usage :=
    match Docker.storage_stats stats with
    | Some sz => Py.int_true_div (default 0 sz) (1024 * 1024 * 1024)
    | None => 0.0%float
    end in
  {[ "cpu_percent" := Py.round cpu_percent 2;
     "memory_mb" := Py.round memory_usage 2;
     "disk_gb" := Py.round disk_usage 2 ]}.

Definition get_container_stats (dm : DockerManager) (container_id : string)
  : option (gmap string float) :=
  match connected dm with
  | None => Some mock_stats
  | Some c =>
      match Docker.get c container_id with
      | Some k => real_stats <$> Docker.Stats k
      | None => None
      end
  end.

(** [update_container_resources]: the four calls in sequence; the booleans
    of stop, delete and start are dropped, only an exception of
    [create_container] makes the result [False].  The id of the new
    container stays local to the function. *)
Definition update_container_resources (dm : DockerManager)
    (container_id : string) (server : ServerInDB.t) : bool * DockerManager :=
  let '(_, dm1) := stop_container dm container_id in
  let '(_, dm2) := delete_container dm1 container_id in
  match create_container dm2 server with
  | (inl _, dm3) => (false, dm3)
  | (inr new_container_id, dm3) =>
      let '(_, dm4) := start_container dm3 new_container_id in
      (true, dm4)
  end.

(** [is_container_running] asks [self.client] without the guard of the
    other methods: with no client the attribute access raises and the
    handler answers [False]. *)
Definition is_container_running (dm : DockerManager) (container_id : string)
  : bool :=
  match client dm with
  | None => false
  | Some c =>
      match Docker.get c container_id with
      | Some k => bool_decide (Docker.Status k = "running")
      | None => false
      end
  end.

(** ** app/nats_client.py: the events handed to [publish_event] *)

Inductive Event :=
| server_created (server_id : string)
| server_started (server_id : string)
| server_stopped (server_id : string)
| usage_sampled (server_id : string) (ts : Z)
| invoice_generated (invoice_id : string).

(** The state the handlers act on: the store, the runtime adapter (a
    module-level singleton in the source) and the message bus. *)
Record World := {
  db : Database;
  docker_manager : DockerManager;
  nats : list Event
}.

Definition set_servers (w : World) (l : list ServerInDB.t) : World :=
  {| db := {| servers := l; usage_samples := usage_samples (db w);
              invoices := invoices (db w);
              transactions := transactions (db w) |};
     docker_manager := docker_manager w; nats := nats w |}.

Definition set_usage_samples (w : World) (l : list UsageSample.t) : World :=
  {| db := {| servers := servers (db w); usage_samples := l;
              invoices := invoices (db w);
              transactions := transactions (db w) |};
     docker_manager := docker_manager w; nats := nats w |}.

Definition set_invoices (w : World) (l : list Invoice.t) : World :=
  {| db := {| servers := servers (db w);
              usage_samples := usage_samples (db w); invoices := l;
              transactions := transactions (db w) |};
     docker_manager := docker_manager w; nats := nats w |}.

Definition set_transactions (w : World) (l : list TransactionInDB.t)
  : World :=
  {| db := {| servers := servers (db w);
              usage_samples := usage_samples (db w);
              invoices := invoices (db w); transactions := l |};
     docker_manager := docker_manager w; nats := nats w |}.

Definition set_docker_manager (w : World) (dm : DockerManager) : World :=
  {| db := db w; docker_manager := dm; nats := nats w |}.

Definition publish (w : World) (e : Event) : World :=
  {| db := db w; docker_manager := docker_manager w; nats := nats w ++ [e] |}.

Definition http {A} (code : Z) (msg : string) : response A :=
  Raise {| status_code := code; detail := msg |}.

(** The handler that closes the [try] of a route:
    [except Exception as e: raise HTTPException(500, f"<what>: {str(e)}")]. *)
Definition except_500 {A} (what : string) (e : exn) : response A :=
  http HTTP_500_INTERNAL_SERVER_ERROR (what ++ ": " ++ str_exn e).

(** [raise HTTPException(code, msg)] inside such a [try]. *)
Definition raised (code : Z) (msg : string) : exn :=
  HTTP {| status_code := code; detail := msg |}.

(** An exception that leaves a route outside a [try]: the middleware of
    app/main.py answers it with a 500 of its own. *)
Definition uncaught {A} (e : exn) : response A :=
  http 500 "Internal Server Error".

(** ** app/routers/servers.py

    [current_user] is the id of the authenticated caller; [uuid] and [now]
    stand for the [uuid.uuid4()] and [datetime.utcnow()] drawn while the
    request is served. *)

Module Servers.

Definition set_status (st : ServerStatus) (now : Z) (s : ServerInDB.t)
  : ServerInDB.t :=
  ServerInDB.mk (ServerInDB.name s) (ServerInDB.image s)
    (ServerInDB.cpu_limit s) (ServerInDB.cores s) (ServerInDB.ram_gib s)
    (ServerInDB.disk_gib s) (ServerInDB.id s) (ServerInDB.user_id s) st
    (ServerInDB.container_id s) (ServerInDB.created_at s) now.

Definition set_container_id (c : option string) (s : ServerInDB.t)
  : ServerInDB.t :=
  ServerInDB.mk (ServerInDB.name s) (ServerInDB.image s)
    (ServerInDB.cpu_limit s) (ServerInDB.cores s) (ServerInDB.ram_gib s)
    (ServerInDB.disk_gib s) (ServerInDB.id s) (ServerInDB.user_id s)
    (ServerInDB.status s) c (ServerInDB.created_at s)
    (ServerInDB.updated_at s).

(** [ServerInDB(...)] draws [created_at] and [updated_at] from the clock
    one after the other: [now] and [updated_at] are the two readings. *)
Definition create_server (server_data : ServerCreate.t)
    (current_user uuid : string) (now updated_at : Z) (w : World)
  : response ServerInDB.t * World :=
  if (ServerCreate.cpu_limit server_data <=? 0)%float
     || bool_decide (ServerCreate.cores server_data ≤ 0)
     || (ServerCreate.ram_gib server_data <=? 0)%float
     || (ServerCreate.disk_gib server_data <=? 0)%float
  then (http HTTP_400_BAD_REQUEST "All resource values must be positive", w)
  else
    let server :=
      ServerInDB.mk (Some (ServerCreate.name server_data))
        (ServerCreate.image server_data)
        (ServerCreate.cpu_limit server_data)
        (ServerCreate.cores server_data)
        (ServerCreate.ram_gib server_data)
        (ServerCreate.disk_gib server_data)
        uuid current_user CREATED None now updated_at in
    match create_container (docker_manager w) server with
    | (inl e, dm) =>
        (except_500 "Failed to create server" e, set_docker_manager w dm)
    | (inr container_id, dm) =>
        let server := set_container_id (Some container_id) server in
        let w := set_docker_manager w dm in
        match Bson.server server with
        | inl e => (except_500 "Failed to create server" e, w)
        | inr server_doc =>
            let w :=
              set_servers w (Mongo.insert_one server_doc (servers (db w))) in
            let w := publish w (server_created (ServerInDB.id server)) in
            (Ok server, w)
        end
    end.

(** The loop of [list_servers]: the first document that [Server] refuses
    ends it. *)
Fixpoint parse_all (docs : list ServerInDB.t) : exn + list ServerInDB.t :=
  match docs with
  | [] => inr []
  | server_doc :: rest =>
      match parse "Server" server_doc with
      | inl e => inl e
      | inr server =>
          match parse_all rest with
          | inl e => inl e
          | inr servers => inr (server :: servers)
          end
      end
  end.

Definition list_servers (current_user : string) (w : World)
  : response (list ServerInDB.t) :=
  match parse_all
          (Mongo.find (λ d, ServerInDB.user_id d = current_user)
             (servers (db w))) with
  | inl e => uncaught e
  | inr servers => Ok servers
  end.

Definition get_server (server_id current_user : string) (w : World)
  : response ServerInDB.t :=
  match Mongo.find_one
          (λ d, ServerInDB.id d = server_id
                ∧ ServerInDB.user_id d = current_user) (servers (db w)) with
  | None => http HTTP_404_NOT_FOUND "Server not found"
  | Some server_doc =>
      match parse "Server" server_doc with
      | inl e => uncaught e
      | inr server => Ok server
      end
  end.

Definition start_server (server_id current_user : string) (now : Z)
    (w : World) : response string * World :=
  match Mongo.find_one
          (λ d, ServerInDB.id d = server_id
                ∧ ServerInDB.user_id d = current_user) (servers (db w)) with
  | None => (http HTTP_404_NOT_FOUND "Server not found", w)
  | Some server_doc =>
      match parse "ServerInDB" server_doc with
      | inl e => (uncaught e, w)
      | inr server =>
          if decide (ServerInDB.status server = RUNNING) then
            (http HTTP_400_BAD_REQUEST "Server is already running", w)
          else
            if negb (Py.truthy (ServerInDB.container_id server)) then
              (http HTTP_400_BAD_REQUEST "Server container not found", w)
            else
              match start_container (docker_manager w)
                      (default "" (ServerInDB.container_id server)) with
              | (true, dm) =>
                  let w := set_docker_manager w dm in
                  let w :=
                    set_servers w
                      (Mongo.update_one (λ d, ServerInDB.id d = server_id)
                         (set_status RUNNING (Bson.datetime now))
                         (servers (db w))) in
                  let w := publish w (server_started server_id) in
                  (Ok "Server started successfully", w)
              | (false, dm) =>
                  (except_500 "Failed to start server"
                     (raised HTTP_500_INTERNAL_SERVER_ERROR
                        "Failed to start server"),
                   set_docker_manager w dm)
              end
      end
  end.

Definition stop_server (server_id current_user : string) (now : Z)
    (w : World) : response string * World :=
  match Mongo.find_one
          (λ d, ServerInDB.id d = server_id
                ∧ ServerInDB.user_id d = current_user) (servers (db w)) with
  | None => (http HTTP_404_NOT_FOUND "Server not found", w)
  | Some server_doc =>
      match parse "ServerInDB" server_doc with
      | inl e => (uncaught e, w)
      | inr server =>
          if decide (ServerInDB.status server = STOPPED) then
            (http HTTP_400_BAD_REQUEST "Server is already stopped", w)
          else
            if negb (Py.truthy (ServerInDB.container_id server)) then
              (http HTTP_400_BAD_REQUEST "Server container not found", w)
            else
              match stop_container (docker_manager w)
                      (default "" (ServerInDB.container_id server)) with
              | (true, dm) =>
                  let w := set_docker_manager w dm in
                  let w :=
                    set_servers w
                      (Mongo.update_one (λ d, ServerInDB.id d = server_id)
                         (set_status STOPPED (Bson.datetime now))
                         (servers (db w))) in
                  let w := publish w (server_stopped server_id) in
                  (Ok "Server stopped successfully", w)
              | (false, dm) =>
                  (except_500 "Failed to stop server"
                     (raised HTTP_500_INTERNAL_SERVER_ERROR
                        "Failed to stop server"),
                   set_docker_manager w dm)
              end
      end
  end.

(** [field in update_data]. *)
Definition is_set {A} (o : field A) : bool :=
  match o with Unset => false | _ => true end.

(** [update_data]: is any field set, and is a resource field set. *)
Definition no_fields (u : ServerUpdate.t) : bool :=
  negb (is_set (ServerUpdate.name u))
  && negb (is_set (ServerUpdate.cpu_limit u))
  && negb (is_set (ServerUpdate.cores u))
  && negb (is_set (ServerUpdate.ram_gib u))
  && negb (is_set (ServerUpdate.disk_gib u)).

Definition any_resource_field (u : ServerUpdate.t) : bool :=
  is_set (ServerUpdate.cpu_limit u)
  || is_set (ServerUpdate.cores u)
  || is_set (ServerUpdate.ram_gib u)
  || is_set (ServerUpdate.disk_gib u).

(** One round of the loop over the resource fields:
    [field in update_data and update_data[field] <= 0], where the
    comparison of [None] with [0] raises TypeError; [rest] is the outcome
    of the rounds that follow. *)
Definition check_field {A} (le0 : A → bool) (name : string) (o : field A)
    (rest : exn + option string) : exn + option string :=
  match o with
  | Unset => rest
  | Null =>
      inl (TypeError
             "'<=' not supported between instances of 'NoneType' and 'int'")
  | Value v => if le0 v then inr (Some name) else rest
  end.

(** The loop: the first resource field of the update that is not
    positive, if it gets that far. *)
Definition non_positive_field (u : ServerUpdate.t) : exn + option string :=
  check_field (λ v, v <=? 0)%float "cpu_limit" (ServerUpdate.cpu_limit u)
    (check_field (λ v, bool_decide (v ≤ 0)) "cores" (ServerUpdate.cores u)
       (check_field (λ v, v <=? 0)%float "ram_gib" (ServerUpdate.ram_gib u)
          (check_field (λ v, v <=? 0)%float "disk_gib"
             (ServerUpdate.disk_gib u) (inr None)))).

(** [setattr(server, field, value)] for a field of [update_data]; a null
    resource field does not get this far. *)
Definition assign {A} (old : A) (o : field A) : A :=
  match o with
  | Value v => v
  | _ => old
  end.

Definition assign_name (old : option string) (o : field string)
  : option string :=
  match o with
  | Unset => old
  | Null => None
  | Value v => Some v
  end.

(** The [setattr] loop followed by [server.updated_at = now]. *)
Definition apply_update (u : ServerUpdate.t) (now : Z) (s : ServerInDB.t)
  : ServerInDB.t :=
  ServerInDB.mk
    (assign_name (ServerInDB.name s) (ServerUpdate.name u))
    (ServerInDB.image s)
    (assign (ServerInDB.cpu_limit s) (ServerUpdate.cpu_limit u))
    (assign (ServerInDB.cores s) (ServerUpdate.cores u))
    (assign (ServerInDB.ram_gib s) (ServerUpdate.ram_gib u))
    (assign (ServerInDB.disk_gib s) (ServerUpdate.disk_gib u))
    (ServerInDB.id s) (ServerInDB.user_id s) (ServerInDB.status s)
    (ServerInDB.container_id s) (ServerInDB.created_at s) now.

(** The end of the [try] of [update_server]: the document is written,
    then [Server(...)] is built for the response. *)
Definition persist (server_id : string) (server : ServerInDB.t) (w : World)
  : response ServerInDB.t * World :=
  match Bson.server server with
  | inl e => (except_500 "Failed to update server" e, w)
  | inr server_doc =>
      let w :=
        set_servers w
          (Mongo.update_one (λ d, ServerInDB.id d = server_id)
             (λ _, server_doc) (servers (db w))) in
      match parse "Server" server with
      | inl e => (except_500 "Failed to update server" e, w)
      | inr server => (Ok server, w)
      end
  end.

Definition update_server (server_id : string)
    (server_update : ServerUpdate.t) (current_user : string) (now : Z)
    (w : World) : response ServerInDB.t * World :=
  match Mongo.find_one
          (λ d, ServerInDB.id d = server_id
                ∧ ServerInDB.user_id d = current_user) (servers (db w)) with
  | None => (http HTTP_404_NOT_FOUND "Server not found", w)
  | Some server_doc =>
      match parse "ServerInDB" server_doc with
      | inl e => (uncaught e, w)
      | inr server =>
          if no_fields server_update then
            (http HTTP_400_BAD_REQUEST "No fields to update", w)
          else
            match non_positive_field server_update with
            | inl e => (uncaught e, w)
            | inr (Some field) =>
                (http HTTP_400_BAD_REQUEST (field ++ " must be positive"), w)
            | inr None =>
                let server := apply_update server_update now server in
                if bool_decide (ServerInDB.status server = RUNNING)
                   && Py.truthy (ServerInDB.container_id server)
                   && any_resource_field server_update
                then
                  match update_container_resources (docker_manager w)
                          (default "" (ServerInDB.container_id server))
                          server with
                  | (true, dm) =>
                      persist server_id server (set_docker_manager w dm)
                  | (false, dm) =>
                      (except_500 "Failed to update server"
                         (raised HTTP_500_INTERNAL_SERVER_ERROR
                            "Failed to update server resources"),
                       set_docker_manager w dm)
                  end
                else persist server_id server w
            end
      end
  end.

Definition delete_server (server_id current_user : string) (w : World)
  : response string * World :=
  match Mongo.find_one
          (λ d, ServerInDB.id d = server_id
                ∧ ServerInDB.user_id d = current_user) (servers (db w)) with
  | None => (http HTTP_404_NOT_FOUND "Server not found", w)
  | Some server_doc =>
      match parse "ServerInDB" server_doc with
      | inl e => (uncaught e, w)
      | inr server =>
          let w :=
            if Py.truthy (ServerInDB.container_id server) then
              set_docker_manager w
                (delete_container (docker_manager w)
                   (default "" (ServerInDB.container_id server))).2
            else w in
          let w :=
            set_servers w
              (Mongo.delete_one
                 (λ d, ServerInDB.id d = server_id
                       ∧ ServerInDB.user_id d = current_user)
                 (servers (db w))) in
          (Ok "Server deleted successfully", w)
      end
  end.

End Servers.

(** ** The aggregation operators of the store used by app/routers/usage.py

    These run inside MongoDB.  [$dateTrunc] floors a date to a multiple of
    the bin (bins are aligned on 2000-01-01T00:00Z, a multiple of every bin
    used here); [$avg] is the sum of the values, accumulated in pipeline
    order, divided by their number; [$round] to [n] places rounds half to
    even. *)

Module Agg.

Definition dateTrunc (bin : Z) (ts : Z) : Z := ts - ts `mod` bin.

Definition sum (l : list float) : float :=
  foldl (λ acc x, acc + x)%float 0%float l.

Definition avg (l : list float) : float :=
  (sum l / Py.float_of_int (Z.of_nat (length l)))%float.

Definition round (x : float) (place : Z) : float := Py.round x place.

(** The [_id]s of a [$group] stage, each once, by first occurrence. *)
Definition group_keys (key : UsageSample.t → Z) (l : list UsageSample.t)
  : list Z :=
  remove_dups (key <$> l).

(** [$group]: every key with the documents that carry it, in pipeline
    order. *)
Definition group (key : UsageSample.t → Z) (l : list UsageSample.t)
  : list (Z * list UsageSample.t) :=
  (λ k, (k, filter (λ s, key s = k) l)) <$> group_keys key l.

End Agg.

(** ** app/routers/usage.py *)

Module Usage.

(** One element of ["data"]: at "1m" the matched sample document itself,
    otherwise the projection of a bucket. *)
Inductive row :=
| Raw (sample : UsageSample.t)
| Bucket (ts : Z) (cpu_pct ram_mib disk_gib : float) (sample_count : Z).

Record UsageData := {
  server_id : string;
  from_date : Z;
  to_date : Z;
  interval : string;
  data : list row
}.

Definition valid_intervals : list string := ["1m"; "5m"; "1h"; "1d"].

(** [$match] on the server and on [$gte from_date], [$lte to_date], the
    two bounds as the driver encodes them, followed by [$sort] on [ts]. *)
Definition matched (server_id : string) (from_date to_date : Z)
    (c : list UsageSample.t) : list UsageSample.t :=
  Mongo.sort_by UsageSample.ts
    (Mongo.find
       (λ s, UsageSample.server_id s = server_id
             ∧ Bson.datetime from_date ≤ UsageSample.ts s
             ∧ UsageSample.ts s ≤ Bson.datetime to_date)
       c).

(** The [$project] stage applied to one group. *)
Definition project (g : Z * list UsageSample.t) : row :=
  Bucket g.1
    (Agg.round (Agg.avg (UsageSample.cpu_pct <$> g.2)) 2)
    (Agg.round (Agg.avg (UsageSample.ram_mib <$> g.2)) 2)
    (Agg.round (Agg.avg (UsageSample.disk_gib <$> g.2)) 2)
    (Z.of_nat (length g.2)).

(** The bin of an interval other than "1m", in microseconds. *)
Definition bin_of (interval : string) : option Z :=
  if decide (interval = "5m") then Some (5 * 60000000)
  else if decide (interval = "1h") then Some 3600000000
  else if decide (interval = "1d") then Some 86400000000
  else None.

Section Pipeline.
(** The order in which a [$group] stage emits its groups is the
    server's choice; the pipeline has no [$sort] after [$group]. *)
Variable group_order :
  list (Z * list UsageSample.t) → list (Z * list UsageSample.t).

Definition aggregate (interval : string) (l : list UsageSample.t)
  : list row :=
  match bin_of interval with
  | None => Raw <$> l
  | Some bin =>
      project
        <$> group_order (Agg.group (Agg.dateTrunc bin ∘ UsageSample.ts) l)
  end.

Definition get_server_usage (server_id : string)
    (from_date to_date : option Z) (interval : string)
    (current_user : string) (now : Z) (w : World) : response UsageData :=
  match Mongo.find_one
          (λ d, ServerInDB.id d = server_id
                ∧ ServerInDB.user_id d = current_user)
          (servers (db w)) with
  | None => http HTTP_404_NOT_FOUND "Server not found"
  | Some _ =>
      let to_date := default now to_date in
      let from_date := default (to_date - Py.days 7) from_date in
      if decide (interval ∈ valid_intervals) then
        Ok {| server_id := server_id; from_date := from_date;
              to_date := to_date; interval := interval;
              data :=
                aggregate interval
                  (matched server_id from_date to_date
                     (usage_samples (db w))) |}
      else
        http HTTP_400_BAD_REQUEST
          "Invalid interval. Must be one of: ['1m', '5m', '1h', '1d']"
  end.
End Pipeline.

End Usage.

(** ** app/routers/billing.py *)

Module Billing.

(** The three accumulators of the integration loop. *)
Record hours := {
  vcpu_hours : float;
  ram_hours : float;
  disk_hours : float
}.

Definition zero_hours : hours :=
  {| vcpu_hours := 0.0; ram_hours := 0.0; disk_hours := 0.0 |}.

(** What one pair [(current_sample, next_sample)] adds to the
    accumulators. *)
Definition accumulate (server : ServerInDB.t)
    (current_sample next_sample : UsageSample.t) (acc : hours) : hours :=
  let time_diff :=
    (Py.total_seconds
       (UsageSample.ts next_sample - UsageSample.ts current_sample)
     / 3600.0)%float in
  {| vcpu_hours :=
       (vcpu_hours acc
        + (UsageSample.cpu_pct current_sample / 100.0)
          * Py.float_of_int (ServerInDB.cores server) * time_diff)%float;
     ram_hours :=
       (ram_hours acc
        + (UsageSample.ram_mib current_sample / 1024.0) * time_diff)%float;
     disk_hours :=
       (disk_hours acc + ServerInDB.disk_gib server * time_diff)%float |}.

(** The body of [for i in range(len(usage_samples) - 1)]. *)
Definition loop_body (server : ServerInDB.t)
    (usage_samples : list UsageSample.t) (acc : hours) (i : nat) : hours :=
  match usage_samples !! i, usage_samples !! (i + 1)%nat with
  | Some current_sample, Some next_sample =>
      accumulate server current_sample next_sample acc
  | _, _ => acc
  end.

Definition resource_hours (server : ServerInDB.t)
    (usage_samples : list UsageSample.t) : hours :=
  foldl (loop_body server usage_samples) zero_hours
    (seq 0 (length usage_samples - 1)).

(** The samples of one server in the period, [$gte period_start] and
    [$lt period_end] with the two bounds as the driver encodes them,
    sorted on [ts]. *)
Definition samples_in_period (server_id : string)
    (period_start period_end : Z) (c : list UsageSample.t)
  : list UsageSample.t :=
  Mongo.sort_by UsageSample.ts
    (Mongo.find
       (λ s, UsageSample.server_id s = server_id
             ∧ Bson.datetime period_start ≤ UsageSample.ts s
             ∧ UsageSample.ts s < Bson.datetime period_end)
       c).

(** One [if hours > 0:] block: the line item appended and the unrounded
    amount added to [total_amount]. *)
Definition add_item (kind unit : string) (quantity rate : float)
    (st : list LineItem.t * float) : list LineItem.t * float :=
  if (0 <? quantity)%float then
    let amount := (quantity * rate)%float in
    ((st.1 ++ [LineItem.mk kind unit (Py.round quantity 4) rate
                 (Py.round amount 4)])%list,
     (st.2 + amount)%float)
  else st.

Definition items_of (cfg : Settings.t) (h : hours)
    (st : list LineItem.t * float) : list LineItem.t * float :=
  add_item "Disk" "gib-hour" (disk_hours h)
    (Settings.disk_rate_per_gib_hour cfg)
    (add_item "RAM" "gib-hour" (ram_hours h)
       (Settings.ram_rate_per_gib_hour cfg)
       (add_item "vCPU" "core-hour" (vcpu_hours h)
          (Settings.vcpu_rate_per_core_hour cfg) st)).

(** The body of [for server in servers]. *)
Definition bill_server (cfg : Settings.t) (period_start period_end : Z)
    (c : list UsageSample.t) (st : list LineItem.t * float)
    (server : ServerInDB.t) : list LineItem.t * float :=
  let usage_samples :=
    samples_in_period (ServerInDB.id server) period_start period_end c in
  match usage_samples with
  | [] => st
  | _ => items_of cfg (resource_hours server usage_samples) st
  end.

Definition generate_invoice (cfg : Settings.t)
    (period_start period_end : Z) (current_user uuid : string) (now : Z)
    (w : World) : response Invoice.t * World :=
  if decide (period_start >= period_end) then
    (http HTTP_400_BAD_REQUEST "Period start must be before period end", w)
  else
    match Mongo.find_one
            (λ d, Invoice.user_id d = current_user
                  ∧ Invoice.period_start d = Bson.datetime period_start
                  ∧ Invoice.period_end d = Bson.datetime period_end)
            (invoices (db w)) with
    | Some _ =>
        (http HTTP_400_BAD_REQUEST "Invoice already exists for this period",
         w)
    | None =>
        match Mongo.find (λ d, ServerInDB.user_id d = current_user)
                (servers (db w)) with
        | [] =>
            (** raised inside the [try], caught by its [except Exception] *)
            (except_500 "Failed to generate invoice"
               (raised HTTP_400_BAD_REQUEST "No servers found for user"),
             w)
        | servers =>
            let '(line_items, total_amount) :=
              foldl
                (bill_server cfg period_start period_end
                   (usage_samples (db w)))
                ([], 0.0%float) servers in
            let invoice :=
              Invoice.mk uuid current_user period_start period_end
                line_items (Py.round total_amount 4)
                (Py.round total_amount 4) DRAFT now in
            let w :=
              set_invoices w
                (Mongo.insert_one (Bson.invoice invoice) (invoices (db w)))
            in
            let w := publish w (invoice_generated (Invoice.id invoice)) in
            (Ok invoice, w)
        end
    end.

(** [.sort("created_at", -1)]. *)
Definition list_invoices (current_user : string) (w : World)
  : list Invoice.t :=
  Mongo.sort_by (λ d, - Invoice.created_at d)
    (Mongo.find (λ d, Invoice.user_id d = current_user) (invoices (db w))).

Definition get_invoice (invoice_id current_user : string) (w : World)
  : response Invoice.t :=
  match Mongo.find_one
          (λ d, Invoice.id d = invoice_id
                ∧ Invoice.user_id d = current_user) (invoices (db w)) with
  | None => http HTTP_404_NOT_FOUND "Invoice not found"
  | Some invoice_doc => Ok invoice_doc
  end.

Definition set_status (st : InvoiceStatus) (d : Invoice.t) : Invoice.t :=
  Invoice.mk (Invoice.id d) (Invoice.user_id d) (Invoice.period_start d)
    (Invoice.period_end d) (Invoice.line_items d) (Invoice.subtotal d)
    (Invoice.total d) st (Invoice.created_at d).

Definition pay_invoice (invoice_id : string) (method : TransactionMethod)
    (current_user uuid : string) (now : Z) (w : World)
  : response TransactionInDB.t * World :=
  match Mongo.find_one
          (λ d, Invoice.id d = invoice_id
                ∧ Invoice.user_id d = current_user) (invoices (db w)) with
  | None => (http HTTP_404_NOT_FOUND "Invoice not found", w)
  | Some invoice =>
      if decide (Invoice.status invoice = PAID) then
        (http HTTP_400_BAD_REQUEST "Invoice is already paid", w)
      else
        let transaction :=
          TransactionInDB.mk invoice_id (Invoice.total invoice) method
            uuid now in
        let w :=
          set_transactions w
            (Mongo.insert_one (Bson.transaction transaction)
               (transactions (db w))) in
        let w :=
          set_invoices w
            (Mongo.update_one (λ d, Invoice.id d = invoice_id)
               (set_status PAID) (invoices (db w))) in
        (Ok transaction, w)
  end.

End Billing.

(** ** app/workers/usage_sampler.py *)

Module Sampler.

Inductive LogRecord :=
| warning_not_running (container_id server_id : string)
| warning_no_stats (server_id : string)
| info_sampled (server_id : string)
| error_sampling (server_id : string) (e : exn).

(** The dict display that builds [sample]: the three subscripts are
    evaluated in this order and the first missing key raises. *)
Definition build_sample (uuid server_id : string) (now : Z)
    (stats : gmap string float) : exn + UsageSample.t :=
  match stats !! "cpu_percent" with
  | None => inl (KeyError "cpu_percent")
  | Some cpu_pct =>
      match stats !! "memory_mb" with
      | None => inl (KeyError "memory_mb")
      | Some ram_mib =>
          match stats !! "disk_gb" with
          | None => inl (KeyError "disk_gb")
          | Some disk_gib =>
              inr (UsageSample.mk uuid server_id now cpu_pct ram_mib
                     disk_gib)
          end
      end
  end.

(** The body of the [try] of [sample_server_usage]: the exception that
    leaves it, if any, with the state and the log lines at that point.
    The event carries the [ts] of the dict, which the insert leaves as it
    was drawn. *)
Definition sample_body (server_id container_id uuid : string) (now : Z)
    (w : World) : option exn * World * list LogRecord :=
  if negb (is_container_running (docker_manager w) container_id) then
    (None,
     set_servers w
       (Mongo.delete_one (λ d, ServerInDB.id d = server_id)
          (servers (db w))),
     [warning_not_running container_id server_id])
  else
    match get_container_stats (docker_manager w) container_id with
    | Some stats =>
        if decide (stats = ∅) then (None, w, [warning_no_stats server_id])
        else
          match build_sample uuid server_id now stats with
          | inl e => (Some e, w, [])
          | inr sample =>
              let w :=
                set_usage_samples w
                  (Mongo.insert_one (Bson.usage_sample sample)
                     (usage_samples (db w))) in
              let w :=
                publish w (usage_sampled server_id (UsageSample.ts sample))
              in
              (None, w, [info_sampled server_id])
          end
    | None => (None, w, [warning_no_stats server_id])
    end.

(** [sample_server_usage]: [except Exception] logs the error and the
    task returns normally. *)
Definition sample_server_usage (server_id container_id uuid : string)
    (now : Z) (w : World) : World * list LogRecord :=
  match sample_body server_id container_id uuid now w with
  | (None, w', logs) => (w', logs)
  | (Some e, w', logs) => (w', (logs ++ [error_sampling server_id e])%list)
  end.

(** The servers a tick of [usage_sampling_loop] samples. *)
Definition running_servers (w : World) : list ServerInDB.t :=
  filter (λ d, Py.truthy (ServerInDB.container_id d) = true)
    (Mongo.find (λ d, ServerInDB.status d = RUNNING) (servers (db w))).

End Sampler.

(** ** The caller-facing routes (app/main.py)

    A request names a route of the servers, usage and billing routers with
    its arguments; [uuid] is the id drawn for the document a route creates
    and, for a server, [updated_at] the second reading of the clock.  The
    authentication layer hands every route the id of the caller. *)

Inductive Request :=
| CreateServer (server_data : ServerCreate.t) (uuid : string)
    (updated_at : Z)
| ListServers
| GetServer (server_id : string)
| StartServer (server_id : string)
| StopServer (server_id : string)
| UpdateServer (server_id : string) (server_update : ServerUpdate.t)
| DeleteServer (server_id : string)
| GetServerUsage (server_id : string) (from_date to_date : option Z)
    (interval : string)
| GenerateInvoice (period_start period_end : Z) (uuid : string)
| ListInvoices
| GetInvoice (invoice_id : string)
| PayInvoice (invoice_id : string) (method : TransactionMethod)
    (uuid : string).

(** The body of a successful answer. *)
Inductive Answer :=
| a_server (server : ServerInDB.t)
| a_servers (servers : list ServerInDB.t)
| a_message (message : string)
| a_usage (usage : Usage.UsageData)
| a_invoice (invoice : Invoice.t)
| a_invoices (invoices : list Invoice.t)
| a_transaction (transaction : TransactionInDB.t).

Definition answer {A} (body : A → Answer) (r : response A)
  : response Answer :=
  match r with
  | Ok a => Ok (body a)
  | Raise e => Raise e
  end.

(** Serving a request: the answer and the state it leaves.
    [group_order] is the emission order of [$group] in the usage query. *)
Definition handle
    (group_order :
       list (Z * list UsageSample.t) → list (Z * list UsageSample.t))
    (cfg : Settings.t) (req : Request) (current_user : string) (now : Z)
    (w : World) : response Answer * World :=
  match req with
  | CreateServer server_data uuid updated_at =>
      let r :=
        Servers.create_server server_data current_user uuid now updated_at w
      in
      (answer a_server r.1, r.2)
  | ListServers => (answer a_servers (Servers.list_servers current_user w), w)
  | GetServer server_id =>
      (answer a_server (Servers.get_server server_id current_user w), w)
  | StartServer server_id =>
      let r := Servers.start_server server_id current_user now w in
      (answer a_message r.1, r.2)
  | StopServer server_id =>
      let r := Servers.stop_server server_id current_user now w in
      (answer a_message r.1, r.2)
  | UpdateServer server_id server_update =>
      let r :=
        Servers.update_server server_id server_update current_user now w in
      (answer a_server r.1, r.2)
  | DeleteServer server_id =>
      let r := Servers.delete_server server_id current_user w in
      (answer a_message r.1, r.2)
  | GetServerUsage server_id from_date to_date interval =>
      (answer a_usage
         (Usage.get_server_usage group_order server_id from_date to_date
            interval current_user now w), w)
  | GenerateInvoice period_start period_end uuid =>
      let r :=
        Billing.generate_invoice cfg period_start period_end current_user
          uuid now w in
      (answer a_invoice r.1, r.2)
  | ListInvoices =>
      (Ok (a_invoices (Billing.list_invoices current_user w)), w)
  | GetInvoice invoice_id =>
      (answer a_invoice (Billing.get_invoice invoice_id current_user w), w)
  | PayInvoice invoice_id method uuid =>
      let r :=
        Billing.pay_invoice invoice_id method current_user uuid now w in
      (answer a_transaction r.1, r.2)
  end.

(** The documents of a collection owned by someone other than [user], and
    the state without them. *)
Definition foreign_servers (user : string) (w : World) : list ServerInDB.t :=
  filter (λ d, ServerInDB.user_id d ≠ user) (servers (db w)).

Definition foreign_invoices (user : string) (w : World) : list Invoice.t :=
  filter (λ d, Invoice.user_id d ≠ user) (invoices (db w)).

Definition own (user : string) (w : World) : World :=
  {| db :=
       {| servers :=
            filter (λ d, ServerInDB.user_id d = user) (servers (db w));
          usage_samples := usage_samples (db w);
          invoices :=
            filter (λ d, Invoice.user_id d = user) (invoices (db w));
          transactions := transactions (db w) |};
     docker_manager := docker_manager w;
     nats := nats w |}.

(** A route serves [user] within what [user] owns: the answer and the
    state left are those of the same call on the state without the
    documents of others, and these documents are left as they were. *)
Definition scoped {A} (user : string) (w : World)
    (r r0 : response A * World) : Prop :=
  r.1 = r0.1
  ∧ own user r.2 = r0.2
  ∧ foreign_servers user r.2 = foreign_servers user w
  ∧ foreign_invoices user r.2 = foreign_invoices user w.

(** ** The billed quantities in the words of the specification

    For each adjacent pair [(a, b)] of a server's time-ordered samples:
    [dt_hours = (b.ts - a.ts) / 3600s], and the three totals accumulate
    [(a.cpu_pct / 100) * cores * dt_hours], [(a.ram_mib / 1024) * dt_hours]
    and [disk_gib * dt_hours]. *)

Module Spec.



End Spec.



(** The row of the bucket starting at [start]: over the samples of [l]
    that truncate to [start], the means of the three readings, each rounded
    to 2 decimals, and the number of samples. *)
Definition rounded_mean_row (bin start : Z) (l : list UsageSample.t)
  : Usage.row :=
  let bucket :=
    filter (λ s, Agg.dateTrunc bin (UsageSample.ts s) = start) l in
  Usage.Bucket start
    (Py.round (Agg.avg (UsageSample.cpu_pct <$> bucket)) 2)
    (Py.round (Agg.avg (UsageSample.ram_mib <$> bucket)) 2)
    (Py.round (Agg.avg (UsageSample.disk_gib <$> bucket)) 2)
    (Z.of_nat (length bucket)).

(** The three resource-hour totals of a server, each with the kind, the
    unit and the rate of the line item it is billed under. *)
Definition billed_totals (cfg : Settings.t) (h : Billing.hours)
  : list (string * string * float * float) :=
  [("vCPU", "core-hour", Billing.vcpu_hours h,
    Settings.vcpu_rate_per_core_hour cfg);
   ("RAM", "gib-hour", Billing.ram_hours h,
    Settings.ram_rate_per_gib_hour cfg);
   ("Disk", "gib-hour", Billing.disk_hours h,
    Settings.disk_rate_per_gib_hour cfg)].

(** The line item [add_item] records for a positive total. *)
Definition item_of_total (kind unit : string) (total rate : float)
  : LineItem.t :=
  LineItem.mk kind unit (Py.round total 4) rate (Py.round (total * rate) 4).

(** ** Scenarios

    Concrete stores, runtimes and requests on which the operations are
    evaluated below.  Times are in microseconds. *)

Module Scenario.

(** A running server of user alice, bound to container [c0]. *)
Definition web : ServerInDB.t :=
  ServerInDB.mk (Some "web") "nginx:alpine" 0.5 2 1.0 10.0 "s1" "alice"
    RUNNING (Some "c0") 0 0.

Definition sample (id : string) (ts : Z) (cpu_pct ram_mib : float)
  : UsageSample.t :=
  UsageSample.mk id "s1" ts cpu_pct ram_mib 1.0.

Definition store (servers : list ServerInDB.t)
    (usage_samples : list UsageSample.t) (invoices : list Invoice.t)
  : World :=
  {| db := {| servers := servers; usage_samples := usage_samples;
              invoices := invoices; transactions := [] |};
     docker_manager := DockerManager_init None;
     nats := [] |}.

(** A daemon on which container [c0] of server [s1] runs. *)
Definition c0 : Docker.Container :=
  {| Docker.Id := "c0"; Docker.Name := "autobit-server-s1";
     Docker.Image := "nginx:alpine"; Docker.CpuQuota := 50000;
     Docker.CpuPeriod := 100000; Docker.Memory := 1073741824;
     Docker.MemorySwap := 1073741824; Docker.Status := "running";
     Docker.Stats := None |}.

Definition daemon : Docker.DockerClient :=
  {| Docker.containers := [c0]; Docker.images := ["nginx:alpine"];
     Docker.registry := []; Docker.created := 1 |}.

(** The store of alice's running server, in front of that daemon. *)
Definition live : World :=
  {| db := {| servers := [web]; usage_samples := []; invoices := [];
              transactions := [] |};
     docker_manager := DockerManager_init (Some daemon);
     nats := [] |}.

(** The same store with an adapter that holds the client but was marked
    unavailable. *)
Definition degraded : World :=
  {| db := db live;
     docker_manager := {| client := Some daemon; available := false |};
     nats := [] |}.

(** A server of bob. *)
Definition database : ServerInDB.t :=
  ServerInDB.mk (Some "db") "postgres:16" 1.0 1 2.0 20.0 "s2" "bob" RUNNING
    (Some "c7") 0 0.

(** The server of alice, stopped. *)
Definition alices : ServerInDB.t :=
  ServerInDB.mk (Some "web") "nginx:alpine" 0.5 2 1.0 10.0 "s1" "alice"
    STOPPED (Some "c0") 0 0.

(** Two samples one hour apart, the earlier one at 50% CPU; they were
    inserted out of order. *)
Definition hour_apart : list UsageSample.t :=
  [sample "u2" 3600000000 80.0 512.0; sample "u1" 0 50.0 1024.0].

(** Two samples 599.976 s apart with 1 GiB of RAM in use. *)
Definition ten_minutes : list UsageSample.t :=
  [sample "u1" 0 0.0 1024.0; sample "u2" 599976000 0.0 1024.0].

(** A single sample, taken at 01:00:00 exactly. *)
Definition on_the_hour : UsageSample.t :=
  sample "u1" 3600000000 50.0 1024.0.

(** Three samples in the hour from 00:00 and one in the next hour. *)
Definition two_hours : list UsageSample.t :=
  [sample "u1" 0 1.0 100.0; sample "u2" 60000000 1.0 100.0;
   sample "u3" 120000000 2.0 100.0; sample "u4" 3600000000 5.0 100.0].

(** A draft invoice of alice. *)
Definition draft : Invoice.t :=
  Invoice.mk "inv1" "alice" 0 3600000000
    [LineItem.mk "vCPU" "core-hour" 1 0.01 0.01] 0.01 0.01 DRAFT 5000.

(** A draft invoice of bob. *)
Definition bobs_draft : Invoice.t :=
  Invoice.mk "inv2" "bob" 0 3600000000 [] 0 0 DRAFT 4000.

End Scenario.

(** ** The error of an answer

    [respond] pairs the error a request is answered with, if any, with the
    state it leaves. *)

Definition error_of {A} (r : response A) : option HTTPException :=
  match r with
  | Ok _ => None
  | Raise e => Some e
  end.

Definition respond
    (group_order :
       list (Z * list UsageSample.t) → list (Z * list UsageSample.t))
    (cfg : Settings.t) (req : Request) (current_user : string) (now : Z)
    (w : World) : option HTTPException * World :=
  let r := handle group_order cfg req current_user now w in
  (error_of r.1, r.2).

(** The resource check of [create_server] and [update_server], read on a
    stored server: none of its four resource fields is [<= 0]. *)
Definition positive_shape (s : ServerInDB.t) : Prop :=
  (ServerInDB.cpu_limit s <=? 0)%float = false
  ∧ 0 < ServerInDB.cores s
  ∧ (ServerInDB.ram_gib s <=? 0)%float = false
  ∧ (ServerInDB.disk_gib s <=? 0)%float = false.

(** What the data model asks of the stored servers, invoices and
    transactions: ids identify the documents of a collection, a user has
    at most one invoice per period, no resource of a server is [<= 0], an
    invoice has [subtotal = total] and a period that does not end before it
    starts, and every document is one the driver can have written: encoding
    it again changes nothing. *)
Definition period_key (i : Invoice.t) : string * Z * Z :=
  (Invoice.user_id i, Invoice.period_start i, Invoice.period_end i).

Definition well_formed_invoice (i : Invoice.t) : Prop :=
  Invoice.period_start i ≤ Invoice.period_end i
  ∧ Invoice.subtotal i = Invoice.total i.

Record store_invariant (d : Database) : Prop := {
  server_ids_unique : NoDup (ServerInDB.id <$> servers d);
  invoice_ids_unique : NoDup (Invoice.id <$> invoices d);
  one_invoice_per_period : NoDup (period_key <$> invoices d);
  servers_positive : Forall positive_shape (servers d);
  invoices_well_formed : Forall well_formed_invoice (invoices d);
  servers_encoded : Forall (λ s, Bson.server s = inr s) (servers d);
  invoices_encoded : Forall (λ i, Bson.invoice i = i) (invoices d);
  transactions_encoded :
    Forall (λ t, Bson.transaction t = t) (transactions d)
}.

(** The id a request brings for the document it creates, if it creates
    one, is not in use in the collection. *)
Definition fresh_uuid (req : Request) (d : Database) : Prop :=
  match req with
  | CreateServer _ uuid _ => ∀ s, s ∈ servers d → ServerInDB.id s ≠ uuid
  | GenerateInvoice _ _ uuid => ∀ i, i ∈ invoices d → Invoice.id i ≠ uuid
  | _ => True
  end.

(** The instant a row of ["data"] is filed under and the number of samples
    it stands for; [total_count] adds the latter up. *)
Definition row_ts (r : Usage.row) : Z :=
  match r with
  | Usage.Raw s => UsageSample.ts s
  | Usage.Bucket ts _ _ _ _ => ts
  end.

Definition row_count (r : Usage.row) : Z :=
  match r with
  | Usage.Raw _ => 1
  | Usage.Bucket _ _ _ _ sample_count => sample_count
  end.

Definition total_count (rows : list Usage.row) : Z :=
  foldr (λ r acc, row_count r + acc) 0 rows.

(** The sizes of the buckets of [l] under the keys [ks], added up. *)
Definition bucket_sizes {A} (key : A → Z) (ks : list Z) (l : list A) : Z :=
  foldr (λ k acc, Z.of_nat (length (filter (λ s, key s = k) l)) + acc) 0 ks.

(** * Properties *)

Local Open Scope list_scope.

(** ** The store operations *)

Section MongoFacts.
Context {A : Type}.
Variable P : A → Prop.
Context `{!∀ x, Decision (P x)}.

Lemma find_one_Some (c : list A) (d : A) :
  Mongo.find_one P c = Some d → d ∈ c ∧ P d.
Proof.
  unfold Mongo.find_one. intros Hf.
  apply head_Some_elem_of in Hf. by apply list_elem_of_filter in Hf as [? ?].
Qed.

Lemma find_one_None (c : list A) :
  Mongo.find_one P c = None → ∀ d, d ∈ c → ¬ P d.
Proof.
  unfold Mongo.find_one. intros Hf d Hd HP.
  apply head_None in Hf.
  assert (d ∈ filter P c) as Hin by (apply list_elem_of_filter; done).
  rewrite Hf in Hin. by apply not_elem_of_nil in Hin.
Qed.

Lemma find_one_is_Some (c : list A) (d : A) :
  d ∈ c → P d → is_Some (Mongo.find_one P c).
Proof.
  intros Hd HP. destruct (Mongo.find_one P c) eqn:E; [by eexists|].
  by destruct (find_one_None c E d Hd).
Qed.

(** A write through [update_one] or [delete_one] is invisible to a view
    [Q] of the collection that the selected documents and their rewrites
    do not belong to. *)
Lemma filter_update_one (Q : A → Prop) `{!∀ x, Decision (Q x)}
    (f : A → A) (c : list A) :
  (∀ d, d ∈ c → P d → ¬ Q d ∧ ¬ Q (f d)) →
  filter Q (Mongo.update_one P f c) = filter Q c.
Proof.
  induction c as [|d r IH]; intros Hf; [done|]. simpl.
  destruct (decide (P d)) as [HP|HP].
  - destruct (Hf d (list_elem_of_here _ _) HP) as [H1 H2].
    rewrite !filter_cons. rewrite !decide_False by done. done.
  - rewrite !filter_cons. rewrite IH; [done|].
    intros d' Hd'. apply Hf. by apply list_elem_of_further.
Qed.

Lemma filter_delete_one (Q : A → Prop) `{!∀ x, Decision (Q x)}
    (c : list A) :
  (∀ d, d ∈ c → P d → ¬ Q d) →
  filter Q (Mongo.delete_one P c) = filter Q c.
Proof.
  induction c as [|d r IH]; intros Hf; [done|]. simpl.
  destruct (decide (P d)) as [HP|HP].
  - rewrite filter_cons, decide_False; [done|].
    by apply Hf; [apply list_elem_of_here|].
  - rewrite !filter_cons. rewrite IH; [done|].
    intros d' Hd'. apply Hf. by apply list_elem_of_further.
Qed.

(** With a key that identifies documents, [update_one] on the key
    rewrites exactly the document that carries it. *)
Lemma update_one_fmap_key {K} `{!EqDecision K} (key : A → K) (k : K)
    (f : A → A) (c : list A) :
  (∀ x, P x ↔ key x = k) → NoDup (key <$> c) →
  Mongo.update_one P f c = (λ d, if decide (P d) then f d else d) <$> c.
Proof.
  intros HP. induction c as [|d r IH]; intros Hnd; [done|]. simpl.
  apply NoDup_cons in Hnd as [Hd Hnd].
  destruct (decide (P d)) as [Hk|Hk].
  - f_equal. symmetry. rewrite <- (list_fmap_id r) at 2.
    apply list_fmap_ext. intros i x Hx. simpl.
    rewrite decide_False; [done|]. intros Hx'.
    apply Hd. apply HP in Hk, Hx'. rewrite Hk, <- Hx'.
    apply list_elem_of_fmap. exists x. split; [done|].
    by eapply list_elem_of_lookup_2.
  - f_equal. by apply IH.
Qed.
End MongoFacts.

Section SortFacts.
Context {A : Type}.
Variable key : A → Z.

Lemma insert_by_Permutation (x : A) (l : list A) :
  Mongo.insert_by key x l ≡ₚ x :: l.
Proof.
  induction l as [|y r IH]; [done|]. simpl.
  destruct (decide (key x ≤ key y)); [done|].
  rewrite IH. apply Permutation_swap.
Qed.

Lemma sort_by_Permutation (l : list A) : Mongo.sort_by key l ≡ₚ l.
Proof.
  induction l as [|x r IH]; [done|]. simpl.
  by rewrite insert_by_Permutation, IH.
Qed.

Lemma elem_of_sort_by (x : A) (l : list A) :
  x ∈ Mongo.sort_by key l ↔ x ∈ l.
Proof. by rewrite sort_by_Permutation. Qed.

Lemma insert_by_Sorted (x : A) (l : list A) :
  Sorted (Mongo.by_key key) l →
  Sorted (Mongo.by_key key) (Mongo.insert_by key x l).
Proof.
  induction l as [|y r IH]; intros Hs; simpl.
  - by repeat constructor.
  - destruct (decide (key x ≤ key y)) as [Hle|Hgt].
    + constructor; [done|]. by constructor.
    + apply Sorted_inv in Hs as [Hs Hhd].
      constructor; [by apply IH|].
      destruct r as [|z r']; simpl.
      * constructor. unfold Mongo.by_key. lia.
      * destruct (decide (key x ≤ key z)).
        -- constructor. unfold Mongo.by_key. lia.
        -- constructor. by apply HdRel_inv in Hhd.
Qed.

Lemma sort_by_Sorted (l : list A) :
  Sorted (Mongo.by_key key) (Mongo.sort_by key l).
Proof.
  induction l as [|x r IH]; simpl; [constructor|].
  by apply insert_by_Sorted.
Qed.
End SortFacts.

(** ** Invoice generation: the integration loop *)










(** What a successful [generate_invoice] has checked, computed and
    stored. *)
Lemma generate_invoice_Ok (cfg : Settings.t) (ps pe : Z)
    (current_user uuid : string) (now : Z) (w w' : World)
    (invoice : Invoice.t) :
  Billing.generate_invoice cfg ps pe current_user uuid now w
  = (Ok invoice, w') →
  ps < pe
  ∧ Mongo.find_one
      (λ d, Invoice.user_id d = current_user
            ∧ Invoice.period_start d = Bson.datetime ps
            ∧ Invoice.period_end d = Bson.datetime pe) (invoices (db w))
    = None
  ∧ Mongo.find (λ d, ServerInDB.user_id d = current_user) (servers (db w))
    ≠ []
  ∧ invoice
    = (let st :=
         foldl (Billing.bill_server cfg ps pe (usage_samples (db w)))
           ([], 0%float)
           (Mongo.find (λ d, ServerInDB.user_id d = current_user)
              (servers (db w))) in
       Invoice.mk uuid current_user ps pe st.1 (Py.round st.2 4)
         (Py.round st.2 4) DRAFT now)
  ∧ w' = publish
           (set_invoices w
              (Mongo.insert_one (Bson.invoice invoice) (invoices (db w))))
           (invoice_generated uuid).
Proof.
  unfold Billing.generate_invoice.
  destruct (decide _) as [|Hlt]; [done|].
  destruct (Mongo.find_one _ _); [done|].
  destruct (Mongo.find _ _) as [|s l] eqn:Hfind; [done|].
  destruct (foldl _ _ _) as [line_items total_amount].
  intros [= <- <-]. repeat split; try done. lia.
Qed.



(** ** Invoice generation: line items *)

Lemma float_neq (x y : float) : Prim2SF x ≠ Prim2SF y → x ≠ y.
Proof. intros Hne ->. by apply Hne. Qed.

Lemma elem_of_add_item (kind unit : string) (quantity rate : float)
    (st : list LineItem.t * float) (item : LineItem.t) :
  item ∈ (Billing.add_item kind unit quantity rate st).1 →
  item ∈ st.1
  ∨ (0 <? quantity)%float = true
    ∧ item = item_of_total kind unit quantity rate.
Proof.
  unfold Billing.add_item. destruct (0 <? quantity)%float; [|by left].
  simpl. rewrite elem_of_app, list_elem_of_singleton. intros [?|?]; auto.
Qed.

Lemma elem_of_bill_server (cfg : Settings.t) (ps pe : Z)
    (c : list UsageSample.t) (st : list LineItem.t * float)
    (server : ServerInDB.t) (item : LineItem.t) :
  item ∈ (Billing.bill_server cfg ps pe c st server).1 →
  item ∈ st.1
  ∨ ∃ kind unit total rate,
      (kind, unit, total, rate)
        ∈ billed_totals cfg
            (Billing.resource_hours server
               (Billing.samples_in_period (ServerInDB.id server) ps pe c))
      ∧ (0 <? total)%float = true
      ∧ item = item_of_total kind unit total rate.
Proof.
  unfold Billing.bill_server.
  destruct (Billing.samples_in_period _ _ _ _) as [|s0 l0] eqn:El;
    [by left|].
  unfold Billing.items_of. intros Hin.
  apply elem_of_add_item in Hin as [Hin|[Hpos ->]].
  - apply elem_of_add_item in Hin as [Hin|[Hpos ->]].
    + apply elem_of_add_item in Hin as [Hin|[Hpos ->]]; [by left|].
      right. do 4 eexists. split; [|done]. apply list_elem_of_here.
    + right. do 4 eexists. split; [|done].
      apply list_elem_of_further, list_elem_of_here.
  - right. do 4 eexists. split; [|done].
    do 2 apply list_elem_of_further. apply list_elem_of_here.
Qed.

Lemma elem_of_foldl_bill_server (cfg : Settings.t) (ps pe : Z)
    (c : list UsageSample.t) (l : list ServerInDB.t)
    (st : list LineItem.t * float) (item : LineItem.t) :
  item ∈ (foldl (Billing.bill_server cfg ps pe c) st l).1 →
  item ∈ st.1
  ∨ ∃ server kind unit total rate,
      server ∈ l
      ∧ (kind, unit, total, rate)
          ∈ billed_totals cfg
              (Billing.resource_hours server
                 (Billing.samples_in_period (ServerInDB.id server) ps pe c))
      ∧ (0 <? total)%float = true
      ∧ item = item_of_total kind unit total rate.
Proof.
  revert st. induction l as [|server l IH]; intros st; [by left|].
  simpl. intros Hin. apply IH in Hin as [Hin|Hin].
  - apply elem_of_bill_server in Hin as [Hin|(k & u & t & r & ? & ? & ?)];
      [by left|].
    right. exists server, k, u, t, r. split; [apply list_elem_of_here|done].
  - destruct Hin as (s & k & u & t & r & ? & ?).
    right. exists s, k, u, t, r. split; [by apply list_elem_of_further|done].
Qed.

(** C8, as the code has it. Every line item of a generated invoice comes
    from a positive resource-hour total of one of the caller's servers:
    its quantity is that total rounded to 4 decimals, and its amount is the
    unrounded total times the rate, rounded to 4 decimals. *)
Theorem C8_amount_from_unrounded_total (cfg : Settings.t) (ps pe : Z)
    (current_user uuid : string) (now : Z) (w w' : World)
    (invoice : Invoice.t) :
  Billing.generate_invoice cfg ps pe current_user uuid now w
  = (Ok invoice, w') →
  ∀ item, item ∈ Invoice.line_items invoice →
    ∃ server kind unit total rate,
      (server ∈ servers (db w) ∧ ServerInDB.user_id server = current_user)
      ∧ (kind, unit, total, rate)
          ∈ billed_totals cfg
              (Billing.resource_hours server
                 (Billing.samples_in_period (ServerInDB.id server) ps pe
                    (usage_samples (db w))))
      ∧ (0 <? total)%float = true
      ∧ LineItem.quantity item = Py.round total 4
      ∧ LineItem.rate item = rate
      ∧ LineItem.amount item = Py.round (total * rate) 4.
Proof.
  unfold Billing.generate_invoice. intros Hgen item Hitem.
  destruct (decide (ps >= pe)); [done|].
  destruct (Mongo.find_one _ (invoices (db w))); [done|].
  destruct (Mongo.find _ (servers (db w))) as [|s0 l0] eqn:Hfind; [done|].
  destruct (foldl _ _ (s0 :: l0)) as [line_items total_amount] eqn:Hfold.
  simplify_eq/=.
  assert (item ∈ (foldl
                    (Billing.bill_server cfg ps pe (usage_samples (db w)))
                    ([], 0%float) (s0 :: l0)).1) as Hin
    by (simpl; by rewrite Hfold).
  apply elem_of_foldl_bill_server in Hin
    as [Hin|(s & k & u & t & r & Hs & Ht & Hpos & ->)];
    [by apply not_elem_of_nil in Hin|].
  exists s, k, u, t, r. split; [|done].
  rewrite <- Hfind in Hs. unfold Mongo.find in Hs.
  by apply list_elem_of_filter in Hs as [? ?].
Qed.

Lemma C8_amount_from_unrounded_total_witness :
  let item := LineItem.mk "RAM" "gib-hour" 0.1667 0.0015 0.0002 in
  ∃ server kind unit total rate,
    (server ∈ [Scenario.web] ∧ ServerInDB.user_id server = "alice")
    ∧ (kind, unit, total, rate)
        ∈ billed_totals settings
            (Billing.resource_hours server
               (Billing.samples_in_period (ServerInDB.id server) 0
                  3600000000 Scenario.ten_minutes))
    ∧ (0 <? total)%float = true
    ∧ LineItem.quantity item = Py.round total 4
    ∧ LineItem.rate item = rate
    ∧ LineItem.amount item = Py.round (total * rate) 4.
Proof.
  intros item.
  eapply (C8_amount_from_unrounded_total settings 0 3600000000 "alice"
            "inv1" 0 (Scenario.store [Scenario.web] Scenario.ten_minutes [])).
  - lazy. reflexivity.
  - apply list_elem_of_here.
Defined.

(** C8, as stated, fails: for 0.16666 GiB-hours of RAM at 0.0015 the item
    records quantity 0.1667 and amount 0.0002, whereas the rounded quantity
    times the rate, rounded to 4 decimals, is 0.0003. *)
Lemma C8_counterexample :
  ∃ (invoice : Invoice.t) (w' : World) (item : LineItem.t),
    Billing.generate_invoice settings 0 3600000000 "alice" "inv1" 0
      (Scenario.store [Scenario.web] Scenario.ten_minutes [])
    = (Ok invoice, w')
    ∧ item ∈ Invoice.line_items invoice
    ∧ LineItem.quantity item = Py.round 0.16666 4
    ∧ LineItem.amount item
      ≠ Py.round (LineItem.quantity item * LineItem.rate item) 4.
Proof.
  eexists _, _, (LineItem.mk "RAM" "gib-hour" 0.1667 0.0015 0.0002).
  split; [by vm_compute|]. split; [apply list_elem_of_here|].
  split; [by vm_compute|]. apply float_neq. by vm_compute.
Qed.

(** ** Invoice generation for a user without servers *)

Lemma generate_invoice_no_servers (cfg : Settings.t) (ps pe : Z)
    (current_user uuid : string) (now : Z) (w : World) :
  ps < pe →
  Mongo.find_one
    (λ d, Invoice.user_id d = current_user
          ∧ Invoice.period_start d = Bson.datetime ps
          ∧ Invoice.period_end d = Bson.datetime pe) (invoices (db w))
  = None →
  (∀ s, s ∈ servers (db w) → ServerInDB.user_id s ≠ current_user) →
  Billing.generate_invoice cfg ps pe current_user uuid now w
  = (Raise {| status_code := HTTP_500_INTERNAL_SERVER_ERROR;
              detail := "Failed to generate invoice: "
                        ++ "400: No servers found for user" |}, w).
Proof.
  intros Hlt Hnone Hown. unfold Billing.generate_invoice.
  rewrite decide_False by lia. rewrite Hnone.
  destruct (Mongo.find _ (servers (db w))) as [|s l] eqn:Hfind; [done|].
  assert (s ∈ Mongo.find (λ d, ServerInDB.user_id d = current_user)
                (servers (db w))) as Hs
    by (rewrite Hfind; apply list_elem_of_here).
  unfold Mongo.find in Hs. apply list_elem_of_filter in Hs as [Hu Hs].
  by destruct (Hown s Hs).
Qed.

(** C7, on the code. Bob owns no server and asks for an invoice over a
    valid period: nothing is persisted, but the 400 raised for "No servers
    found for user" is caught by the handler's own [except Exception] and
    reaches the caller as a 500. *)
Theorem C7_no_servers_surfaces_as_500 :
  let w := Scenario.store [Scenario.web] [] [] in
  Billing.generate_invoice settings 0 3600000000 "bob" "inv1" 0 w
  = (Raise {| status_code := 500;
              detail := "Failed to generate invoice: "
                        ++ "400: No servers found for user" |}, w).
Proof.
  intros w. apply generate_invoice_no_servers; [done..|].
  intros s Hs. apply list_elem_of_singleton in Hs as ->. done.
Qed.

(** ** Payment *)

Lemma NoDup_fmap_elem_eq {A K} (key : A → K) (l : list A) (a b : A) :
  NoDup (key <$> l) → a ∈ l → b ∈ l → key a = key b → a = b.
Proof.
  induction l as [|x r IH]; intros Hnd Ha Hb Hk.
  - by apply not_elem_of_nil in Ha.
  - simpl in Hnd. apply NoDup_cons in Hnd as [Hx Hnd].
    apply elem_of_cons in Ha as [->|Ha];
      apply elem_of_cons in Hb as [->|Hb]; [done| | |by apply IH].
    + destruct Hx. rewrite Hk. apply list_elem_of_fmap. by exists b.
    + destruct Hx. rewrite <- Hk. apply list_elem_of_fmap. by exists a.
Qed.

Lemma find_one_unique {A K} (key : A → K) (P : A → Prop)
    `{!∀ x, Decision (P x)} (l : list A) (a : A) :
  NoDup (key <$> l) → a ∈ l → P a → (∀ x, P x → key x = key a) →
  Mongo.find_one P l = Some a.
Proof.
  intros Hnd Ha HP Hkey.
  destruct (find_one_is_Some P l a Ha HP) as [b Hb].
  rewrite Hb. f_equal. apply find_one_Some in Hb as [Hb HPb].
  eapply NoDup_fmap_elem_eq; eauto.
Qed.

(** C4. An invoice of the caller that is not Paid is paid successfully:
    exactly one Transaction is appended, for the invoice's total, and the
    invoice (and no other) becomes Paid, after which a further attempt is
    rejected; an invoice that is already Paid is rejected with the 400
    conflict and the state, transactions included, stays as it was.
    Invoice ids identify invoices. *)
Theorem C4_pay_invoice (invoice_id : string) (method : TransactionMethod)
    (current_user uuid : string) (now : Z) (w : World)
    (invoice : Invoice.t) :
  NoDup (Invoice.id <$> invoices (db w)) →
  invoice ∈ invoices (db w) →
  Invoice.id invoice = invoice_id →
  Invoice.user_id invoice = current_user →
  (Invoice.status invoice ≠ PAID →
   ∃ t w',
     Billing.pay_invoice invoice_id method current_user uuid now w
     = (Ok t, w')
     ∧ transactions (db w') = transactions (db w) ++ [Bson.transaction t]
     ∧ TransactionInDB.amount t = Invoice.total invoice
     ∧ TransactionInDB.invoice_id t = invoice_id
     ∧ TransactionInDB.method t = method
     ∧ invoices (db w')
       = (λ d, if decide (Invoice.id d = invoice_id)
               then Billing.set_status PAID d else d) <$> invoices (db w)
     ∧ Billing.get_invoice invoice_id current_user w'
       = Ok (Billing.set_status PAID invoice)
     ∧ ∀ method' uuid' now',
         Billing.pay_invoice invoice_id method' current_user uuid' now' w'
         = (http HTTP_400_BAD_REQUEST "Invoice is already paid", w'))
  ∧ (Invoice.status invoice = PAID →
     Billing.pay_invoice invoice_id method current_user uuid now w
     = (http HTTP_400_BAD_REQUEST "Invoice is already paid", w)).
Proof.
  intros Hnd Hin Hid Huser.
  assert (Mongo.find_one
            (λ d, Invoice.id d = invoice_id
                  ∧ Invoice.user_id d = current_user) (invoices (db w))
          = Some invoice) as Hfind.
  { apply (find_one_unique Invoice.id); [done..|]. intros x [-> _]. done. }
  split.
  - intros Hst. unfold Billing.pay_invoice. rewrite Hfind.
    rewrite decide_False by done.
    eexists _, _. split; [reflexivity|]. simpl.
    rewrite (update_one_fmap_key _ Invoice.id invoice_id) by done.
    set (g := λ d : Invoice.t,
           if decide (Invoice.id d = invoice_id)
           then Billing.set_status PAID d else d).
    assert (∀ d, Invoice.id (g d) = Invoice.id d) as Hgid
      by (intros d; unfold g; by destruct (decide _)).
    assert (Mongo.find_one
              (λ d, Invoice.id d = invoice_id
                    ∧ Invoice.user_id d = current_user)
              (g <$> invoices (db w))
            = Some (Billing.set_status PAID invoice)) as Hfind'.
    { apply (find_one_unique Invoice.id).
      - rewrite <- list_fmap_compose.
        by rewrite (list_fmap_ext (Invoice.id ∘ g) Invoice.id _
                      (λ _ d _, Hgid d)).
      - apply list_elem_of_fmap. exists invoice. split; [|done].
        unfold g. by rewrite decide_True.
      - done.
      - intros x [-> _]. done. }
    repeat split; try done.
    + unfold Billing.get_invoice. simpl. by rewrite Hfind'.
    + intros method' uuid' now'. unfold Billing.pay_invoice. simpl.
      by rewrite Hfind'.
  - intros Hst. unfold Billing.pay_invoice. rewrite Hfind.
    by rewrite decide_True.
Qed.

Lemma C4_pay_invoice_witness :
  let w := Scenario.store [] [] [Scenario.draft] in
  ∃ t w',
    Billing.pay_invoice "inv1" PAYPAL "alice" "t1" 9000 w = (Ok t, w')
    ∧ transactions (db w') = [Bson.transaction t]
    ∧ TransactionInDB.amount t = 0.01%float
    ∧ Billing.get_invoice "inv1" "alice" w'
      = Ok (Billing.set_status PAID Scenario.draft)
    ∧ Billing.pay_invoice "inv1" CREDIT_CARD "alice" "t2" 10000 w'
      = (http HTTP_400_BAD_REQUEST "Invoice is already paid", w').
Proof.
  intros w.
  destruct (C4_pay_invoice "inv1" PAYPAL "alice" "t1" 9000 w Scenario.draft)
    as [Hpay _].
  - apply NoDup_singleton.
  - apply list_elem_of_here.
  - reflexivity.
  - reflexivity.
  - destruct Hpay as (t & w' & Hrun & Htx & Hamt & _ & _ & _ & Hget & Hagain);
      [discriminate|].
    exists t, w'. repeat split; [exact Hrun|exact Htx|exact Hamt|exact Hget|].
    apply Hagain.
Defined.

(** ** Usage aggregation *)

Lemma elem_of_matched (server_id : string) (from_date to_date : Z)
    (c : list UsageSample.t) (s : UsageSample.t) :
  s ∈ Usage.matched server_id from_date to_date c
  ↔ s ∈ c ∧ UsageSample.server_id s = server_id
    ∧ Bson.datetime from_date ≤ UsageSample.ts s
    ∧ UsageSample.ts s ≤ Bson.datetime to_date.
Proof.
  unfold Usage.matched, Mongo.find.
  rewrite elem_of_sort_by, list_elem_of_filter. tauto.
Qed.

Lemma project_group (bin k : Z) (l : list UsageSample.t) :
  Usage.project
    (k, filter (λ s, (Agg.dateTrunc bin ∘ UsageSample.ts) s = k) l)
  = rounded_mean_row bin k l.
Proof. done. Qed.

Lemma aggregate_bin (group_order :
      list (Z * list UsageSample.t) → list (Z * list UsageSample.t))
    (interval : string) (bin : Z) (l : list UsageSample.t) :
  (∀ g, group_order g ≡ₚ g) →
  Usage.bin_of interval = Some bin →
  Usage.aggregate group_order interval l
  ≡ₚ (λ k, rounded_mean_row bin k l)
       <$> remove_dups ((Agg.dateTrunc bin ∘ UsageSample.ts) <$> l).
Proof.
  intros Hperm Hbin. unfold Usage.aggregate. rewrite Hbin.
  rewrite Hperm. unfold Agg.group, Agg.group_keys.
  rewrite <- list_fmap_compose. done.
Qed.

Lemma get_server_usage_Ok (group_order :
      list (Z * list UsageSample.t) → list (Z * list UsageSample.t))
    (server_id : string) (from_date to_date : Z) (interval : string)
    (current_user : string) (now : Z) (w : World) :
  is_Some (Mongo.find_one
             (λ d, ServerInDB.id d = server_id
                   ∧ ServerInDB.user_id d = current_user) (servers (db w))) →
  interval ∈ Usage.valid_intervals →
  Usage.get_server_usage group_order server_id (Some from_date)
    (Some to_date) interval current_user now w
  = Ok {| Usage.server_id := server_id; Usage.from_date := from_date;
          Usage.to_date := to_date; Usage.interval := interval;
          Usage.data :=
            Usage.aggregate group_order interval
              (Usage.matched server_id from_date to_date
                 (usage_samples (db w))) |}.
Proof.
  intros [srv Hsrv] Hint. unfold Usage.get_server_usage.
  rewrite Hsrv. simpl. by rewrite decide_True.
Qed.

(** C5, as the code has it. The range of the usage query is closed at both
    ends: at every interval, a sample of the server with
    [from <= ts <= to], the two bounds as the store compares them, is
    returned (as itself at "1m", counted in the row of its bucket
    otherwise), and every returned row comes from such samples. *)
Theorem C5_closed_range (group_order :
      list (Z * list UsageSample.t) → list (Z * list UsageSample.t))
    (server_id : string) (from_date to_date : Z) (interval : string)
    (current_user : string) (now : Z) (w : World) :
  (∀ g, group_order g ≡ₚ g) →
  is_Some (Mongo.find_one
             (λ d, ServerInDB.id d = server_id
                   ∧ ServerInDB.user_id d = current_user) (servers (db w))) →
  interval ∈ Usage.valid_intervals →
  let in_range (s : UsageSample.t) :=
    s ∈ usage_samples (db w) ∧ UsageSample.server_id s = server_id
    ∧ Bson.datetime from_date ≤ UsageSample.ts s
    ∧ UsageSample.ts s ≤ Bson.datetime to_date in
  let m :=
    Usage.matched server_id from_date to_date (usage_samples (db w)) in
  ∃ r,
    Usage.get_server_usage group_order server_id (Some from_date)
      (Some to_date) interval current_user now w = Ok r
    ∧ (∀ s, in_range s →
         match Usage.bin_of interval with
         | None => Usage.Raw s ∈ Usage.data r
         | Some bin =>
             rounded_mean_row bin (Agg.dateTrunc bin (UsageSample.ts s)) m
               ∈ Usage.data r
         end)
    ∧ (∀ row, row ∈ Usage.data r →
         match row with
         | Usage.Raw s => in_range s
         | Usage.Bucket start _ _ _ n =>
             ∃ bin s, Usage.bin_of interval = Some bin ∧ in_range s
                      ∧ Agg.dateTrunc bin (UsageSample.ts s) = start
         end).
Proof.
  intros Hperm Hsrv Hint in_range m.
  eexists. split; [by apply get_server_usage_Ok|]. simpl. fold m.
  destruct (Usage.bin_of interval) as [bin|] eqn:Hbin.
  - split.
    + intros s Hs. rewrite (aggregate_bin _ _ bin) by done.
      apply list_elem_of_fmap. eexists. split; [done|].
      apply elem_of_remove_dups, list_elem_of_fmap.
      exists s. split; [done|]. by apply elem_of_matched.
    + intros row. rewrite (aggregate_bin _ _ bin) by done.
      intros Hrow. apply list_elem_of_fmap in Hrow as (k & -> & Hk). simpl.
      apply elem_of_remove_dups, list_elem_of_fmap in Hk as (s & -> & Hs).
      exists bin, s. split; [done|]. split; [|done].
      by apply elem_of_matched.
  - unfold Usage.aggregate. rewrite Hbin. split.
    + intros s Hs. apply list_elem_of_fmap. exists s. split; [done|].
      by apply elem_of_matched.
    + intros row Hrow. apply list_elem_of_fmap in Hrow as (s & -> & Hs).
      by apply elem_of_matched.
Qed.

Lemma C5_closed_range_witness :
  let w := Scenario.store [Scenario.web] [Scenario.on_the_hour] [] in
  ∃ r,
    Usage.get_server_usage (λ g, g) "s1" (Some 0) (Some 3600000000) "1m"
      "alice" 0 w = Ok r
    ∧ Usage.Raw Scenario.on_the_hour ∈ Usage.data r.
Proof.
  intros w.
  destruct (C5_closed_range (λ g, g) "s1" 0 3600000000 "1m" "alice" 0 w)
    as (r & Hrun & Hin & _).
  - done.
  - by eexists.
  - apply list_elem_of_here.
  - exists r. split; [exact Hrun|].
    apply (Hin Scenario.on_the_hour). repeat split; try done.
    apply list_elem_of_here.
Defined.

(** C5, as stated, fails: the only sample of the server lies exactly on the
    end bound of the range and is returned at every interval. *)
Lemma C5_counterexample :
  let w := Scenario.store [Scenario.web] [Scenario.on_the_hour] [] in
  let query interval :=
    Usage.data
      <$> (match Usage.get_server_usage (λ g, g) "s1" (Some 0)
                   (Some 3600000000) interval "alice" 0 w with
           | Ok r => Some r
           | Raise _ => None
           end) in
  UsageSample.ts Scenario.on_the_hour = 3600000000
  ∧ query "1m" = Some [Usage.Raw Scenario.on_the_hour]
  ∧ query "5m" = Some [Usage.Bucket 3600000000 50 1024 1 1]
  ∧ query "1h" = Some [Usage.Bucket 3600000000 50 1024 1 1]
  ∧ query "1d" = Some [Usage.Bucket 0 50 1024 1 1].
Proof. by vm_compute. Qed.

Lemma remove_dups_two (l : list Z) (h1 h2 : Z) :
  h1 ≠ h2 → (∀ x, x ∈ l → x = h1 ∨ x = h2) → h1 ∈ l → h2 ∈ l →
  remove_dups l ≡ₚ [h1; h2].
Proof.
  intros Hne Hall H1 H2. apply NoDup_Permutation.
  - apply NoDup_remove_dups.
  - apply NoDup_cons. split; [by intros ->%list_elem_of_singleton|].
    apply NoDup_singleton.
  - intros x. rewrite elem_of_remove_dups, elem_of_cons,
      list_elem_of_singleton.
    split; [apply Hall|]. by intros [->| ->].
Qed.

(** C6, as the code has it. When the samples of the server in range fall
    into exactly two hour buckets, the "1h" query answers exactly 2 rows,
    one per bucket, and the row of a bucket carries the means of
    [cpu_pct], [ram_mib] and [disk_gib] over the samples truncating to that
    hour, each rounded to 2 decimals, with the number of those samples. *)
Theorem C6_two_hour_buckets (group_order :
      list (Z * list UsageSample.t) → list (Z * list UsageSample.t))
    (server_id : string) (from_date to_date : Z) (current_user : string)
    (now : Z) (w : World) (h1 h2 : Z) :
  let m :=
    Usage.matched server_id from_date to_date (usage_samples (db w)) in
  let hour (s : UsageSample.t) :=
    Agg.dateTrunc 3600000000 (UsageSample.ts s) in
  (∀ g, group_order g ≡ₚ g) →
  is_Some (Mongo.find_one
             (λ d, ServerInDB.id d = server_id
                   ∧ ServerInDB.user_id d = current_user) (servers (db w))) →
  h1 ≠ h2 →
  (∀ s, s ∈ m → hour s = h1 ∨ hour s = h2) →
  (∃ s, s ∈ m ∧ hour s = h1) →
  (∃ s, s ∈ m ∧ hour s = h2) →
  ∃ r,
    Usage.get_server_usage group_order server_id (Some from_date)
      (Some to_date) "1h" current_user now w = Ok r
    ∧ length (Usage.data r) = 2%nat
    ∧ Usage.data r
      ≡ₚ [rounded_mean_row 3600000000 h1 m; rounded_mean_row 3600000000 h2 m].
Proof.
  intros m hour Hperm Hsrv Hne Hall (s1 & Hs1 & Hh1) (s2 & Hs2 & Hh2).
  eexists. split.
  { apply get_server_usage_Ok; [done|]. unfold Usage.valid_intervals.
    do 2 apply list_elem_of_further. apply list_elem_of_here. }
  simpl. fold m.
  assert (Usage.aggregate group_order "1h" m
          ≡ₚ [rounded_mean_row 3600000000 h1 m;
              rounded_mean_row 3600000000 h2 m]) as Hdata.
  { rewrite (aggregate_bin _ _ 3600000000) by done.
    rewrite (remove_dups_two _ h1 h2); [done|done| | |].
    - intros x (s & -> & Hs)%list_elem_of_fmap. by apply Hall.
    - apply list_elem_of_fmap. by exists s1.
    - apply list_elem_of_fmap. by exists s2. }
  split; [|done]. by rewrite Hdata.
Qed.

Lemma C6_two_hour_buckets_witness :
  let w := Scenario.store [Scenario.web] Scenario.two_hours [] in
  ∃ r,
    Usage.get_server_usage (λ g, g) "s1" (Some 0) (Some 7199999999) "1h"
      "alice" 0 w = Ok r
    ∧ length (Usage.data r) = 2%nat
    ∧ Usage.data r
      ≡ₚ [Usage.Bucket 0 1.33 100 1 3; Usage.Bucket 3600000000 5 100 1 1].
Proof.
  intros w.
  apply (C6_two_hour_buckets (λ g, g) "s1" 0 7199999999 "alice" 0 w 0
           3600000000).
  - done.
  - by eexists.
  - done.
  - intros s Hs. vm_compute in Hs.
    repeat (apply elem_of_cons in Hs as [->|Hs]; [by vm_compute; auto|]).
    by apply not_elem_of_nil in Hs.
  - exists (Scenario.sample "u1" 0 1.0 100.0). split; [|done].
    vm_compute. apply list_elem_of_here.
  - exists (Scenario.sample "u4" 3600000000 5.0 100.0). split; [|done].
    vm_compute. do 3 apply list_elem_of_further. apply list_elem_of_here.
Defined.

(** C6, as stated, fails: three samples at 1, 1 and 2 percent share an hour
    bucket; their mean is 4/3, the row of the bucket says 1.33. *)
Lemma C6_counterexample :
  let w := Scenario.store [Scenario.web] Scenario.two_hours [] in
  let bucket :=
    filter (λ s, Agg.dateTrunc 3600000000 (UsageSample.ts s) = 0)
      Scenario.two_hours in
  ∃ r cpu_pct ram_mib disk_gib n,
    Usage.get_server_usage (λ g, g) "s1" (Some 0) (Some 7199999999) "1h"
      "alice" 0 w = Ok r
    ∧ length (Usage.data r) = 2%nat
    ∧ Usage.Bucket 0 cpu_pct ram_mib disk_gib n ∈ Usage.data r
    ∧ Agg.avg (UsageSample.cpu_pct <$> bucket) = (4 / 3)%float
    ∧ cpu_pct ≠ Agg.avg (UsageSample.cpu_pct <$> bucket).
Proof.
  eexists _, 1.33%float, _, _, _. split; [by vm_compute|].
  split; [done|]. split; [apply list_elem_of_here|].
  split; [by vm_compute|]. apply float_neq. by vm_compute.
Qed.

(** ** The runtime adapter without a runtime *)

(** C2, as the code has it. In mock mode [create_container] answers the
    synthetic handle [mock-container-<server id>], and start, stop, delete
    and the replace sequence answer success and the stats call answers the
    fixed mock reading, for every handle, leaving the adapter as it was. *)
Theorem C2_mock_mode (dm : DockerManager) (server : ServerInDB.t)
    (container_id : string) :
  connected dm = None →
  create_container dm server
  = (inr ("mock-container-" ++ ServerInDB.id server)%string, dm)
  ∧ start_container dm container_id = (true, dm)
  ∧ stop_container dm container_id = (true, dm)
  ∧ delete_container dm container_id = (true, dm)
  ∧ update_container_resources dm container_id server = (true, dm)
  ∧ get_container_stats dm container_id = Some mock_stats.
Proof.
  intros Hmock.
  unfold update_container_resources, create_container, start_container,
    stop_container, delete_container, get_container_stats.
  rewrite !Hmock. simpl. by rewrite ?Hmock.
Qed.

Lemma C2_mock_mode_witness :
  let dm := DockerManager_init None in
  create_container dm Scenario.web = (inr "mock-container-s1", dm)
  ∧ start_container dm "mock-container-s1" = (true, dm)
  ∧ stop_container dm "mock-container-s1" = (true, dm)
  ∧ delete_container dm "mock-container-s1" = (true, dm)
  ∧ update_container_resources dm "mock-container-s1" Scenario.web
    = (true, dm)
  ∧ get_container_stats dm "mock-container-s1" = Some mock_stats.
Proof.
  intros dm. apply (C2_mock_mode dm Scenario.web "mock-container-s1").
  reflexivity.
Defined.

(** C2, as stated, fails: for server [s1] the mock handle is
    [mock-container-s1], not [mock-s1], and the liveness probe reports that
    handle as not running. *)
Lemma C2_counterexample :
  let dm := DockerManager_init None in
  create_container dm Scenario.web = (inr "mock-container-s1", dm)
  ∧ "mock-container-s1" ≠ "mock-s1"
  ∧ is_container_running dm "mock-container-s1" = false.
Proof. done. Qed.

(** ** The sampler on the mock reading *)

Lemma mock_stats_keys :
  mock_stats !! "cpu_percent" = Some 25%float
  ∧ mock_stats !! "memory_usage_mb" = Some 512%float
  ∧ mock_stats !! "disk_usage_gb" = Some 1%float
  ∧ mock_stats !! "memory_mb" = None
  ∧ mock_stats !! "disk_gb" = None.
Proof. by vm_compute. Qed.

Lemma mock_stats_nonempty : mock_stats ≠ ∅.
Proof.
  intros Heq. pose proof mock_stats_keys as (Hcpu & _).
  rewrite Heq in Hcpu. by rewrite lookup_empty in Hcpu.
Qed.

(** C10. The reading of the adapter's mock branch has the keys
    [memory_usage_mb] and [disk_usage_gb] and lacks [memory_mb] and
    [disk_gb], so building the sample from it raises
    [KeyError('memory_mb')].  With the adapter in mock mode the task stores
    no usage sample; when it gets as far as the reading, its handler logs
    the KeyError and the state is what it was: nothing stored, nothing
    published. *)
Theorem C10_mock_reading_is_dropped (server_id container_id uuid : string)
    (now : Z) (w : World) :
  connected (docker_manager w) = None →
  get_container_stats (docker_manager w) container_id = Some mock_stats
  ∧ (is_Some (mock_stats !! "memory_usage_mb")
     ∧ is_Some (mock_stats !! "disk_usage_gb")
     ∧ mock_stats !! "memory_mb" = None
     ∧ mock_stats !! "disk_gb" = None)
  ∧ Sampler.build_sample uuid server_id now mock_stats
    = inl (KeyError "memory_mb")
  ∧ usage_samples
      (db (Sampler.sample_server_usage server_id container_id uuid now w).1)
    = usage_samples (db w)
  ∧ (is_container_running (docker_manager w) container_id = true →
     Sampler.sample_server_usage server_id container_id uuid now w
     = (w, [Sampler.error_sampling server_id (KeyError "memory_mb")])).
Proof.
  intros Hmock.
  assert (get_container_stats (docker_manager w) container_id
          = Some mock_stats) as Hstats
    by (unfold get_container_stats; by rewrite Hmock).
  assert (Sampler.build_sample uuid server_id now mock_stats
          = inl (KeyError "memory_mb")) as Hbuild by (by vm_compute).
  pose proof mock_stats_keys as (_ & Hmem & Hdisk & Hno_mem & Hno_disk).
  split; [done|]. split; [by rewrite Hmem, Hdisk|]. split; [done|].
  unfold Sampler.sample_server_usage, Sampler.sample_body.
  rewrite Hstats.
  destruct (is_container_running (docker_manager w) container_id); simpl.
  - rewrite decide_False by apply mock_stats_nonempty.
    by rewrite Hbuild.
  - done.
Qed.

Lemma C10_mock_reading_is_dropped_witness :
  Sampler.sample_server_usage "s1" "c0" "u1" 30000 Scenario.degraded
  = (Scenario.degraded,
     [Sampler.error_sampling "s1" (KeyError "memory_mb")]).
Proof.
  apply (C10_mock_reading_is_dropped "s1" "c0" "u1" 30000 Scenario.degraded);
    reflexivity.
Defined.

(** With the adapter as its constructor leaves it when no daemon answers,
    the task does not get as far as the stats call: the liveness probe
    answers [False] and the server record is deleted. *)
Lemma sample_server_usage_without_client (server_id container_id uuid : string)
    (now : Z) (w : World) :
  docker_manager w = DockerManager_init None →
  Sampler.sample_server_usage server_id container_id uuid now w
  = (set_servers w
       (Mongo.delete_one (λ d, ServerInDB.id d = server_id) (servers (db w))),
     [Sampler.warning_not_running container_id server_id]).
Proof.
  intros Hdm. unfold Sampler.sample_server_usage, Sampler.sample_body.
  by rewrite Hdm.
Qed.

(** ** Updating a running server *)

Lemma parse_inr (model : string) (server_doc server : ServerInDB.t) :
  parse model server_doc = inr server →
  server = server_doc ∧ is_Some (ServerInDB.name server_doc).
Proof.
  unfold parse. destruct (ServerInDB.name server_doc) eqn:Hname; [|done].
  intros [= <-]. split; [done|]. by eexists.
Qed.

Lemma parse_Some (model : string) (server_doc : ServerInDB.t) :
  is_Some (ServerInDB.name server_doc) →
  parse model server_doc = inr server_doc.
Proof. unfold parse. by intros [n ->]. Qed.

Lemma persist_Ok (server_id : string) (server server' : ServerInDB.t)
    (w w' : World) :
  Servers.persist server_id server w = (Ok server', w') →
  server' = server ∧ is_Some (ServerInDB.name server)
  ∧ ∃ server_doc,
      Bson.server server = inr server_doc
      ∧ w' = set_servers w
               (Mongo.update_one (λ d, ServerInDB.id d = server_id)
                  (λ _, server_doc) (servers (db w))).
Proof.
  unfold Servers.persist.
  destruct (Bson.server server) as [e|server_doc]; [done|].
  destruct (parse "Server" server) as [e|s] eqn:Hparse; [done|].
  apply parse_inr in Hparse as [-> Hname].
  intros [= <- <-]. split; [done|]. split; [done|]. by exists server_doc.
Qed.

(** What a successful [update_server] has read, checked, asked of the
    runtime and written. *)
Lemma update_server_Ok (server_id : string) (server_update : ServerUpdate.t)
    (current_user : string) (now : Z) (w w' : World)
    (server : ServerInDB.t) :
  Servers.update_server server_id server_update current_user now w
  = (Ok server, w') →
  ∃ old dm server_doc,
    Mongo.find_one
      (λ d, ServerInDB.id d = server_id
            ∧ ServerInDB.user_id d = current_user) (servers (db w))
    = Some old
    ∧ is_Some (ServerInDB.name old)
    ∧ Servers.no_fields server_update = false
    ∧ Servers.non_positive_field server_update = inr None
    ∧ server = Servers.apply_update server_update now old
    ∧ Bson.server server = inr server_doc
    ∧ w' = set_servers (set_docker_manager w dm)
             (Mongo.update_one (λ d, ServerInDB.id d = server_id)
                (λ _, server_doc) (servers (db w)))
    ∧ is_Some (ServerInDB.name server)
    ∧ (if bool_decide (ServerInDB.status old = RUNNING)
          && Py.truthy (ServerInDB.container_id old)
          && Servers.any_resource_field server_update
       then update_container_resources (docker_manager w)
              (default "" (ServerInDB.container_id old)) server
            = (true, dm)
       else dm = docker_manager w).
Proof.
  unfold Servers.update_server.
  destruct (Mongo.find_one _ (servers (db w))) as [old|]; [|done].
  destruct (parse "ServerInDB" old) as [e|s] eqn:Hparse; [done|].
  apply parse_inr in Hparse as [-> Hname].
  destruct (Servers.no_fields server_update); [done|].
  destruct (Servers.non_positive_field server_update) as [e|[f|]];
    [done..|].
  cbn [ServerInDB.status ServerInDB.container_id Servers.apply_update].
  destruct (_ && _) eqn:Hcond.
  - destruct (update_container_resources _ _ _) as [[] dm] eqn:Hupd;
      [|done].
    intros Hp. apply persist_Ok in Hp as (-> & Hn & doc & Hdoc & ->).
    exists old, dm, doc. by rewrite Hcond.
  - intros Hp. apply persist_Ok in Hp as (-> & Hn & doc & Hdoc & ->).
    exists old, (docker_manager w), doc. rewrite Hcond.
    repeat split; done.
Qed.

(** Whatever the update, the handle that [update_server] persists and
    returns is the handle it read. *)
Lemma update_server_keeps_container_id (server_id : string)
    (server_update : ServerUpdate.t) (current_user : string) (now : Z)
    (w w' : World) (server : ServerInDB.t) :
  Servers.update_server server_id server_update current_user now w
  = (Ok server, w') →
  ∃ old server_doc,
    Mongo.find_one
      (λ d, ServerInDB.id d = server_id
            ∧ ServerInDB.user_id d = current_user) (servers (db w))
    = Some old
    ∧ ServerInDB.container_id server = ServerInDB.container_id old
    ∧ Bson.server server = inr server_doc
    ∧ ServerInDB.container_id server_doc = ServerInDB.container_id old
    ∧ servers (db w')
      = Mongo.update_one (λ d, ServerInDB.id d = server_id)
          (λ _, server_doc) (servers (db w)).
Proof.
  intros Hupd.
  destruct (update_server_Ok _ _ _ _ _ _ _ Hupd)
    as (old & dm & server_doc & Hfind & _ & _ & _ & -> & Hdoc & -> & _).
  exists old, server_doc. split; [done|]. split; [done|].
  split; [done|]. split; [|done].
  unfold Bson.server in Hdoc. destruct (Bson.int64 _); [|done].
  by injection Hdoc as <-.
Qed.

(** C1, on the code. Alice changes [cores] of her running server, bound to
    container [c0] of a live daemon.  The replace sequence succeeds: [c0]
    is removed and a new container [ctr-1] runs in its place.  The server
    record is written back with the handle [c0] it was read with, which no
    longer names a container. *)
Theorem C1_update_keeps_the_old_handle :
  ∃ server w',
    Servers.update_server "s1"
      (ServerUpdate.mk Unset Unset (Value 4) Unset Unset) "alice" 77
      Scenario.live = (Ok server, w')
    ∧ update_container_resources (docker_manager Scenario.live) "c0" server
      = (true, docker_manager w')
    ∧ (λ d, (ServerInDB.cores d, ServerInDB.container_id d))
        <$> servers (db w') = [(4, Some "c0")]
    ∧ (λ c, (λ k, (Docker.Id k, Docker.Status k)) <$> Docker.containers c)
        <$> client (docker_manager w') = Some [("ctr-1", "running")]
    ∧ is_container_running (docker_manager w') "c0" = false.
Proof. eexists _, _. split; [by vm_compute|]. by vm_compute. Qed.

(** ** Ownership *)

Section Owned.
Context {A : Type}.
Variables id owner : A → string.

Lemma unique_owner (l : list A) (x u : string) (a : A) :
  NoDup (id <$> l) →
  Mongo.find_one (λ d, id d = x ∧ owner d = u) l = Some a →
  ∀ d, d ∈ l → id d = x → owner d = u.
Proof.
  intros Hnd Hfind d Hd Hid.
  apply find_one_Some in Hfind as (Ha & Hax & Hau).
  by rewrite (NoDup_fmap_elem_eq id l d a Hnd Hd Ha) by congruence.
Qed.

Lemma foreign_update_one (l : list A) (x u : string) (a : A)
    (f : A → A) :
  NoDup (id <$> l) →
  Mongo.find_one (λ d, id d = x ∧ owner d = u) l = Some a →
  (∀ d, owner d = u → owner (f d) = u) →
  filter (λ d, owner d ≠ u) (Mongo.update_one (λ d, id d = x) f l)
  = filter (λ d, owner d ≠ u) l.
Proof.
  intros Hnd Hfind Hf. apply filter_update_one. intros d Hd Hid.
  pose proof (unique_owner l x u a Hnd Hfind d Hd Hid) as Hown.
  split; intros Hne; apply Hne; [done|]. by apply Hf.
Qed.

Lemma foreign_insert_one (l : list A) (u : string) (a : A) :
  owner a = u →
  filter (λ d, owner d ≠ u) (Mongo.insert_one a l)
  = filter (λ d, owner d ≠ u) l.
Proof.
  intros Ha. unfold Mongo.insert_one. rewrite filter_app, filter_cons.
  rewrite decide_False by (by intros Hne; apply Hne).
  by rewrite filter_nil, app_nil_r.
Qed.

(** A query that carries the owner finds in the documents of the owner
    what it finds in the collection. *)
Lemma filter_own (P : A → Prop) `{!∀ x, Decision (P x)} (l : list A)
    (u : string) :
  (∀ d, P d → owner d = u) →
  filter P (filter (λ d, owner d = u) l) = filter P l.
Proof.
  intros HP. induction l as [|d r IH]; [done|].
  rewrite !filter_cons. destruct (decide (owner d = u)) as [Hu|Hu].
  - rewrite filter_cons. by rewrite IH.
  - rewrite decide_False; [done|]. intros Hd. by apply Hu, HP.
Qed.

Lemma find_one_own (P : A → Prop) `{!∀ x, Decision (P x)} (l : list A)
    (u : string) :
  (∀ d, P d → owner d = u) →
  Mongo.find_one P (filter (λ d, owner d = u) l) = Mongo.find_one P l.
Proof. intros HP. unfold Mongo.find_one. by rewrite filter_own. Qed.

(** The writes commute with the restriction to the documents of the
    owner. *)
Lemma own_update_one (l : list A) (x u : string) (a : A) (f : A → A) :
  NoDup (id <$> l) →
  Mongo.find_one (λ d, id d = x ∧ owner d = u) l = Some a →
  (∀ d, owner d = u → owner (f d) = u) →
  filter (λ d, owner d = u) (Mongo.update_one (λ d, id d = x) f l)
  = Mongo.update_one (λ d, id d = x) f (filter (λ d, owner d = u) l).
Proof.
  intros Hnd Hfind Hf.
  pose proof (unique_owner l x u a Hnd Hfind) as Hown. clear Hnd Hfind.
  induction l as [|d r IH]; [done|]. simpl.
  assert (∀ d, d ∈ r → id d = x → owner d = u) as Hr
    by (intros d' Hd'; by apply Hown, list_elem_of_further).
  destruct (decide (id d = x)) as [Hx|Hx].
  - pose proof (Hown d (list_elem_of_here _ _) Hx) as Hd.
    rewrite !filter_cons, !decide_True by auto. simpl.
    by rewrite decide_True.
  - rewrite !filter_cons. destruct (decide (owner d = u)).
    + simpl. rewrite decide_False by done. f_equal. by apply IH.
    + by apply IH.
Qed.

Lemma own_delete_one (l : list A) (x u : string) :
  filter (λ d, owner d = u)
    (Mongo.delete_one (λ d, id d = x ∧ owner d = u) l)
  = Mongo.delete_one (λ d, id d = x ∧ owner d = u)
      (filter (λ d, owner d = u) l).
Proof.
  induction l as [|d r IH]; [done|]. simpl.
  destruct (decide (id d = x ∧ owner d = u)) as [[Hx Hu]|Hno].
  - rewrite filter_cons, decide_True by done. simpl.
    by rewrite decide_True.
  - rewrite !filter_cons. destruct (decide (owner d = u)).
    + simpl. rewrite decide_False by done. f_equal. apply IH.
    + apply IH.
Qed.

Lemma own_insert_one (l : list A) (u : string) (a : A) :
  owner a = u →
  filter (λ d, owner d = u) (Mongo.insert_one a l)
  = Mongo.insert_one a (filter (λ d, owner d = u) l).
Proof.
  intros Ha. unfold Mongo.insert_one. rewrite filter_app, filter_cons.
  by rewrite decide_True.
Qed.
End Owned.

Lemma scoped_read {A} (user : string) (w : World) (r : response A) :
  scoped user w (r, w) (r, own user w).
Proof. by repeat split. Qed.

Lemma scoped_runtime {A} (user : string) (w : World) (r : response A)
    (dm : DockerManager) :
  scoped user w (r, set_docker_manager w dm)
    (r, set_docker_manager (own user w) dm).
Proof. by repeat split. Qed.

Lemma scoped_answer {A} (body : A → Answer) (user : string) (w : World)
    (r r0 : response A * World) :
  scoped user w r r0 →
  scoped user w (answer body r.1, r.2) (answer body r0.1, r0.2).
Proof. intros (Hr & Hw & Hs & Hi). repeat split; try done. by rewrite Hr. Qed.

Lemma start_server_scoped (server_id current_user : string) (now : Z)
    (w : World) :
  NoDup (ServerInDB.id <$> servers (db w)) →
  scoped current_user w
    (Servers.start_server server_id current_user now w)
    (Servers.start_server server_id current_user now (own current_user w)).
Proof.
  intros Hnd. unfold Servers.start_server. cbn [own db servers].
  rewrite (find_one_own ServerInDB.user_id) by (by intros d [_ ?]).
  destruct (Mongo.find_one _ (servers (db w))) as [doc|] eqn:Hfind;
    [|apply scoped_read].
  destruct (parse _ doc) as [e|server]; [apply scoped_read|].
  destruct (decide _); [apply scoped_read|].
  destruct (negb _); [apply scoped_read|]. cbn [docker_manager].
  destruct (start_container _ _) as [[] dm]; [|apply scoped_runtime].
  split; [done|]. split; [|split; [|done]].
  - unfold own, publish, set_servers, set_docker_manager. simpl.
    do 2 f_equal.
    by apply (own_update_one ServerInDB.id ServerInDB.user_id _ _ _ doc).
  - unfold foreign_servers. simpl.
    by apply (foreign_update_one ServerInDB.id ServerInDB.user_id _ _ _ doc).
Qed.

Lemma stop_server_scoped (server_id current_user : string) (now : Z)
    (w : World) :
  NoDup (ServerInDB.id <$> servers (db w)) →
  scoped current_user w
    (Servers.stop_server server_id current_user now w)
    (Servers.stop_server server_id current_user now (own current_user w)).
Proof.
  intros Hnd. unfold Servers.stop_server. cbn [own db servers].
  rewrite (find_one_own ServerInDB.user_id) by (by intros d [_ ?]).
  destruct (Mongo.find_one _ (servers (db w))) as [doc|] eqn:Hfind;
    [|apply scoped_read].
  destruct (parse _ doc) as [e|server]; [apply scoped_read|].
  destruct (decide _); [apply scoped_read|].
  destruct (negb _); [apply scoped_read|]. cbn [docker_manager].
  destruct (stop_container _ _) as [[] dm]; [|apply scoped_runtime].
  split; [done|]. split; [|split; [|done]].
  - unfold own, publish, set_servers, set_docker_manager. simpl.
    do 2 f_equal.
    by apply (own_update_one ServerInDB.id ServerInDB.user_id _ _ _ doc).
  - unfold foreign_servers. simpl.
    by apply (foreign_update_one ServerInDB.id ServerInDB.user_id _ _ _ doc).
Qed.

Lemma persist_scoped (server_id current_user : string)
    (old server : ServerInDB.t) (w0 w : World) :
  NoDup (ServerInDB.id <$> servers (db w0)) →
  Mongo.find_one
    (λ d, ServerInDB.id d = server_id
          ∧ ServerInDB.user_id d = current_user) (servers (db w0))
  = Some old →
  ServerInDB.user_id server = current_user →
  db w = db w0 →
  scoped current_user w0 (Servers.persist server_id server w)
    (Servers.persist server_id server (own current_user w)).
Proof.
  intros Hnd Hfind Hown Hdb. unfold Servers.persist.
  assert (foreign_servers current_user w = foreign_servers current_user w0
          ∧ foreign_invoices current_user w
            = foreign_invoices current_user w0) as [Hs Hi]
    by (unfold foreign_servers, foreign_invoices; by rewrite Hdb).
  destruct (Bson.server server) as [e|doc] eqn:Hdoc; [by repeat split|].
  assert (ServerInDB.user_id doc = current_user) as Hdoc_own.
  { unfold Bson.server in Hdoc. destruct (Bson.int64 _); [|done].
    by injection Hdoc as <-. }
  assert (scoped current_user w0
            (Ok server,
             set_servers w
               (Mongo.update_one (λ d, ServerInDB.id d = server_id)
                  (λ _, doc) (servers (db w))))
            (Ok server,
             set_servers (own current_user w)
               (Mongo.update_one (λ d, ServerInDB.id d = server_id)
                  (λ _, doc) (servers (db (own current_user w))))))
    as (_ & Hw & Hfs & Hfi).
  { split; [done|]. split; [|split].
    - unfold own, set_servers. simpl. rewrite Hdb. do 2 f_equal.
      by apply (own_update_one ServerInDB.id ServerInDB.user_id _ _ _ old).
    - unfold foreign_servers. simpl. rewrite Hdb.
      by apply (foreign_update_one ServerInDB.id ServerInDB.user_id
                  _ _ _ old).
    - done. }
  destruct (parse "Server" server); by repeat split.
Qed.

Lemma update_server_scoped (server_id : string)
    (server_update : ServerUpdate.t) (current_user : string) (now : Z)
    (w : World) :
  NoDup (ServerInDB.id <$> servers (db w)) →
  scoped current_user w
    (Servers.update_server server_id server_update current_user now w)
    (Servers.update_server server_id server_update current_user now
       (own current_user w)).
Proof.
  intros Hnd. unfold Servers.update_server. cbn [own db servers].
  rewrite (find_one_own ServerInDB.user_id) by (by intros d [_ ?]).
  destruct (Mongo.find_one _ (servers (db w))) as [doc|] eqn:Hfind;
    [|apply scoped_read].
  pose proof (find_one_Some _ _ _ Hfind) as (_ & _ & Hown).
  destruct (parse _ doc) as [e|server] eqn:Hparse; [apply scoped_read|].
  apply parse_inr in Hparse as [-> _].
  destruct (Servers.no_fields server_update); [apply scoped_read|].
  destruct (Servers.non_positive_field server_update) as [e|[f|]];
    [apply scoped_read..|].
  cbn [docker_manager].
  destruct (_ && _).
  - destruct (update_container_resources _ _ _) as [[] dm];
      [|apply scoped_runtime].
    change (set_docker_manager (own current_user w) dm)
      with (own current_user (set_docker_manager w dm)).
    by apply (persist_scoped _ _ doc).
  - by apply (persist_scoped _ _ doc).
Qed.

Lemma delete_server_scoped (server_id current_user : string) (w : World) :
  scoped current_user w
    (Servers.delete_server server_id current_user w)
    (Servers.delete_server server_id current_user (own current_user w)).
Proof.
  unfold Servers.delete_server. cbn [own db servers].
  rewrite (find_one_own ServerInDB.user_id) by (by intros d [_ ?]).
  destruct (Mongo.find_one _ (servers (db w))) as [doc|] eqn:Hfind;
    [|apply scoped_read].
  destruct (parse _ doc) as [e|server]; [apply scoped_read|].
  cbn [docker_manager].
  split; [done|]. split; [|split].
  - destruct (Py.truthy _); unfold own, set_servers, set_docker_manager;
      simpl; do 2 f_equal;
      apply (own_delete_one ServerInDB.id ServerInDB.user_id).
  - unfold foreign_servers.
    destruct (Py.truthy _); simpl;
      (apply filter_delete_one; intros d _ [_ Hu] Hne; by apply Hne).
  - by destruct (Py.truthy _).
Qed.

Lemma create_server_scoped (server_data : ServerCreate.t)
    (current_user uuid : string) (now updated_at : Z) (w : World) :
  scoped current_user w
    (Servers.create_server server_data current_user uuid now updated_at w)
    (Servers.create_server server_data current_user uuid now updated_at
       (own current_user w)).
Proof.
  unfold Servers.create_server.
  destruct (_ || _); [apply scoped_read|]. cbn [own docker_manager].
  destruct (create_container _ _) as [[e|container_id] dm];
    [apply scoped_runtime|].
  destruct (Bson.server _) as [e|doc] eqn:Hdoc; [apply scoped_runtime|].
  assert (ServerInDB.user_id doc = current_user) as Hown.
  { unfold Bson.server in Hdoc. destruct (Bson.int64 _); [|done].
    by injection Hdoc as <-. }
  split; [done|]. split; [|split; [|done]].
  - unfold own, publish, set_servers, set_docker_manager. simpl.
    do 2 f_equal. by apply (own_insert_one ServerInDB.user_id).
  - unfold foreign_servers. simpl.
    by apply (foreign_insert_one ServerInDB.user_id).
Qed.

Lemma list_servers_scoped (current_user : string) (w : World) :
  Servers.list_servers current_user w
  = Servers.list_servers current_user (own current_user w).
Proof.
  unfold Servers.list_servers, Mongo.find. cbn [own db servers].
  by rewrite (filter_own ServerInDB.user_id).
Qed.

Lemma get_server_scoped (server_id current_user : string) (w : World) :
  Servers.get_server server_id current_user w
  = Servers.get_server server_id current_user (own current_user w).
Proof.
  unfold Servers.get_server. cbn [own db servers].
  by rewrite (find_one_own ServerInDB.user_id) by (by intros d [_ ?]).
Qed.

Lemma get_server_usage_scoped
    (group_order :
       list (Z * list UsageSample.t) → list (Z * list UsageSample.t))
    (server_id : string) (from_date to_date : option Z) (interval : string)
    (current_user : string) (now : Z) (w : World) :
  Usage.get_server_usage group_order server_id from_date to_date interval
    current_user now w
  = Usage.get_server_usage group_order server_id from_date to_date interval
      current_user now (own current_user w).
Proof.
  unfold Usage.get_server_usage. cbn [own db servers usage_samples].
  by rewrite (find_one_own ServerInDB.user_id) by (by intros d [_ ?]).
Qed.

Lemma generate_invoice_scoped (cfg : Settings.t) (ps pe : Z)
    (current_user uuid : string) (now : Z) (w : World) :
  scoped current_user w
    (Billing.generate_invoice cfg ps pe current_user uuid now w)
    (Billing.generate_invoice cfg ps pe current_user uuid now
       (own current_user w)).
Proof.
  unfold Billing.generate_invoice.
  destruct (decide _); [apply scoped_read|].
  cbn [own db servers invoices usage_samples].
  rewrite (find_one_own Invoice.user_id) by (by intros d [? _]).
  destruct (Mongo.find_one _ _); [apply scoped_read|].
  unfold Mongo.find. rewrite (filter_own ServerInDB.user_id) by done.
  destruct (filter _ (servers (db w))) as [|s l]; [apply scoped_read|].
  destruct (foldl _ _ _) as [line_items total_amount].
  split; [done|]. split; [|split; [done|]].
  - unfold own, publish, set_invoices. simpl. do 2 f_equal.
    by apply (own_insert_one Invoice.user_id).
  - unfold foreign_invoices. simpl.
    by apply (foreign_insert_one Invoice.user_id).
Qed.

Lemma list_invoices_scoped (current_user : string) (w : World) :
  Billing.list_invoices current_user w
  = Billing.list_invoices current_user (own current_user w).
Proof.
  unfold Billing.list_invoices, Mongo.find. cbn [own db invoices].
  by rewrite (filter_own Invoice.user_id).
Qed.

Lemma get_invoice_scoped (invoice_id current_user : string) (w : World) :
  Billing.get_invoice invoice_id current_user w
  = Billing.get_invoice invoice_id current_user (own current_user w).
Proof.
  unfold Billing.get_invoice. cbn [own db invoices].
  by rewrite (find_one_own Invoice.user_id) by (by intros d [_ ?]).
Qed.

Lemma pay_invoice_scoped (invoice_id : string) (method : TransactionMethod)
    (current_user uuid : string) (now : Z) (w : World) :
  NoDup (Invoice.id <$> invoices (db w)) →
  scoped current_user w
    (Billing.pay_invoice invoice_id method current_user uuid now w)
    (Billing.pay_invoice invoice_id method current_user uuid now
       (own current_user w)).
Proof.
  intros Hnd. unfold Billing.pay_invoice. cbn [own db invoices].
  rewrite (find_one_own Invoice.user_id) by (by intros d [_ ?]).
  destruct (Mongo.find_one _ (invoices (db w))) as [invoice|] eqn:Hfind;
    [|apply scoped_read].
  destruct (decide _); [apply scoped_read|].
  split; [done|]. split; [|split; [done|]].
  - unfold own, set_invoices, set_transactions. simpl. do 2 f_equal.
    by apply (own_update_one Invoice.id Invoice.user_id _ _ _ invoice).
  - unfold foreign_invoices. simpl.
    by apply (foreign_update_one Invoice.id Invoice.user_id _ _ _ invoice).
Qed.

(** C9. A route serves its caller within what the caller owns.  Every
    query for a Server or an Invoice carries the caller's [user_id], except
    the writes of start, stop, update and pay, which name the document by
    [id] alone right after a read of that id that does carry it.  Ids
    identify the documents of a collection; with that, for every request
    the answer and the state left are those of the same request on the
    store without the Servers and Invoices of other users, and these are
    left as they were: nothing of another user is read, changed, added or
    removed. *)
Theorem C9_ownership_scoping
    (group_order :
       list (Z * list UsageSample.t) → list (Z * list UsageSample.t))
    (cfg : Settings.t) (req : Request) (current_user : string) (now : Z)
    (w : World) :
  NoDup (ServerInDB.id <$> servers (db w)) →
  NoDup (Invoice.id <$> invoices (db w)) →
  let r := handle group_order cfg req current_user now w in
  let r0 :=
    handle group_order cfg req current_user now (own current_user w) in
  r.1 = r0.1
  ∧ own current_user r.2 = r0.2
  ∧ foreign_servers current_user r.2 = foreign_servers current_user w
  ∧ foreign_invoices current_user r.2 = foreign_invoices current_user w.
Proof.
  intros Hservers Hinvoices.
  destruct req; cbn [handle].
  - apply (scoped_answer a_server), create_server_scoped.
  - rewrite <- list_servers_scoped. apply scoped_read.
  - rewrite <- get_server_scoped. apply scoped_read.
  - by apply (scoped_answer a_message), start_server_scoped.
  - by apply (scoped_answer a_message), stop_server_scoped.
  - by apply (scoped_answer a_server), update_server_scoped.
  - apply (scoped_answer a_message), delete_server_scoped.
  - rewrite <- get_server_usage_scoped. apply scoped_read.
  - apply (scoped_answer a_invoice), generate_invoice_scoped.
  - rewrite <- list_invoices_scoped. apply scoped_read.
  - rewrite <- get_invoice_scoped. apply scoped_read.
  - by apply (scoped_answer a_transaction), pay_invoice_scoped.
Qed.

Lemma C9_ownership_scoping_witness :
  let w :=
    Scenario.store [Scenario.database; Scenario.web] []
      [Scenario.bobs_draft; Scenario.draft] in
  let r := handle (λ g, g) settings (StopServer "s1") "alice" 7000 w in
  let r0 :=
    handle (λ g, g) settings (StopServer "s1") "alice" 7000
      (Scenario.store [Scenario.web] [] [Scenario.draft]) in
  r.1 = Ok (a_message "Server stopped successfully")
  ∧ r.1 = r0.1
  ∧ servers (db r.2)
    = [Scenario.database; Servers.set_status STOPPED 7000 Scenario.web]
  ∧ servers (db r0.2) = [Servers.set_status STOPPED 7000 Scenario.web]
  ∧ foreign_servers "alice" r.2 = [Scenario.database]
  ∧ foreign_invoices "alice" r.2 = [Scenario.bobs_draft].
Proof.
  intros w r r0.
  destruct (C9_ownership_scoping (λ g, g) settings (StopServer "s1") "alice"
              7000 w) as (Hr & _ & Hs & Hi);
    [by apply (bool_decide_unpack _); vm_compute..|].
  split; [reflexivity|]. split; [exact Hr|]. split; [reflexivity|].
  split; [reflexivity|]. split; [exact Hs|exact Hi].
Defined.

(** * Further properties of the routes, the adapter and the sampler *)

(** ** Lookups after a write *)

Section AfterWrite.
Context {A : Type}.
Variables key owner : A → string.

Lemma find_one_update_one (l : list A) (k u : string) (a : A) (f : A → A) :
  NoDup (key <$> l) →
  Mongo.find_one (λ d, key d = k ∧ owner d = u) l = Some a →
  (∀ d, key (f d) = key d) → owner (f a) = u →
  Mongo.update_one (λ d, key d = k) f l
  = (λ d, if decide (key d = k) then f d else d) <$> l
  ∧ Mongo.find_one (λ d, key d = k ∧ owner d = u)
      (Mongo.update_one (λ d, key d = k) f l) = Some (f a).
Proof.
  intros Hnd Hfind Hkey Hown.
  pose proof (find_one_Some _ _ _ Hfind) as (Ha & Hak & Hau).
  rewrite (update_one_fmap_key _ key k) by done. split; [done|].
  set (g := λ d : A, if decide (key d = k) then f d else d).
  assert (∀ d, key (g d) = key d) as Hg
    by (intros d; unfold g; destruct (decide _); [apply Hkey|done]).
  apply (find_one_unique key).
  - rewrite <- list_fmap_compose.
    by rewrite (list_fmap_ext (key ∘ g) key _ (λ _ d _, Hg d)).
  - apply list_elem_of_fmap. exists a. split; [|done].
    unfold g. by rewrite decide_True.
  - by rewrite Hkey.
  - intros x [Hx _]. by rewrite Hkey, Hx.
Qed.

Lemma find_one_delete_one (l : list A) (k u : string) :
  NoDup (key <$> l) →
  Mongo.find_one (λ d, key d = k ∧ owner d = u)
    (Mongo.delete_one (λ d, key d = k ∧ owner d = u) l) = None.
Proof.
  intros Hnd.
  destruct (Mongo.find_one _ (Mongo.delete_one _ l)) as [x|] eqn:Hfind;
    [exfalso|done].
  apply find_one_Some in Hfind as (Hx & Hxk & Hxu).
  induction l as [|d r IH]; simpl in Hx; [by apply not_elem_of_nil in Hx|].
  simpl in Hnd. apply NoDup_cons in Hnd as [Hd Hnd].
  destruct (decide (key d = k ∧ owner d = u)) as [[Hdk _]|Hno].
  - apply Hd. rewrite Hdk, <- Hxk. by apply list_elem_of_fmap_2.
  - apply elem_of_cons in Hx as [->|Hx]; [by apply Hno|by apply IH].
Qed.

Lemma find_one_insert_one (l : list A) (k u : string) (a : A) :
  key a = k → owner a = u → (∀ d, d ∈ l → key d ≠ k) →
  Mongo.find_one (λ d, key d = k ∧ owner d = u) (Mongo.insert_one a l)
  = Some a.
Proof.
  intros Hk Hu Hfresh. unfold Mongo.find_one, Mongo.insert_one.
  rewrite filter_app.
  replace (filter (λ d, key d = k ∧ owner d = u) l) with (@nil A).
  - rewrite filter_cons, decide_True by done. done.
  - symmetry. apply elem_of_nil_inv. intros x Hx.
    apply list_elem_of_filter in Hx as [[Hxk _] Hx]. by apply (Hfresh x).
Qed.
End AfterWrite.

Lemma find_one_update_one_same {A} (P : A → Prop) `{!∀ x, Decision (P x)}
    (f : A → A) (l : list A) (a : A) :
  Mongo.find_one P l = Some a → P (f a) →
  Mongo.find_one P (Mongo.update_one P f l) = Some (f a).
Proof.
  unfold Mongo.find_one. intros Hfind HP.
  induction l as [|d r IH]; [done|]. simpl.
  rewrite filter_cons in Hfind.
  destruct (decide (P d)) as [Hd|Hd].
  - simplify_eq/=. by rewrite filter_cons, decide_True.
  - rewrite filter_cons, decide_False by done. by apply IH.
Qed.

(** ** Starting and stopping a server *)

Lemma connected_Some (dm : DockerManager) (c : Docker.DockerClient) :
  connected dm = Some c → available dm = true ∧ client dm = Some c.
Proof. unfold connected. by destruct (available dm). Qed.

Lemma connected_with_client (dm : DockerManager)
    (c c' : Docker.DockerClient) :
  connected dm = Some c → connected (with_client dm c') = Some c'.
Proof.
  intros [Hav _]%connected_Some. unfold connected, with_client. simpl.
  by rewrite Hav.
Qed.

(** A container that answered a start or a stop answers the next one. *)
Lemma start_container_then (dm dm' : DockerManager) (container_id : string) :
  start_container dm container_id = (true, dm') →
  (∃ dm'', stop_container dm' container_id = (true, dm''))
  ∧ (∃ dm'', start_container dm' container_id = (true, dm'')).
Proof.
  unfold start_container, stop_container.
  destruct (connected dm) as [c|] eqn:Hc.
  - destruct (Docker.get c container_id) as [k|] eqn:Hget; [|done].
    intros [= <-]. rewrite (connected_with_client dm c) by done.
    unfold Docker.get, Docker.start in *. simpl.
    rewrite (find_one_update_one_same _ _ _ k Hget);
      [eauto|by apply find_one_Some in Hget as [_ ?]].
  - intros [= <-]. rewrite Hc. eauto.
Qed.

Lemma stop_container_then (dm dm' : DockerManager) (container_id : string) :
  stop_container dm container_id = (true, dm') →
  ∃ dm'', start_container dm' container_id = (true, dm'').
Proof.
  unfold start_container, stop_container.
  destruct (connected dm) as [c|] eqn:Hc.
  - destruct (Docker.get c container_id) as [k|] eqn:Hget; [|done].
    intros [= <-]. rewrite (connected_with_client dm c) by done.
    unfold Docker.get, Docker.stop in *. simpl.
    rewrite (find_one_update_one_same _ _ _ k Hget);
      [eauto|by apply find_one_Some in Hget as [_ ?]].
  - intros [= <-]. rewrite Hc. eauto.
Qed.

Lemma get_server_Ok (server_id current_user : string) (w : World)
    (server : ServerInDB.t) :
  Servers.get_server server_id current_user w = Ok server
  ↔ Mongo.find_one
      (λ d, ServerInDB.id d = server_id
            ∧ ServerInDB.user_id d = current_user) (servers (db w))
    = Some server
    ∧ is_Some (ServerInDB.name server).
Proof.
  unfold Servers.get_server.
  destruct (Mongo.find_one _ _) as [doc|]; [|by split; [|intros []]].
  split.
  - destruct (parse _ doc) as [e|s] eqn:Hparse; [done|].
    apply parse_inr in Hparse as [-> Hname]. by intros [= <-].
  - intros [[= ->] Hname]. by rewrite parse_Some.
Qed.

Lemma start_server_Ok (server_id current_user : string) (now : Z)
    (w w' : World) (msg : string) :
  Servers.start_server server_id current_user now w = (Ok msg, w') →
  ∃ server dm,
    Mongo.find_one
      (λ d, ServerInDB.id d = server_id
            ∧ ServerInDB.user_id d = current_user) (servers (db w))
    = Some server
    ∧ is_Some (ServerInDB.name server)
    ∧ ServerInDB.status server ≠ RUNNING
    ∧ Py.truthy (ServerInDB.container_id server) = true
    ∧ start_container (docker_manager w)
        (default "" (ServerInDB.container_id server)) = (true, dm)
    ∧ msg = "Server started successfully"
    ∧ w' = publish
             (set_servers (set_docker_manager w dm)
                (Mongo.update_one (λ d, ServerInDB.id d = server_id)
                   (Servers.set_status RUNNING (Bson.datetime now))
                   (servers (db w))))
             (server_started server_id).
Proof.
  unfold Servers.start_server.
  destruct (Mongo.find_one _ (servers (db w))) as [server|]; [|done].
  destruct (parse _ server) as [e|s] eqn:Hparse; [done|].
  apply parse_inr in Hparse as [-> Hname].
  destruct (decide _); [done|].
  destruct (Py.truthy _) eqn:Ht; [|done]. simpl.
  destruct (start_container _ _) as [[] dm] eqn:Hs; [|done].
  intros [= <- <-]. by exists server, dm.
Qed.

Lemma stop_server_Ok (server_id current_user : string) (now : Z)
    (w w' : World) (msg : string) :
  Servers.stop_server server_id current_user now w = (Ok msg, w') →
  ∃ server dm,
    Mongo.find_one
      (λ d, ServerInDB.id d = server_id
            ∧ ServerInDB.user_id d = current_user) (servers (db w))
    = Some server
    ∧ is_Some (ServerInDB.name server)
    ∧ ServerInDB.status server ≠ STOPPED
    ∧ Py.truthy (ServerInDB.container_id server) = true
    ∧ stop_container (docker_manager w)
        (default "" (ServerInDB.container_id server)) = (true, dm)
    ∧ msg = "Server stopped successfully"
    ∧ w' = publish
             (set_servers (set_docker_manager w dm)
                (Mongo.update_one (λ d, ServerInDB.id d = server_id)
                   (Servers.set_status STOPPED (Bson.datetime now))
                   (servers (db w))))
             (server_stopped server_id).
Proof.
  unfold Servers.stop_server.
  destruct (Mongo.find_one _ (servers (db w))) as [server|]; [|done].
  destruct (parse _ server) as [e|s] eqn:Hparse; [done|].
  apply parse_inr in Hparse as [-> Hname].
  destruct (decide _); [done|].
  destruct (Py.truthy _) eqn:Ht; [|done]. simpl.
  destruct (stop_container _ _) as [[] dm] eqn:Hs; [|done].
  intros [= <- <-]. by exists server, dm.
Qed.

(** X1. A successful start changes, in the whole store, only the status
    (to Running) and [updated_at] (to the time of the start, cut to the
    millisecond) of the caller's server, publishes [server.started], and
    makes every further start of that server a 400 that changes nothing.
    Server ids identify servers. *)
Theorem start_server_once (server_id current_user : string) (now : Z)
    (w w' : World) (msg : string) :
  NoDup (ServerInDB.id <$> servers (db w)) →
  Servers.start_server server_id current_user now w = (Ok msg, w') →
  ∃ server,
    Servers.get_server server_id current_user w = Ok server
    ∧ Servers.get_server server_id current_user w'
      = Ok (Servers.set_status RUNNING (Bson.datetime now) server)
    ∧ servers (db w')
      = (λ d, if decide (ServerInDB.id d = server_id)
              then Servers.set_status RUNNING (Bson.datetime now) d else d)
          <$> servers (db w)
    ∧ (usage_samples (db w') = usage_samples (db w)
       ∧ invoices (db w') = invoices (db w)
       ∧ transactions (db w') = transactions (db w))
    ∧ nats w' = nats w ++ [server_started server_id]
    ∧ ∀ now',
        Servers.start_server server_id current_user now' w'
        = (http HTTP_400_BAD_REQUEST "Server is already running", w').
Proof.
  intros Hnd Hstart.
  apply start_server_Ok in Hstart
    as (server & dm & Hfind & Hname & Hst & Htruthy & Hrun & -> & ->).
  destruct (find_one_update_one ServerInDB.id ServerInDB.user_id
              (servers (db w)) server_id current_user server
              (Servers.set_status RUNNING (Bson.datetime now)) Hnd Hfind)
    as [Hupd Hfind']; [done| |].
  { by apply find_one_Some in Hfind as (_ & _ & ?). }
  exists server. split; [by apply get_server_Ok|].
  split; [by apply get_server_Ok|]. repeat split; try done.
  intros now'. unfold Servers.start_server. simpl. rewrite Hfind'.
  by rewrite parse_Some.
Qed.

Lemma start_server_once_witness :
  let w := Scenario.store [Scenario.database; Scenario.alices] [] [] in
  ∃ w',
    Servers.start_server "s1" "alice" 7123456 w
    = (Ok "Server started successfully", w')
    ∧ servers (db w')
      = [Scenario.database;
         Servers.set_status RUNNING 7123000 Scenario.alices]
    ∧ Servers.start_server "s1" "alice" 8000000 w'
      = (http HTTP_400_BAD_REQUEST "Server is already running", w').
Proof.
  intros w. eexists. split; [reflexivity|].
  destruct (start_server_once "s1" "alice" 7123456 w _ _
              ltac:(by apply (bool_decide_unpack _); vm_compute) eq_refl)
    as (server & _ & _ & Hservers & _ & _ & Htwice).
  split; [exact Hservers|apply Htwice].
Defined.

(** X2. After a successful start the matching stop succeeds as well, in
    mock mode and on a real runtime alike, and leaves the server Stopped
    with [updated_at] set to the time of the stop, cut to the millisecond;
    a second stop is a 400 that changes nothing. *)
Theorem stop_after_start (server_id current_user : string) (now now' : Z)
    (w w' : World) (msg : string) :
  NoDup (ServerInDB.id <$> servers (db w)) →
  Servers.start_server server_id current_user now w = (Ok msg, w') →
  ∃ server w'',
    Servers.get_server server_id current_user w = Ok server
    ∧ Servers.stop_server server_id current_user now' w'
      = (Ok "Server stopped successfully", w'')
    ∧ Servers.get_server server_id current_user w''
      = Ok (Servers.set_status STOPPED (Bson.datetime now') server)
    ∧ nats w''
      = nats w ++ [server_started server_id; server_stopped server_id]
    ∧ ∀ now'',
        Servers.stop_server server_id current_user now'' w''
        = (http HTTP_400_BAD_REQUEST "Server is already stopped", w'').
Proof.
  intros Hnd Hstart.
  apply start_server_Ok in Hstart
    as (server & dm & Hfind & Hname & Hst & Htruthy & Hrun & -> & ->).
  pose proof (find_one_Some _ _ _ Hfind) as (_ & _ & Hown).
  destruct (find_one_update_one ServerInDB.id ServerInDB.user_id
              (servers (db w)) server_id current_user server
              (Servers.set_status RUNNING (Bson.datetime now)) Hnd Hfind)
    as [Hupd Hfind']; [done..|].
  destruct (start_container_then _ _ _ Hrun) as [[dm'' Hstop] _].
  set (l' := Mongo.update_one (λ d, ServerInDB.id d = server_id)
               (Servers.set_status RUNNING (Bson.datetime now))
               (servers (db w))) in *.
  assert (NoDup (ServerInDB.id <$> l')) as Hnd'.
  { rewrite Hupd, <- list_fmap_compose.
    rewrite (list_fmap_ext _ ServerInDB.id (servers (db w))); [done|].
    intros i d _. simpl. by destruct (decide _). }
  destruct (find_one_update_one ServerInDB.id ServerInDB.user_id l'
              server_id current_user
              (Servers.set_status RUNNING (Bson.datetime now) server)
              (Servers.set_status STOPPED (Bson.datetime now')) Hnd' Hfind')
    as [Hupd' Hfind'']; [done..|].
  exists server. eexists. split; [by apply get_server_Ok|].
  unfold Servers.stop_server. simpl. fold l'. rewrite Hfind'.
  rewrite parse_Some by done. simpl. rewrite Htruthy. simpl.
  rewrite Hstop. split; [reflexivity|]. simpl.
  split; [by apply get_server_Ok|]. split; [by rewrite <- app_assoc|].
  intros now''. rewrite Hfind''. by rewrite parse_Some.
Qed.

Lemma stop_after_start_witness :
  let w := Scenario.store [Scenario.database; Scenario.alices] [] [] in
  ∃ w' w'',
    Servers.start_server "s1" "alice" 7000000 w
    = (Ok "Server started successfully", w')
    ∧ Servers.stop_server "s1" "alice" 9000999 w'
      = (Ok "Server stopped successfully", w'')
    ∧ Servers.get_server "s1" "alice" w''
      = Ok (Servers.set_status STOPPED 9000000 Scenario.alices).
Proof.
  intros w. eexists.
  destruct (stop_after_start "s1" "alice" 7000000 9000999 w _ _
              ltac:(by apply (bool_decide_unpack _); vm_compute) eq_refl)
    as (server & w'' & Hget & Hstop & Hget' & _).
  exists w''. split; [reflexivity|]. split; [exact Hstop|].
  injection Hget as <-. exact Hget'.
Defined.

(** ** Creating, updating and deleting a server *)

(** What the driver keeps of a server it encodes. *)
Lemma Bson_server_inr (server server_doc : ServerInDB.t) :
  Bson.server server = inr server_doc →
  Bson.int64 (ServerInDB.cores server) = true
  ∧ server_doc
    = ServerInDB.mk (ServerInDB.name server) (ServerInDB.image server)
        (ServerInDB.cpu_limit server) (ServerInDB.cores server)
        (ServerInDB.ram_gib server) (ServerInDB.disk_gib server)
        (ServerInDB.id server) (ServerInDB.user_id server)
        (ServerInDB.status server) (ServerInDB.container_id server)
        (Bson.datetime (ServerInDB.created_at server))
        (Bson.datetime (ServerInDB.updated_at server)).
Proof.
  unfold Bson.server. destruct (Bson.int64 _); [|done]. by intros [= <-].
Qed.

Lemma create_container_handle (dm dm' : DockerManager)
    (server : ServerInDB.t) (h : string) :
  create_container dm server = (inr h, dm') →
  Py.truthy (Some h) = true
  ∧ ∃ dm'', start_container dm' h = (true, dm'').
Proof.
  unfold create_container, start_container.
  destruct (connected dm) as [c|] eqn:Hc.
  - destruct (Py.int_of_float _) as [e|cpu_quota]; [done|].
    destruct (Py.int_of_float _) as [e|memory_limit]; [done|].
    destruct (Docker.ensure_image _ _) as [c1|]; [|done].
    unfold Docker.create.
    destruct (decide (Exists _ _)); [done|].
    intros [= <- <-]. split; [done|].
    rewrite (connected_with_client dm c) by done.
    match goal with
    | |- context [Docker.get ?c2 ?h] =>
        destruct (Docker.get c2 h) as [k|] eqn:Hget; [eauto|]
    end.
    exfalso. unfold Docker.get in Hget.
    pose proof (find_one_None _ _ Hget) as Hno. cbn beta in Hno.
    eapply Hno; [apply elem_of_app; right; apply list_elem_of_here|].
    reflexivity.
  - intros [= <- <-]. split; [done|]. rewrite Hc. eauto.
Qed.

(** X3. A server that [create_server] answers carries the two readings of
    the clock and is stored, with these cut to the millisecond, as the last
    record of the collection, with status Created and a non-empty handle;
    its creation is published, none of its resources is [<= 0], and, its
    id being new, the stored record can be read back and started right
    away. *)
Theorem create_server_then_start (server_data : ServerCreate.t)
    (current_user uuid : string) (now updated_at now' : Z) (w w' : World)
    (server : ServerInDB.t) :
  Servers.create_server server_data current_user uuid now updated_at w
  = (Ok server, w') →
  (∀ d, d ∈ servers (db w) → ServerInDB.id d ≠ uuid) →
  (ServerInDB.id server = uuid
   ∧ ServerInDB.user_id server = current_user
   ∧ ServerInDB.status server = CREATED
   ∧ Py.truthy (ServerInDB.container_id server) = true
   ∧ positive_shape server
   ∧ ServerInDB.created_at server = now
   ∧ ServerInDB.updated_at server = updated_at)
  ∧ (∃ server_doc,
       Bson.server server = inr server_doc
       ∧ servers (db w') = servers (db w) ++ [server_doc]
       ∧ Servers.get_server uuid current_user w' = Ok server_doc)
  ∧ nats w' = nats w ++ [server_created uuid]
  ∧ ∃ w'',
      Servers.start_server uuid current_user now' w'
      = (Ok "Server started successfully", w'').
Proof.
  unfold Servers.create_server. intros Hcreate Hfresh.
  destruct (_ || _) eqn:Hcheck; [done|].
  apply orb_false_elim in Hcheck as [Hcheck Hdisk].
  apply orb_false_elim in Hcheck as [Hcheck Hram].
  apply orb_false_elim in Hcheck as [Hcpu Hcores].
  apply bool_decide_eq_false in Hcores.
  destruct (create_container _ _) as [[e|h] dm] eqn:Hcc; [done|].
  destruct (Bson.server _) as [e|doc] eqn:Hdoc; [done|].
  injection Hcreate as <- <-.
  destruct (create_container_handle _ _ _ _ Hcc) as [Hh [dm'' Hstart]].
  pose proof (Bson_server_inr _ _ Hdoc) as [_ Hfields].
  assert (Mongo.find_one
            (λ d, ServerInDB.id d = uuid
                  ∧ ServerInDB.user_id d = current_user)
            (Mongo.insert_one doc (servers (db w)))
          = Some doc) as Hfind.
  { apply (find_one_insert_one ServerInDB.id ServerInDB.user_id);
      [by rewrite Hfields..|done]. }
  assert (is_Some (ServerInDB.name doc)) as Hname
    by (rewrite Hfields; by eexists).
  split.
  { repeat split; try done. simpl. lia. }
  split.
  { exists doc. split; [done|]. split; [done|]. by apply get_server_Ok. }
  split; [done|].
  unfold Servers.start_server. simpl. rewrite Hfind.
  rewrite parse_Some by done. rewrite Hfields. simpl. simpl in Hh.
  rewrite Hh. simpl. rewrite Hstart. eauto.
Qed.

Lemma create_server_then_start_witness :
  ∃ server w' w'',
    Servers.create_server
      (ServerCreate.mk "api" "Nginx:Alpine" 1.5 2 4.0 20.0) "alice" "s3"
      5000123 5000456 Scenario.live = (Ok server, w')
    ∧ ServerInDB.container_id server = Some "ctr-1"
    ∧ (ServerInDB.created_at server, ServerInDB.updated_at server)
      = (5000123, 5000456)
    ∧ (λ d, (ServerInDB.id d, ServerInDB.created_at d,
             ServerInDB.updated_at d)) <$> servers (db w')
      = [("s1", 0, 0); ("s3", 5000000, 5000000)]
    ∧ Servers.start_server "s3" "alice" 6000000 w'
      = (Ok "Server started successfully", w'').
Proof.
  edestruct (create_server_then_start
               (ServerCreate.mk "api" "Nginx:Alpine" 1.5 2 4.0 20.0) "alice"
               "s3" 5000123 5000456 6000000 Scenario.live)
    as (_ & _ & _ & w'' & Hstart).
  - lazy. reflexivity.
  - intros d Hd. apply list_elem_of_singleton in Hd as ->. done.
  - eexists _, _, w''. split; [lazy; reflexivity|].
    split; [reflexivity|]. split; [reflexivity|].
    split; [reflexivity|exact Hstart].
Defined.

Lemma non_positive_field_pass (u : ServerUpdate.t) :
  Servers.non_positive_field u = inr None →
  (∀ v, ServerUpdate.cpu_limit u = Value v → (v <=? 0)%float = false)
  ∧ (∀ v, ServerUpdate.cores u = Value v → 0 < v)
  ∧ (∀ v, ServerUpdate.ram_gib u = Value v → (v <=? 0)%float = false)
  ∧ (∀ v, ServerUpdate.disk_gib u = Value v → (v <=? 0)%float = false)
  ∧ ServerUpdate.cpu_limit u ≠ Null ∧ ServerUpdate.cores u ≠ Null
  ∧ ServerUpdate.ram_gib u ≠ Null ∧ ServerUpdate.disk_gib u ≠ Null.
Proof.
  unfold Servers.non_positive_field, Servers.check_field.
  destruct (ServerUpdate.cpu_limit u) as [| |v1]; [|done|];
    try (destruct (v1 <=? 0)%float eqn:H1; [done|]);
    (destruct (ServerUpdate.cores u) as [| |v2]; [|done|];
     try (destruct (bool_decide (v2 ≤ 0)) eqn:H2;
          [done|apply bool_decide_eq_false in H2]);
     (destruct (ServerUpdate.ram_gib u) as [| |v3]; [|done|];
      try (destruct (v3 <=? 0)%float eqn:H3; [done|]);
      (destruct (ServerUpdate.disk_gib u) as [| |v4]; [|done|];
       try (destruct (v4 <=? 0)%float eqn:H4; [done|]);
       intros _; repeat split; try done; intros v [= <-];
       first [done|lia]))).
Qed.

(** X4. A successful update never changes the id, the owner, the status,
    the handle, the image or the creation time of the server; it sets
    [updated_at], takes each given field and keeps the others (a null name
    is never answered with success), leaves no resource [<= 0] if none
    was, and publishes nothing.  The record stored, which is what the
    caller reads back afterwards, is the server answered with its two dates
    cut to the millisecond.  Server ids identify servers. *)
Theorem update_server_keeps_identity (server_id : string)
    (server_update : ServerUpdate.t) (current_user : string) (now : Z)
    (w w' : World) (server : ServerInDB.t) :
  NoDup (ServerInDB.id <$> servers (db w)) →
  Servers.update_server server_id server_update current_user now w
  = (Ok server, w') →
  ∃ old server_doc,
    Servers.get_server server_id current_user w = Ok old
    ∧ (ServerInDB.id server = ServerInDB.id old
       ∧ ServerInDB.user_id server = ServerInDB.user_id old
       ∧ ServerInDB.status server = ServerInDB.status old
       ∧ ServerInDB.container_id server = ServerInDB.container_id old
       ∧ ServerInDB.image server = ServerInDB.image old
       ∧ ServerInDB.created_at server = ServerInDB.created_at old)
    ∧ (ServerInDB.updated_at server = now
       ∧ ServerUpdate.name server_update ≠ Null
       ∧ ServerInDB.name server
         = Servers.assign_name (ServerInDB.name old)
             (ServerUpdate.name server_update)
       ∧ ServerInDB.cpu_limit server
         = Servers.assign (ServerInDB.cpu_limit old)
             (ServerUpdate.cpu_limit server_update)
       ∧ ServerInDB.cores server
         = Servers.assign (ServerInDB.cores old)
             (ServerUpdate.cores server_update)
       ∧ ServerInDB.ram_gib server
         = Servers.assign (ServerInDB.ram_gib old)
             (ServerUpdate.ram_gib server_update)
       ∧ ServerInDB.disk_gib server
         = Servers.assign (ServerInDB.disk_gib old)
             (ServerUpdate.disk_gib server_update))
    ∧ (positive_shape old → positive_shape server)
    ∧ (Bson.server server = inr server_doc
       ∧ ServerInDB.updated_at server_doc = Bson.datetime now
       ∧ ServerInDB.created_at server_doc
         = Bson.datetime (ServerInDB.created_at old))
    ∧ Servers.get_server server_id current_user w' = Ok server_doc
    ∧ servers (db w')
      = (λ d, if decide (ServerInDB.id d = server_id) then server_doc else d)
          <$> servers (db w)
    ∧ nats w' = nats w.
Proof.
  intros Hnd Hupdate.
  apply update_server_Ok in Hupdate
    as (old & dm & doc & Hfind & Hname & Hsome & Hpos & -> & Hdoc & ->
        & Hname' & _).
  pose proof (find_one_Some _ _ _ Hfind) as (_ & Hid & Hown).
  pose proof (Bson_server_inr _ _ Hdoc) as [_ Hfields].
  assert (ServerInDB.id doc = server_id ∧ ServerInDB.user_id doc = current_user
          ∧ is_Some (ServerInDB.name doc)) as (Hdid & Hdown & Hdname)
    by (by rewrite Hfields).
  destruct (find_one_update_one ServerInDB.id ServerInDB.user_id
              (servers (db w)) server_id current_user old
              (λ d, if decide (ServerInDB.id d = server_id) then doc else d)
              Hnd Hfind)
    as [_ Hfind'].
  { intros d. destruct (decide _) as [Hd|]; [|done]. congruence. }
  { by rewrite decide_True. }
  rewrite decide_True in Hfind' by done.
  assert (Mongo.update_one (λ d, ServerInDB.id d = server_id) (λ _, doc)
            (servers (db w))
          = (λ d, if decide (ServerInDB.id d = server_id) then doc else d)
              <$> servers (db w)) as Hupd
    by (by apply (update_one_fmap_key _ ServerInDB.id server_id)).
  assert (Mongo.update_one (λ d, ServerInDB.id d = server_id)
            (λ d, if decide (ServerInDB.id d = server_id) then doc else d)
            (servers (db w))
          = Mongo.update_one (λ d, ServerInDB.id d = server_id) (λ _, doc)
              (servers (db w))) as Hsame.
  { clear. induction (servers (db w)) as [|d r IH]; [done|]. simpl.
    destruct (decide _); [done|]. by rewrite IH. }
  rewrite Hsame in Hfind'.
  destruct (non_positive_field_pass _ Hpos)
    as (Hcpu & Hcores & Hram & Hdisk & _).
  exists old, doc. split; [by apply get_server_Ok|].
  split; [done|]. split.
  { repeat split; try done. intros Hnull. simpl in Hname'.
    rewrite Hnull in Hname'. by destruct Hname'. }
  split.
  { intros (Hp1 & Hp2 & Hp3 & Hp4). unfold positive_shape. simpl.
    repeat split.
    - destruct (ServerUpdate.cpu_limit server_update) eqn:E; simpl; auto.
    - destruct (ServerUpdate.cores server_update) eqn:E; simpl; auto.
    - destruct (ServerUpdate.ram_gib server_update) eqn:E; simpl; auto.
    - destruct (ServerUpdate.disk_gib server_update) eqn:E; simpl; auto. }
  split; [split; [done|by rewrite Hfields]|].
  split; [by apply get_server_Ok|]. done.
Qed.

Lemma update_server_keeps_identity_witness :
  let w := Scenario.store [Scenario.database; Scenario.alices] [] [] in
  let upd := ServerUpdate.mk (Value "edge") Unset (Value 4) Unset Unset in
  let server_doc :=
    ServerInDB.mk (Some "edge") "nginx:alpine" 0.5 4 1.0 10.0 "s1" "alice"
      STOPPED (Some "c0") 0 9000000 in
  ∃ server w',
    Servers.update_server "s1" upd "alice" 9000123 w = (Ok server, w')
    ∧ server
      = ServerInDB.mk (Some "edge") "nginx:alpine" 0.5 4 1.0 10.0 "s1"
          "alice" STOPPED (Some "c0") 0 9000123
    ∧ Servers.get_server "s1" "alice" w' = Ok server_doc
    ∧ servers (db w') = [Scenario.database; server_doc].
Proof.
  intros w upd server_doc.
  edestruct (update_server_keeps_identity "s1" upd "alice" 9000123 w)
    as (old & doc & _ & _ & _ & _ & (Hdoc & _) & Hget & Hservers & _).
  - by apply (bool_decide_unpack _); vm_compute.
  - lazy. reflexivity.
  - eexists _, _. split; [lazy; reflexivity|]. split; [reflexivity|].
    injection Hdoc as <-. split; [exact Hget|exact Hservers].
Defined.

(** X5. The runtime is asked to replace the container only when the
    server read is Running, has a handle and the update gives a resource
    field: in every other case, whatever the answer, the adapter and the
    runtime behind it are left as they were. *)
Theorem update_server_without_runtime_call (server_id : string)
    (server_update : ServerUpdate.t) (current_user : string) (now : Z)
    (w : World) (old : ServerInDB.t) :
  Servers.get_server server_id current_user w = Ok old →
  ServerInDB.status old ≠ RUNNING
  ∨ Py.truthy (ServerInDB.container_id old) = false
  ∨ Servers.any_resource_field server_update = false →
  docker_manager
    (Servers.update_server server_id server_update current_user now w).2
  = docker_manager w.
Proof.
  intros [Hfind Hname]%get_server_Ok Hcase.
  unfold Servers.update_server, Servers.persist. rewrite Hfind.
  rewrite parse_Some by done.
  destruct (Servers.no_fields server_update); [done|].
  destruct (Servers.non_positive_field server_update) as [e|[f|]];
    [done..|].
  cbn [ServerInDB.status ServerInDB.container_id Servers.apply_update].
  destruct (_ && _) eqn:Hcond.
  - exfalso.
    apply andb_true_iff in Hcond as [Hcond Hres].
    apply andb_true_iff in Hcond as [Hrun Hcid].
    apply bool_decide_eq_true in Hrun.
    destruct Hcase as [Hne|[Hf|Hf]]; [done| |]; congruence.
  - destruct (Bson.server _); [done|]. by destruct (parse _ _).
Qed.

Lemma update_server_without_runtime_call_witness :
  let w :=
    {| db := db Scenario.live; docker_manager := docker_manager Scenario.live;
       nats := [] |} in
  docker_manager
    (Servers.update_server "s1"
       (ServerUpdate.mk (Value "edge") Unset Unset Unset Unset) "alice"
       9000000 w).2
  = docker_manager Scenario.live.
Proof.
  intros w.
  apply (update_server_without_runtime_call "s1" _ "alice" 9000000 w
           Scenario.web).
  - reflexivity.
  - right. right. reflexivity.
Defined.

Lemma filter_all {A} (P : A → Prop) `{!∀ x, Decision (P x)} (l : list A) :
  (∀ x, x ∈ l → P x) → filter P l = l.
Proof.
  induction l as [|d r IH]; intros Hall; [done|].
  rewrite filter_cons_True by (apply Hall, list_elem_of_here).
  f_equal. apply IH. intros x Hx. by apply Hall, list_elem_of_further.
Qed.

Lemma delete_one_unique {A} (key owner : A → string) (l : list A)
    (k u : string) (a : A) :
  NoDup (key <$> l) →
  Mongo.find_one (λ d, key d = k ∧ owner d = u) l = Some a →
  Mongo.delete_one (λ d, key d = k ∧ owner d = u) l
  = filter (λ d, key d ≠ k) l.
Proof.
  intros Hnd Hfind.
  pose proof (unique_owner key owner l k u a Hnd Hfind) as Hown.
  clear Hfind. induction l as [|d r IH]; [done|]. simpl in *.
  apply NoDup_cons in Hnd as [Hd Hnd].
  destruct (decide (key d = k ∧ owner d = u)) as [[Hk Hu]|Hno].
  - rewrite filter_cons_False by (by intros ?).
    symmetry. apply filter_all. intros x Hx Hxk. apply Hd.
    rewrite Hk, <- Hxk. by apply list_elem_of_fmap_2.
  - assert (key d ≠ k) as Hne.
    { intros Hk. apply Hno. split; [done|].
      by apply Hown; [apply list_elem_of_here|]. }
    rewrite filter_cons_True by done. f_equal. apply IH; [done|].
    intros x Hx. by apply Hown, list_elem_of_further.
Qed.

(** X6. Deleting a server of the caller answers success whatever the
    runtime says about the container, removes that record and no other,
    after which the server is not found; its usage samples, the invoices
    and the transactions stay in the store, and nothing is published.
    Server ids identify servers. *)
Theorem delete_server_removes_record (server_id current_user : string)
    (w : World) (server : ServerInDB.t) :
  NoDup (ServerInDB.id <$> servers (db w)) →
  Servers.get_server server_id current_user w = Ok server →
  ∃ w',
    Servers.delete_server server_id current_user w
    = (Ok "Server deleted successfully", w')
    ∧ servers (db w')
      = filter (λ d, ServerInDB.id d ≠ server_id) (servers (db w))
    ∧ Servers.get_server server_id current_user w'
      = http HTTP_404_NOT_FOUND "Server not found"
    ∧ (usage_samples (db w') = usage_samples (db w)
       ∧ invoices (db w') = invoices (db w)
       ∧ transactions (db w') = transactions (db w))
    ∧ nats w' = nats w.
Proof.
  intros Hnd [Hfind Hname]%get_server_Ok.
  unfold Servers.get_server, Servers.delete_server. rewrite Hfind.
  rewrite parse_Some by done.
  pose proof (find_one_delete_one ServerInDB.id ServerInDB.user_id
                (servers (db w)) server_id current_user Hnd) as Hgone.
  pose proof (delete_one_unique ServerInDB.id ServerInDB.user_id
                (servers (db w)) server_id current_user server Hnd Hfind)
    as Hdel.
  eexists. split; [reflexivity|]. simpl.
  destruct (Py.truthy (ServerInDB.container_id server)); simpl;
    rewrite Hgone; by rewrite Hdel.
Qed.

Lemma delete_server_removes_record_witness :
  let w :=
    {| db := {| servers := [Scenario.database; Scenario.web];
                usage_samples := Scenario.hour_apart; invoices := [];
                transactions := [] |};
       docker_manager := DockerManager_init (Some Scenario.daemon);
       nats := [] |} in
  ∃ w',
    Servers.delete_server "s1" "alice" w
    = (Ok "Server deleted successfully", w')
    ∧ servers (db w') = [Scenario.database]
    ∧ usage_samples (db w') = Scenario.hour_apart
    ∧ Servers.get_server "s1" "alice" w'
      = http HTTP_404_NOT_FOUND "Server not found".
Proof.
  intros w.
  destruct (delete_server_removes_record "s1" "alice" w Scenario.web)
    as (w' & Hdel & Hservers & Hget & (Husage & _) & _).
  - by apply (bool_decide_unpack _); vm_compute.
  - reflexivity.
  - exists w'. split; [exact Hdel|]. split; [exact Hservers|].
    split; [exact Husage|exact Hget].
Defined.

(** ** What holds of every route *)

Lemma error_of_answer {A} (body : A → Answer) (r : response A) :
  error_of (answer body r) = error_of r.
Proof. by destruct r. Qed.

Lemma error_of_Some {A} (r : response A * World) (e : HTTPException)
    (w' : World) :
  (error_of r.1, r.2) = (Some e, w') → r = (Raise e, w').
Proof. destruct r as [[a|x] w]; [done|]. by intros [= <- <-]. Qed.

Lemma persist_Raise (server_id : string) (server : ServerInDB.t)
    (w w' : World) (e : HTTPException) :
  Servers.persist server_id server w = (Raise e, w') →
  status_code e = HTTP_500_INTERNAL_SERVER_ERROR
  ∧ nats w' = nats w ∧ docker_manager w' = docker_manager w
  ∧ (is_Some (ServerInDB.name server) → w' = w).
Proof.
  unfold Servers.persist.
  destruct (Bson.server server) as [x|doc]; [by intros [= <- <-]|].
  destruct (parse "Server" server) as [x|s] eqn:Hparse; [|done].
  intros [= <- <-]. repeat split. intros Hname.
  by rewrite parse_Some in Hparse.
Qed.

(** X7. A request whose route ends in an error leaves the store and the
    message bus exactly as they were, unless it is an update that sets the
    name to null; the error is a 400, a 404 or a 500, and only the runtime
    may have changed. *)
Theorem errors_leave_the_store
    (group_order :
       list (Z * list UsageSample.t) → list (Z * list UsageSample.t))
    (cfg : Settings.t) (req : Request) (current_user : string) (now : Z)
    (w w' : World) (e : HTTPException) :
  respond group_order cfg req current_user now w = (Some e, w') →
  (∀ server_id server_update,
     req = UpdateServer server_id server_update →
     ServerUpdate.name server_update ≠ Null) →
  db w' = db w ∧ nats w' = nats w
  ∧ status_code e ∈ [HTTP_400_BAD_REQUEST; HTTP_404_NOT_FOUND;
                     HTTP_500_INTERNAL_SERVER_ERROR].
Proof.
  assert (∀ x : Z, x ∈ [x; HTTP_404_NOT_FOUND; HTTP_500_INTERNAL_SERVER_ERROR])
    as H400 by (intros; apply list_elem_of_here).
  assert (∀ x y : Z, x ∈ [y; x; HTTP_500_INTERNAL_SERVER_ERROR])
    as H404 by (intros; apply list_elem_of_further, list_elem_of_here).
  assert (∀ x y z : Z, x ∈ [y; z; x])
    as H500 by (intros; do 2 apply list_elem_of_further;
                apply list_elem_of_here).
  unfold respond. destruct req; cbn [handle fst snd];
    rewrite ?error_of_answer; intros Hr Hname.
  - revert Hr. unfold Servers.create_server.
    destruct (_ || _); [by intros [= <- <-]|].
    destruct (create_container _ _) as [[x|h] dm]; [by intros [= <- <-]|].
    destruct (Bson.server _); [|done]. by intros [= <- <-].
  - revert Hr. unfold Servers.list_servers.
    destruct (Servers.parse_all _); [|done]. by intros [= <- <-].
  - revert Hr. unfold Servers.get_server.
    destruct (Mongo.find_one _ _); [|by intros [= <- <-]].
    destruct (parse _ _); [|done]. by intros [= <- <-].
  - revert Hr. unfold Servers.start_server.
    destruct (Mongo.find_one _ _); [|by intros [= <- <-]].
    destruct (parse _ _); [by intros [= <- <-]|].
    destruct (decide _); [by intros [= <- <-]|].
    destruct (negb _); [by intros [= <- <-]|].
    destruct (start_container _ _) as [[] dm]; [done|].
    by intros [= <- <-].
  - revert Hr. unfold Servers.stop_server.
    destruct (Mongo.find_one _ _); [|by intros [= <- <-]].
    destruct (parse _ _); [by intros [= <- <-]|].
    destruct (decide _); [by intros [= <- <-]|].
    destruct (negb _); [by intros [= <- <-]|].
    destruct (stop_container _ _) as [[] dm]; [done|].
    by intros [= <- <-].
  - specialize (Hname _ _ eq_refl). revert Hr.
    unfold Servers.update_server.
    destruct (Mongo.find_one _ _) as [doc|]; [|by intros [= <- <-]].
    destruct (parse _ doc) as [x|s] eqn:Hparse; [by intros [= <- <-]|].
    apply parse_inr in Hparse as [-> Hdoc].
    destruct (Servers.no_fields _); [by intros [= <- <-]|].
    destruct (Servers.non_positive_field _) as [x|[f|]];
      [by intros [= <- <-]..|].
    assert (is_Some
              (ServerInDB.name (Servers.apply_update server_update now doc)))
      as Hnew.
    { simpl. destruct Hdoc as [n ->].
      by destruct (ServerUpdate.name server_update). }
    destruct (_ && _).
    + destruct (update_container_resources _ _ _) as [[] dm];
        [|by intros [= <- <-]].
      intros Hp%error_of_Some.
      apply persist_Raise in Hp as (-> & _ & _ & Hsame).
      by rewrite (Hsame Hnew).
    + intros Hp%error_of_Some.
      apply persist_Raise in Hp as (-> & _ & _ & Hsame).
      by rewrite (Hsame Hnew).
  - revert Hr. unfold Servers.delete_server.
    destruct (Mongo.find_one _ _); [|by intros [= <- <-]].
    destruct (parse _ _); [|done]. by intros [= <- <-].
  - revert Hr. unfold Usage.get_server_usage.
    destruct (Mongo.find_one _ _); [|by intros [= <- <-]].
    destruct (decide _); [done|]. by intros [= <- <-].
  - revert Hr. unfold Billing.generate_invoice.
    destruct (decide _); [by intros [= <- <-]|].
    destruct (Mongo.find_one _ _); [by intros [= <- <-]|].
    destruct (Mongo.find _ _); [by intros [= <- <-]|].
    by destruct (foldl _ _ _).
  - done.
  - revert Hr. unfold Billing.get_invoice.
    destruct (Mongo.find_one _ _); [done|]. by intros [= <- <-].
  - revert Hr. unfold Billing.pay_invoice.
    destruct (Mongo.find_one _ _); [|by intros [= <- <-]].
    destruct (decide _); [|done]. by intros [= <- <-].
Qed.

Lemma errors_leave_the_store_witness :
  let w :=
    {| db := db Scenario.live;
       docker_manager := DockerManager_init (Some Scenario.daemon);
       nats := [] |} in
  ∃ e w',
    respond (λ g, g) settings
      (CreateServer (ServerCreate.mk "api" "python:3.12" 1.5 2 4.0 20.0) "s3"
         5000001)
      "alice" 5000000 w = (Some e, w')
    ∧ status_code e = 500
    ∧ db w' = db w.
Proof.
  intros w.
  edestruct (errors_leave_the_store (λ g, g) settings
               (CreateServer
                  (ServerCreate.mk "api" "python:3.12" 1.5 2 4.0 20.0) "s3"
                  5000001)
               "alice" 5000000 w) as (Hdb & _ & _).
  - lazy. reflexivity.
  - intros server_id server_update Hreq. discriminate Hreq.
  - eexists _, _. split; [lazy; reflexivity|]. split; [reflexivity|].
    exact Hdb.
Defined.

Lemma find_one_replace {A} (key owner : A → string) (l : list A)
    (k u : string) (a doc : A) :
  NoDup (key <$> l) →
  Mongo.find_one (λ d, key d = k ∧ owner d = u) l = Some a →
  key doc = k → owner doc = u →
  Mongo.update_one (λ d, key d = k) (λ _, doc) l
  = (λ d, if decide (key d = k) then doc else d) <$> l
  ∧ Mongo.find_one (λ d, key d = k ∧ owner d = u)
      (Mongo.update_one (λ d, key d = k) (λ _, doc) l) = Some doc.
Proof.
  intros Hnd Hfind Hk Hu.
  assert (Mongo.update_one (λ d, key d = k)
            (λ d, if decide (key d = k) then doc else d) l
          = Mongo.update_one (λ d, key d = k) (λ _, doc) l) as Hsame.
  { clear. induction l as [|d r IH]; [done|]. simpl.
    destruct (decide _); [done|]. by rewrite IH. }
  destruct (find_one_update_one key owner l k u a
              (λ d, if decide (key d = k) then doc else d) Hnd Hfind)
    as [Hupd Hfind'].
  { intros d. destruct (decide _) as [Hd|]; [|done]. congruence. }
  { rewrite decide_True; [done|].
    by apply find_one_Some in Hfind as (_ & ? & _). }
  rewrite Hsame in Hupd, Hfind'.
  rewrite decide_True in Hfind'
    by (by apply find_one_Some in Hfind as (_ & ? & _)).
  split; [|done]. rewrite Hupd. apply list_fmap_ext. intros i d _.
  by destruct (decide _).
Qed.

Lemma parse_all_refused (l : list ServerInDB.t) (d : ServerInDB.t) :
  d ∈ l → ServerInDB.name d = None → ∃ e, Servers.parse_all l = inl e.
Proof.
  intros Hd Hname. induction l as [|x r IH]; [by apply not_elem_of_nil in Hd|].
  simpl. destruct (parse "Server" x) as [e|s] eqn:Hparse; [by eexists|].
  apply elem_of_cons in Hd as [->|Hd].
  - unfold parse in Hparse. by rewrite Hname in Hparse.
  - destruct (IH Hd) as [e ->]. by eexists.
Qed.

(** X20. An update that sets only the name, to null, is answered with a
    500 after the write: the record of the server now has no name and a
    new [updated_at].  From then on every route that builds the server
    from its record ends in the 500 of an exception that nothing catches,
    and changes nothing: the caller can neither read, list, start, stop,
    update nor delete the server.  Server ids identify servers. *)
Theorem null_name_poisons_the_record (server_id current_user : string)
    (now : Z) (w : World) (old : ServerInDB.t) :
  NoDup (ServerInDB.id <$> servers (db w)) →
  Servers.get_server server_id current_user w = Ok old →
  Bson.int64 (ServerInDB.cores old) = true →
  ∃ e w' server_doc,
    Servers.update_server server_id
      (ServerUpdate.mk Null Unset Unset Unset Unset) current_user now w
    = (Raise e, w')
    ∧ status_code e = HTTP_500_INTERNAL_SERVER_ERROR
    ∧ (Mongo.find_one
         (λ d, ServerInDB.id d = server_id
               ∧ ServerInDB.user_id d = current_user) (servers (db w'))
       = Some server_doc
       ∧ ServerInDB.name server_doc = None
       ∧ ServerInDB.updated_at server_doc = Bson.datetime now)
    ∧ (docker_manager w' = docker_manager w ∧ nats w' = nats w)
    ∧ Servers.get_server server_id current_user w'
      = http 500 "Internal Server Error"
    ∧ Servers.list_servers current_user w'
      = http 500 "Internal Server Error"
    ∧ (∀ now',
         Servers.start_server server_id current_user now' w'
         = (http 500 "Internal Server Error", w')
         ∧ Servers.stop_server server_id current_user now' w'
           = (http 500 "Internal Server Error", w'))
    ∧ (∀ server_update now',
         Servers.update_server server_id server_update current_user now' w'
         = (http 500 "Internal Server Error", w'))
    ∧ Servers.delete_server server_id current_user w'
      = (http 500 "Internal Server Error", w').
Proof.
  intros Hnd [Hfind Hname]%get_server_Ok Hcores.
  pose proof (find_one_Some _ _ _ Hfind) as (_ & Hid & Hown).
  set (server :=
         Servers.apply_update (ServerUpdate.mk Null Unset Unset Unset Unset)
           now old).
  destruct (Bson.server server) as [x|doc] eqn:Hdoc.
  { unfold Bson.server in Hdoc. simpl in Hdoc. by rewrite Hcores in Hdoc. }
  pose proof (Bson_server_inr _ _ Hdoc) as [_ Hfields].
  destruct (find_one_replace ServerInDB.id ServerInDB.user_id
              (servers (db w)) server_id current_user old doc Hnd Hfind)
    as [_ Hfind']; [by rewrite Hfields..|].
  assert (ServerInDB.name doc = None) as Hnone by (by rewrite Hfields).
  assert (parse "ServerInDB" doc = inl (ValidationError "ServerInDB" "name")
          ∧ parse "Server" doc = inl (ValidationError "Server" "name"))
    as [Hp1 Hp2] by (unfold parse; by rewrite Hnone).
  eexists _, _, doc. split.
  { unfold Servers.update_server. rewrite Hfind. rewrite parse_Some by done.
    cbn [Servers.no_fields Servers.non_positive_field Servers.check_field
         Servers.is_set ServerUpdate.name ServerUpdate.cpu_limit
         ServerUpdate.cores ServerUpdate.ram_gib ServerUpdate.disk_gib
         negb andb Servers.any_resource_field orb].
    rewrite !andb_false_r. unfold Servers.persist. fold server.
    rewrite Hdoc. reflexivity. }
  split; [done|]. cbn [db servers set_servers docker_manager nats].
  split; [split; [done|split; [done|by rewrite Hfields]]|].
  split; [done|]. split.
  { unfold Servers.get_server. cbn [db servers set_servers].
    by rewrite Hfind', Hp2. }
  split.
  { unfold Servers.list_servers. cbn [db servers set_servers].
    apply find_one_Some in Hfind' as (Hin & _ & Hu).
    destruct (parse_all_refused
                (Mongo.find (λ d, ServerInDB.user_id d = current_user)
                   (Mongo.update_one (λ d, ServerInDB.id d = server_id)
                      (λ _, doc) (servers (db w)))) doc) as [x ->];
      [by apply list_elem_of_filter|done..]. }
  split.
  { intros now'. unfold Servers.start_server, Servers.stop_server.
    cbn [db servers set_servers]. by rewrite Hfind', Hp1. }
  split.
  { intros server_update now'. unfold Servers.update_server.
    cbn [db servers set_servers]. by rewrite Hfind', Hp1. }
  unfold Servers.delete_server. cbn [db servers set_servers].
  by rewrite Hfind', Hp1.
Qed.

Lemma null_name_poisons_the_record_witness :
  let w := Scenario.store [Scenario.database; Scenario.alices] [] [] in
  ∃ e w',
    Servers.update_server "s1" (ServerUpdate.mk Null Unset Unset Unset Unset)
      "alice" 9000123 w = (Raise e, w')
    ∧ status_code e = 500
    ∧ servers (db w')
      = [Scenario.database;
         ServerInDB.mk None "nginx:alpine" 0.5 2 1.0 10.0 "s1" "alice"
           STOPPED (Some "c0") 0 9000000]
    ∧ Servers.list_servers "alice" w' = http 500 "Internal Server Error"
    ∧ Servers.delete_server "s1" "alice" w'
      = (http 500 "Internal Server Error", w').
Proof.
  intros w.
  destruct (null_name_poisons_the_record "s1" "alice" 9000123 w
              Scenario.alices)
    as (e & w' & doc & Hupd & He & _ & _ & _ & Hlist & _ & _ & Hdel).
  - by apply (bool_decide_unpack _); vm_compute.
  - reflexivity.
  - reflexivity.
  - exists e, w'. split; [exact Hupd|]. split; [exact He|].
    split; [|split; [exact Hlist|exact Hdel]].
    lazy in Hupd. by injection Hupd as _ <-.
Defined.

Section WriteFacts.
Context {A K : Type}.
Variable key : A → K.
Variable P : A → Prop.
Context `{!∀ x, Decision (P x)}.

Lemma fmap_update_one (f : A → A) (l : list A) :
  (∀ d, d ∈ l → P d → key (f d) = key d) →
  key <$> Mongo.update_one P f l = key <$> l.
Proof.
  induction l as [|d r IH]; intros Hk; [done|]. simpl.
  destruct (decide (P d)).
  - simpl. f_equal. by apply Hk; [apply list_elem_of_here|].
  - simpl. f_equal. apply IH. intros x Hx. by apply Hk, list_elem_of_further.
Qed.

Lemma elem_of_delete_one (l : list A) (x : A) :
  x ∈ Mongo.delete_one P l → x ∈ l.
Proof.
  induction l as [|d r IH]; [done|]. simpl.
  destruct (decide (P d)).
  - apply list_elem_of_further.
  - intros [->|Hx]%elem_of_cons; [apply list_elem_of_here|].
    by apply list_elem_of_further, IH.
Qed.

Lemma NoDup_delete_one (l : list A) :
  NoDup (key <$> l) → NoDup (key <$> Mongo.delete_one P l).
Proof.
  induction l as [|d r IH]; [done|]. simpl.
  intros [Hd Hr]%NoDup_cons. destruct (decide (P d)); [done|]. simpl.
  apply NoDup_cons. split; [|by apply IH].
  intros (x & Hx & Hin)%list_elem_of_fmap. apply Hd. rewrite Hx.
  by apply list_elem_of_fmap_2, elem_of_delete_one.
Qed.

Lemma Forall_delete_one (Q : A → Prop) (l : list A) :
  Forall Q l → Forall Q (Mongo.delete_one P l).
Proof.
  rewrite !Forall_forall. intros Hall x Hx.
  by apply Hall, elem_of_delete_one.
Qed.

Lemma Forall_update_one (Q : A → Prop) (f : A → A) (l : list A) :
  Forall Q l → (∀ d, d ∈ l → P d → Q (f d)) →
  Forall Q (Mongo.update_one P f l).
Proof.
  induction l as [|d r IH]; intros Hall Hf; [done|]. simpl.
  apply Forall_cons in Hall as [Hd Hr].
  destruct (decide (P d)).
  - apply Forall_cons. split; [|done]. by apply Hf; [apply list_elem_of_here|].
  - apply Forall_cons. split; [done|]. apply IH; [done|].
    intros x Hx. by apply Hf, list_elem_of_further.
Qed.
End WriteFacts.

Lemma NoDup_snoc_fresh {A K} (key : A → K) (l : list A) (a : A) :
  NoDup (key <$> l) → (∀ d, d ∈ l → key d ≠ key a) →
  NoDup (key <$> Mongo.insert_one a l).
Proof.
  intros Hnd Hfresh. unfold Mongo.insert_one. rewrite fmap_app.
  apply NoDup_app. split; [done|]. split; [|apply NoDup_singleton].
  intros x (d & -> & Hd)%list_elem_of_fmap Hx.
  apply list_elem_of_singleton in Hx. by apply (Hfresh d).
Qed.

Lemma Bson_datetime_idem (t : Z) :
  Bson.datetime (Bson.datetime t) = Bson.datetime t.
Proof. unfold Bson.datetime. by rewrite Z.div_mul. Qed.

Lemma Bson_datetime_mono (a b : Z) :
  a ≤ b → Bson.datetime a ≤ Bson.datetime b.
Proof.
  intros Hab. unfold Bson.datetime.
  apply Z.mul_le_mono_nonneg_r; [lia|]. by apply Z.div_le_mono.
Qed.

Lemma Bson_server_fixed (d : ServerInDB.t) :
  Bson.server d = inr d
  ↔ Bson.int64 (ServerInDB.cores d) = true
    ∧ Bson.datetime (ServerInDB.created_at d) = ServerInDB.created_at d
    ∧ Bson.datetime (ServerInDB.updated_at d) = ServerInDB.updated_at d.
Proof.
  unfold Bson.server. destruct (Bson.int64 _); [|by split; [|intros []]].
  destruct d; simpl. split.
  - by intros [= -> ->].
  - by intros (_ & -> & ->).
Qed.

Lemma Bson_server_idem (server server_doc : ServerInDB.t) :
  Bson.server server = inr server_doc →
  Bson.server server_doc = inr server_doc.
Proof.
  intros [Hcores ->]%Bson_server_inr. apply Bson_server_fixed. simpl.
  by rewrite !Bson_datetime_idem.
Qed.

Lemma Bson_server_set_status (st : ServerStatus) (now : Z)
    (d : ServerInDB.t) :
  Bson.server d = inr d →
  Bson.server (Servers.set_status st (Bson.datetime now) d)
  = inr (Servers.set_status st (Bson.datetime now) d).
Proof.
  intros (Hc & Hcr & _)%Bson_server_fixed. apply Bson_server_fixed. simpl.
  by rewrite Bson_datetime_idem.
Qed.

Lemma apply_update_positive (server_update : ServerUpdate.t) (now : Z)
    (old : ServerInDB.t) :
  Servers.non_positive_field server_update = inr None →
  positive_shape old →
  positive_shape (Servers.apply_update server_update now old).
Proof.
  intros Hpos (Hp1 & Hp2 & Hp3 & Hp4).
  destruct (non_positive_field_pass _ Hpos)
    as (Hcpu & Hcores & Hram & Hdisk & _).
  unfold positive_shape. simpl. repeat split.
  - destruct (ServerUpdate.cpu_limit server_update) eqn:E; simpl; auto.
  - destruct (ServerUpdate.cores server_update) eqn:E; simpl; auto.
  - destruct (ServerUpdate.ram_gib server_update) eqn:E; simpl; auto.
  - destruct (ServerUpdate.disk_gib server_update) eqn:E; simpl; auto.
Qed.

Lemma start_server_keeps_invariant (server_id current_user : string)
    (now : Z) (w : World) :
  store_invariant (db w) →
  let w' := (Servers.start_server server_id current_user now w).2 in
  store_invariant (db w') ∧ usage_samples (db w') = usage_samples (db w).
Proof.
  intros [Hsid Hiid Hper Hpos Hwf Hse Hie Hte]. unfold Servers.start_server.
  destruct (Mongo.find_one _ _); [|done].
  destruct (parse _ _); [done|].
  destruct (decide _); [done|]. destruct (negb _); [done|].
  destruct (start_container _ _) as [[] dm]; [|done]. simpl.
  split; [|done]. split; simpl; try done.
  - by rewrite fmap_update_one.
  - apply Forall_update_one; [done|]. intros d Hd _.
    by apply (proj1 (Forall_forall _ _) Hpos d Hd).
  - apply Forall_update_one; [done|]. intros d Hd _.
    by apply Bson_server_set_status, (proj1 (Forall_forall _ _) Hse d Hd).
Qed.

Lemma stop_server_keeps_invariant (server_id current_user : string)
    (now : Z) (w : World) :
  store_invariant (db w) →
  let w' := (Servers.stop_server server_id current_user now w).2 in
  store_invariant (db w') ∧ usage_samples (db w') = usage_samples (db w).
Proof.
  intros [Hsid Hiid Hper Hpos Hwf Hse Hie Hte]. unfold Servers.stop_server.
  destruct (Mongo.find_one _ _); [|done].
  destruct (parse _ _); [done|].
  destruct (decide _); [done|]. destruct (negb _); [done|].
  destruct (stop_container _ _) as [[] dm]; [|done]. simpl.
  split; [|done]. split; simpl; try done.
  - by rewrite fmap_update_one.
  - apply Forall_update_one; [done|]. intros d Hd _.
    by apply (proj1 (Forall_forall _ _) Hpos d Hd).
  - apply Forall_update_one; [done|]. intros d Hd _.
    by apply Bson_server_set_status, (proj1 (Forall_forall _ _) Hse d Hd).
Qed.

Lemma create_server_keeps_invariant (server_data : ServerCreate.t)
    (current_user uuid : string) (now updated_at : Z) (w : World) :
  store_invariant (db w) →
  (∀ s, s ∈ servers (db w) → ServerInDB.id s ≠ uuid) →
  let w' :=
    (Servers.create_server server_data current_user uuid now updated_at
       w).2 in
  store_invariant (db w') ∧ usage_samples (db w') = usage_samples (db w).
Proof.
  intros [Hsid Hiid Hper Hpos Hwf Hse Hie Hte] Hfresh.
  unfold Servers.create_server.
  destruct (_ || _) eqn:Hcheck; [done|].
  destruct (create_container _ _) as [[x|h] dm]; [done|].
  destruct (Bson.server _) as [x|doc] eqn:Hdoc; [done|]. simpl.
  pose proof (Bson_server_inr _ _ Hdoc) as [_ Hfields].
  split; [|done]. split; simpl; try done.
  - apply NoDup_snoc_fresh; [done|]. by rewrite Hfields.
  - unfold Mongo.insert_one. apply Forall_app. split; [done|].
    apply Forall_singleton.
    apply orb_false_elim in Hcheck as [Hcheck Hdisk].
    apply orb_false_elim in Hcheck as [Hcheck Hram].
    apply orb_false_elim in Hcheck as [Hcpu Hcores].
    apply bool_decide_eq_false in Hcores.
    rewrite Hfields. repeat split; try done. simpl. lia.
  - unfold Mongo.insert_one. apply Forall_app. split; [done|].
    apply Forall_singleton. by apply (Bson_server_idem _ _ Hdoc).
Qed.

Lemma persist_keeps_invariant (server_id current_user : string)
    (old server : ServerInDB.t) (w0 w : World) :
  store_invariant (db w0) →
  Mongo.find_one
    (λ d, ServerInDB.id d = server_id
          ∧ ServerInDB.user_id d = current_user) (servers (db w0))
  = Some old →
  ServerInDB.id server = server_id →
  positive_shape server →
  db w = db w0 →
  let w' := (Servers.persist server_id server w).2 in
  store_invariant (db w') ∧ usage_samples (db w') = usage_samples (db w0).
Proof.
  intros Hinv Hfind Hid Hshape Hdb. unfold Servers.persist.
  destruct (Bson.server server) as [x|doc] eqn:Hdoc;
    [simpl; by rewrite Hdb|].
  pose proof (Bson_server_inr _ _ Hdoc) as [_ Hfields].
  assert (store_invariant
            (db (set_servers w
                   (Mongo.update_one (λ d, ServerInDB.id d = server_id)
                      (λ _, doc) (servers (db w)))))) as Hinv'.
  { destruct Hinv as [Hsid Hiid Hper Hpos Hwf Hse Hie Hte].
    split; simpl; rewrite Hdb; try done.
    - rewrite fmap_update_one; [done|]. intros d _ Hd.
      rewrite Hfields. simpl. congruence.
    - apply Forall_update_one; [done|]. intros d _ _. by rewrite Hfields.
    - apply Forall_update_one; [done|]. intros d _ _.
      by apply (Bson_server_idem _ _ Hdoc). }
  destruct (parse "Server" server); simpl; (split; [done|by rewrite Hdb]).
Qed.

Lemma update_server_keeps_invariant (server_id : string)
    (server_update : ServerUpdate.t) (current_user : string) (now : Z)
    (w : World) :
  store_invariant (db w) →
  let w' :=
    (Servers.update_server server_id server_update current_user now w).2 in
  store_invariant (db w') ∧ usage_samples (db w') = usage_samples (db w).
Proof.
  intros Hinv. unfold Servers.update_server.
  destruct (Mongo.find_one _ _) as [doc|] eqn:Hfind; [|done].
  pose proof (find_one_Some _ _ _ Hfind) as (Hin & Hid & _).
  destruct (parse _ doc) as [x|s] eqn:Hparse; [done|].
  apply parse_inr in Hparse as [-> _].
  destruct (Servers.no_fields _); [done|].
  destruct (Servers.non_positive_field _) as [x|[f|]] eqn:Hpos; [done..|].
  assert (positive_shape (Servers.apply_update server_update now doc))
    as Hshape.
  { apply apply_update_positive; [done|].
    by apply (proj1 (Forall_forall _ _) (servers_positive _ Hinv)). }
  destruct (_ && _).
  - destruct (update_container_resources _ _ _) as [[] dm]; [|done].
    by apply (persist_keeps_invariant _ current_user doc).
  - by apply (persist_keeps_invariant _ current_user doc).
Qed.

Lemma delete_server_keeps_invariant (server_id current_user : string)
    (w : World) :
  store_invariant (db w) →
  let w' := (Servers.delete_server server_id current_user w).2 in
  store_invariant (db w') ∧ usage_samples (db w') = usage_samples (db w).
Proof.
  intros [Hsid Hiid Hper Hpos Hwf Hse Hie Hte]. unfold Servers.delete_server.
  destruct (Mongo.find_one _ _) as [server|]; [|done].
  destruct (parse _ _); [done|].
  destruct (Py.truthy _); simpl.
  - split; [|done]. split; simpl; try done.
    + by apply NoDup_delete_one.
    + by apply Forall_delete_one.
    + by apply Forall_delete_one.
  - split; [|done]. split; simpl; try done.
    + by apply NoDup_delete_one.
    + by apply Forall_delete_one.
    + by apply Forall_delete_one.
Qed.

Lemma generate_invoice_keeps_invariant (cfg : Settings.t) (ps pe : Z)
    (current_user uuid : string) (now : Z) (w : World) :
  store_invariant (db w) →
  (∀ i, i ∈ invoices (db w) → Invoice.id i ≠ uuid) →
  let w' :=
    (Billing.generate_invoice cfg ps pe current_user uuid now w).2 in
  store_invariant (db w') ∧ usage_samples (db w') = usage_samples (db w).
Proof.
  intros [Hsid Hiid Hper Hpos Hwf Hse Hie Hte] Hfresh.
  unfold Billing.generate_invoice.
  destruct (decide _) as [|Hlt]; [done|].
  destruct (Mongo.find_one _ _) eqn:Hfind; [done|].
  destruct (Mongo.find _ _); [done|].
  destruct (foldl _ _ _) as [line_items total_amount]. simpl.
  split; [|done]. split; simpl; try done.
  - by apply NoDup_snoc_fresh.
  - apply NoDup_snoc_fresh; [done|]. intros d Hd Hkey.
    apply (find_one_None _ _ Hfind d Hd). unfold period_key in Hkey.
    simpl in Hkey. by injection Hkey as -> -> ->.
  - unfold Mongo.insert_one. apply Forall_app. split; [done|].
    apply Forall_singleton. split; simpl; [|done].
    apply Bson_datetime_mono. lia.
  - unfold Mongo.insert_one. apply Forall_app. split; [done|].
    apply Forall_singleton. unfold Bson.invoice. simpl.
    by rewrite !Bson_datetime_idem.
Qed.

Lemma pay_invoice_keeps_invariant (invoice_id : string)
    (method : TransactionMethod) (current_user uuid : string) (now : Z)
    (w : World) :
  store_invariant (db w) →
  let w' :=
    (Billing.pay_invoice invoice_id method current_user uuid now w).2 in
  store_invariant (db w') ∧ usage_samples (db w') = usage_samples (db w).
Proof.
  intros [Hsid Hiid Hper Hpos Hwf Hse Hie Hte]. unfold Billing.pay_invoice.
  destruct (Mongo.find_one _ _); [|done].
  destruct (decide _); [done|]. simpl.
  split; [|done]. split; simpl; try done.
  - by rewrite fmap_update_one.
  - by rewrite fmap_update_one.
  - apply Forall_update_one; [done|]. intros d Hd _.
    by apply (proj1 (Forall_forall _ _) Hwf d Hd).
  - apply Forall_update_one; [done|]. intros d Hd _.
    pose proof (proj1 (Forall_forall _ _) Hie d Hd) as Hd'.
    destruct d. unfold Bson.invoice in *. simpl in *.
    by injection Hd' as -> -> ->.
  - unfold Mongo.insert_one. apply Forall_app. split; [done|].
    apply Forall_singleton. unfold Bson.transaction. simpl.
    by rewrite Bson_datetime_idem.
Qed.

(** X8. The routes keep the store well formed: if server ids and invoice
    ids are unique, no user has two invoices for one period, no stored
    resource is [<= 0], every invoice has [subtotal = total] and a period
    that does not end before it starts, and every server, invoice and
    transaction is as the driver encodes it (dates in whole milliseconds,
    [cores] within 8 bytes), then the same holds after any request,
    provided the id drawn for a created document is new.  No route writes
    a usage sample. *)
Theorem routes_keep_the_store_well_formed
    (group_order :
       list (Z * list UsageSample.t) → list (Z * list UsageSample.t))
    (cfg : Settings.t) (req : Request) (current_user : string) (now : Z)
    (w : World) :
  store_invariant (db w) →
  fresh_uuid req (db w) →
  let w' := (respond group_order cfg req current_user now w).2 in
  store_invariant (db w')
  ∧ usage_samples (db w') = usage_samples (db w).
Proof.
  intros Hinv Hfresh. unfold respond.
  destruct req; cbn [handle fst snd] in *; try done.
  - by apply create_server_keeps_invariant.
  - by apply start_server_keeps_invariant.
  - by apply stop_server_keeps_invariant.
  - by apply update_server_keeps_invariant.
  - by apply delete_server_keeps_invariant.
  - by apply generate_invoice_keeps_invariant.
  - by apply pay_invoice_keeps_invariant.
Qed.

Lemma routes_keep_the_store_well_formed_witness :
  let w :=
    Scenario.store [Scenario.database; Scenario.alices] Scenario.hour_apart
      [Scenario.draft] in
  let w' :=
    (respond (λ g, g) settings (GenerateInvoice 100 900 "inv2") "alice"
       9000123 w).2 in
  store_invariant (db w')
  ∧ (λ i, (Invoice.id i, Invoice.period_start i, Invoice.period_end i,
           Invoice.created_at i)) <$> invoices (db w')
    = [("inv1", 0, 3600000000, 5000); ("inv2", 0, 0, 9000000)].
Proof.
  intros w w'. split; [|reflexivity].
  apply (routes_keep_the_store_well_formed (λ g, g) settings
           (GenerateInvoice 100 900 "inv2") "alice" 9000123 w).
  - split.
    + by apply (bool_decide_unpack _); vm_compute.
    + by apply (bool_decide_unpack _); vm_compute.
    + apply NoDup_singleton.
    + repeat constructor; by vm_compute.
    + repeat constructor; by vm_compute.
    + repeat constructor; by vm_compute.
    + repeat constructor; by vm_compute.
    + constructor.
  - intros i Hi. apply list_elem_of_singleton in Hi as ->. done.
Defined.

(** X9. A server that the caller does not own cannot be told from one that
    does not exist: reading, starting, stopping, updating or deleting it
    and querying its usage all answer 404 "Server not found" and change
    nothing, runtime included; the same holds for reading and paying an
    invoice. *)
Theorem not_owned_is_not_found
    (group_order :
       list (Z * list UsageSample.t) → list (Z * list UsageSample.t))
    (cfg : Settings.t) (current_user : string) (now : Z) (w : World) :
  (∀ server_id req,
     (∀ d, d ∈ servers (db w) → ServerInDB.id d = server_id →
           ServerInDB.user_id d ≠ current_user) →
     (req = GetServer server_id ∨ req = StartServer server_id
      ∨ req = StopServer server_id ∨ req = DeleteServer server_id
      ∨ (∃ server_update, req = UpdateServer server_id server_update)
      ∨ (∃ from_date to_date interval,
           req = GetServerUsage server_id from_date to_date interval)) →
     respond group_order cfg req current_user now w
     = (Some {| status_code := HTTP_404_NOT_FOUND;
                detail := "Server not found" |}, w))
  ∧ (∀ invoice_id req,
       (∀ d, d ∈ invoices (db w) → Invoice.id d = invoice_id →
             Invoice.user_id d ≠ current_user) →
       (req = GetInvoice invoice_id
        ∨ ∃ method uuid, req = PayInvoice invoice_id method uuid) →
       respond group_order cfg req current_user now w
       = (Some {| status_code := HTTP_404_NOT_FOUND;
                  detail := "Invoice not found" |}, w)).
Proof.
  split.
  - intros server_id req Hforeign Hreq.
    assert (Mongo.find_one
              (λ d, ServerInDB.id d = server_id
                    ∧ ServerInDB.user_id d = current_user) (servers (db w))
            = None) as Hnone.
    { destruct (Mongo.find_one _ _) as [d|] eqn:Hfind; [|done].
      apply find_one_Some in Hfind as (Hd & Hid & Hu).
      by destruct (Hforeign d Hd Hid). }
    unfold respond.
    destruct Hreq as [->|[->|[->|[->|[[upd ->]|(f & t & i & ->)]]]]];
      cbn [handle].
    + unfold Servers.get_server. by rewrite Hnone.
    + unfold Servers.start_server. by rewrite Hnone.
    + unfold Servers.stop_server. by rewrite Hnone.
    + unfold Servers.delete_server. by rewrite Hnone.
    + unfold Servers.update_server. by rewrite Hnone.
    + unfold Usage.get_server_usage. by rewrite Hnone.
  - intros invoice_id req Hforeign Hreq.
    assert (Mongo.find_one
              (λ d, Invoice.id d = invoice_id
                    ∧ Invoice.user_id d = current_user) (invoices (db w))
            = None) as Hnone.
    { destruct (Mongo.find_one _ _) as [d|] eqn:Hfind; [|done].
      apply find_one_Some in Hfind as (Hd & Hid & Hu).
      by destruct (Hforeign d Hd Hid). }
    unfold respond. destruct Hreq as [->|(m & u & ->)]; cbn [handle].
    + unfold Billing.get_invoice. by rewrite Hnone.
    + unfold Billing.pay_invoice. by rewrite Hnone.
Qed.

Lemma not_owned_is_not_found_witness :
  let w :=
    {| db := {| servers := [Scenario.web]; usage_samples := [];
                invoices := [Scenario.draft]; transactions := [] |};
       docker_manager := DockerManager_init (Some Scenario.daemon);
       nats := [] |} in
  respond (λ g, g) settings (DeleteServer "s1") "bob" 3000 w
  = (Some {| status_code := 404; detail := "Server not found" |}, w)
  ∧ respond (λ g, g) settings (PayInvoice "inv1" PAYPAL "t1") "bob" 3000 w
    = (Some {| status_code := 404; detail := "Invoice not found" |}, w).
Proof.
  intros w.
  destruct (not_owned_is_not_found (λ g, g) settings "bob" 3000 w)
    as [Hserver Hinvoice].
  split.
  - apply (Hserver "s1"); [|auto].
    intros d Hd _. apply list_elem_of_singleton in Hd as ->. done.
  - apply (Hinvoice "inv1"); [|right; by eexists _, _].
    intros d Hd _. apply list_elem_of_singleton in Hd as ->. done.
Defined.

(** ** Invoices *)

(** X10. A generated invoice is a Draft of the caller for the requested
    period with [subtotal = total], answered with the dates as requested
    and read from the clock; what the store keeps, as the last invoice, is
    that invoice with its three dates cut to the millisecond, so its
    period may be empty.  The event is announced on the bus; servers,
    samples and transactions are untouched, and any further request of
    that caller for a period that the store cannot tell from this one is a
    400 that stores nothing.  With a new id, the stored invoice is what the
    caller reads back. *)
Theorem generate_invoice_once (cfg : Settings.t) (ps pe : Z)
    (current_user uuid : string) (now : Z) (w w' : World)
    (invoice : Invoice.t) :
  Billing.generate_invoice cfg ps pe current_user uuid now w
  = (Ok invoice, w') →
  (Invoice.id invoice = uuid
   ∧ Invoice.user_id invoice = current_user
   ∧ Invoice.period_start invoice = ps ∧ Invoice.period_end invoice = pe
   ∧ ps < pe
   ∧ Invoice.status invoice = DRAFT
   ∧ Invoice.subtotal invoice = Invoice.total invoice
   ∧ Invoice.created_at invoice = now)
  ∧ invoices (db w') = invoices (db w) ++ [Bson.invoice invoice]
  ∧ (Invoice.period_start (Bson.invoice invoice) = Bson.datetime ps
     ∧ Invoice.period_end (Bson.invoice invoice) = Bson.datetime pe
     ∧ Invoice.created_at (Bson.invoice invoice) = Bson.datetime now
     ∧ Bson.datetime ps ≤ Bson.datetime pe)
  ∧ nats w' = nats w ++ [invoice_generated uuid]
  ∧ (servers (db w') = servers (db w)
     ∧ usage_samples (db w') = usage_samples (db w)
     ∧ transactions (db w') = transactions (db w)
     ∧ docker_manager w' = docker_manager w)
  ∧ (∀ cfg' ps' pe' uuid' now',
       ps' < pe' →
       Bson.datetime ps' = Bson.datetime ps →
       Bson.datetime pe' = Bson.datetime pe →
       Billing.generate_invoice cfg' ps' pe' current_user uuid' now' w'
       = (http HTTP_400_BAD_REQUEST "Invoice already exists for this period",
          w'))
  ∧ ((∀ d, d ∈ invoices (db w) → Invoice.id d ≠ uuid) →
     Billing.get_invoice uuid current_user w' = Ok (Bson.invoice invoice)).
Proof.
  intros Hgen.
  apply generate_invoice_Ok in Hgen as (Hlt & Hnone & Hservers & -> & ->).
  simpl. repeat split; try done.
  - apply Bson_datetime_mono. lia.
  - intros cfg' ps' pe' uuid' now' Hlt' Hps Hpe.
    unfold Billing.generate_invoice.
    rewrite decide_False by lia. simpl.
    match goal with
    | |- context [Mongo.find_one ?P (Mongo.insert_one ?i ?l)] =>
        destruct (find_one_is_Some P (Mongo.insert_one i l) i) as [d ->];
          [apply elem_of_app; right; apply list_elem_of_here|done|done]
    end.
  - intros Hfresh. unfold Billing.get_invoice. simpl.
    by rewrite (find_one_insert_one Invoice.id Invoice.user_id).
Qed.

Lemma generate_invoice_once_witness :
  let w := Scenario.store [Scenario.web] Scenario.hour_apart [] in
  ∃ invoice w',
    Billing.generate_invoice settings 250 7200000000 "alice" "inv1" 9000123
      w
    = (Ok invoice, w')
    ∧ Invoice.total invoice = 0.012%float
    ∧ (Invoice.period_start invoice, Invoice.created_at invoice)
      = (250, 9000123)
    ∧ invoices (db w') = [Bson.invoice invoice]
    ∧ (Invoice.period_start (Bson.invoice invoice),
       Invoice.created_at (Bson.invoice invoice)) = (0, 9000000)
    ∧ Billing.generate_invoice settings 0 7200000999 "alice" "inv2"
        10000000 w'
      = (http HTTP_400_BAD_REQUEST "Invoice already exists for this period",
         w')
    ∧ Billing.get_invoice "inv1" "alice" w' = Ok (Bson.invoice invoice).
Proof.
  intros w.
  edestruct (generate_invoice_once settings 250 7200000000 "alice" "inv1"
               9000123 w)
    as (_ & Hstored & _ & _ & _ & Htwice & Hget).
  - lazy. reflexivity.
  - eexists _, _. split; [lazy; reflexivity|]. split; [reflexivity|].
    split; [reflexivity|]. split; [exact Hstored|].
    split; [reflexivity|]. split; [by apply Htwice|]. apply Hget.
    intros d Hd. by apply not_elem_of_nil in Hd.
Defined.

Lemma bill_server_at_most_one_sample (cfg : Settings.t) (ps pe : Z)
    (c : list UsageSample.t) (st : list LineItem.t * float)
    (server : ServerInDB.t) :
  (length (Billing.samples_in_period (ServerInDB.id server) ps pe c) ≤ 1)%nat
  → Billing.bill_server cfg ps pe c st server = st.
Proof.
  unfold Billing.bill_server.
  destruct (Billing.samples_in_period _ _ _ _) as [|s [|s' l]]; simpl;
    [done|done|lia].
Qed.

(** X11. When every server of the caller has at most one sample in the
    period, the invoice is generated all the same, with no line item and a
    subtotal and total of 0.0: no interval, nothing billed. *)
Theorem generate_invoice_without_intervals (cfg : Settings.t) (ps pe : Z)
    (current_user uuid : string) (now : Z) (w : World)
    (owned : ServerInDB.t) :
  ps < pe →
  (∀ d, d ∈ invoices (db w) →
        ¬ (Invoice.user_id d = current_user
           ∧ Invoice.period_start d = Bson.datetime ps
           ∧ Invoice.period_end d = Bson.datetime pe)) →
  owned ∈ servers (db w) → ServerInDB.user_id owned = current_user →
  (∀ server, server ∈ servers (db w) →
     ServerInDB.user_id server = current_user →
     (length (Billing.samples_in_period (ServerInDB.id server) ps pe
                (usage_samples (db w))) ≤ 1)%nat) →
  ∃ w',
    Billing.generate_invoice cfg ps pe current_user uuid now w
    = (Ok (Invoice.mk uuid current_user ps pe [] 0 0 DRAFT now), w')
    ∧ invoices (db w')
      = invoices (db w)
        ++ [Bson.invoice
              (Invoice.mk uuid current_user ps pe [] 0 0 DRAFT now)].
Proof.
  intros Hlt Hnew Howned Huser Hfew. unfold Billing.generate_invoice.
  rewrite decide_False by lia.
  destruct (Mongo.find_one _ (invoices (db w))) as [d|] eqn:Hfind.
  { apply find_one_Some in Hfind as [Hd HP]. by destruct (Hnew d Hd). }
  assert (∀ l st,
            (∀ s, s ∈ l → s ∈ servers (db w)
                          ∧ ServerInDB.user_id s = current_user) →
            foldl (Billing.bill_server cfg ps pe (usage_samples (db w))) st l
            = st) as Hfold.
  { induction l as [|s l IH]; intros st Hl; [done|]. simpl.
    destruct (Hl s (list_elem_of_here _ _)) as [Hs Hu].
    rewrite bill_server_at_most_one_sample by (by apply Hfew).
    apply IH. intros x Hx. by apply Hl, list_elem_of_further. }
  destruct (Mongo.find _ (servers (db w))) as [|s l] eqn:Hservers.
  { assert (owned ∈ Mongo.find (λ d, ServerInDB.user_id d = current_user)
                       (servers (db w))) as Hin
      by (by apply list_elem_of_filter).
    rewrite Hservers in Hin. by apply not_elem_of_nil in Hin. }
  rewrite Hfold.
  - eexists. split; [reflexivity|done].
  - intros x Hx. rewrite <- Hservers in Hx.
    by apply list_elem_of_filter in Hx as [? ?].
Qed.

Lemma generate_invoice_without_intervals_witness :
  let w := Scenario.store [Scenario.web] [Scenario.on_the_hour] [] in
  ∃ w',
    Billing.generate_invoice settings 0 7200000000 "alice" "inv1" 9000000 w
    = (Ok (Invoice.mk "inv1" "alice" 0 7200000000 [] 0 0 DRAFT 9000000),
       w').
Proof.
  intros w.
  destruct (generate_invoice_without_intervals settings 0 7200000000
              "alice" "inv1" 9000000 w Scenario.web) as (w' & Hgen & _).
  - done.
  - intros d Hd. by apply not_elem_of_nil in Hd.
  - apply list_elem_of_here.
  - reflexivity.
  - intros server Hs _. apply list_elem_of_singleton in Hs as ->.
    vm_compute. lia.
  - by exists w'.
Defined.

Lemma length_add_item (kind unit : string) (quantity rate : float)
    (st : list LineItem.t * float) :
  (length (Billing.add_item kind unit quantity rate st).1
   ≤ length st.1 + 1)%nat.
Proof.
  unfold Billing.add_item. destruct (0 <? quantity)%float; simpl; [|lia].
  rewrite length_app. simpl. lia.
Qed.

Lemma length_bill_server (cfg : Settings.t) (ps pe : Z)
    (c : list UsageSample.t) (st : list LineItem.t * float)
    (server : ServerInDB.t) :
  (length (Billing.bill_server cfg ps pe c st server).1
   ≤ length st.1 + 3)%nat.
Proof.
  unfold Billing.bill_server.
  destruct (Billing.samples_in_period _ _ _ _); [lia|].
  unfold Billing.items_of.
  repeat match goal with
    | |- context [Billing.add_item ?k ?u ?q ?r ?s] =>
        lazymatch goal with
        | _ : (length (Billing.add_item k u q r s).1 ≤ _)%nat |- _ => fail
        | _ => pose proof (length_add_item k u q r s)
        end
    end.
  lia.
Qed.

Lemma parse_all_inr (docs servers : list ServerInDB.t) :
  Servers.parse_all docs = inr servers → servers = docs.
Proof.
  revert servers. induction docs as [|d r IH]; intros servers; simpl.
  - by intros [= <-].
  - destruct (parse "Server" d) as [e|s] eqn:Hparse; [done|].
    apply parse_inr in Hparse as [-> _].
    destruct (Servers.parse_all r) as [e|l]; [done|].
    intros [= <-]. by rewrite (IH l).
Qed.

(** X12. An invoice carries at most three line items for each server
    record of the caller; when [list_servers] answers the caller, they are
    the servers it lists. *)
Theorem invoice_items_per_server (cfg : Settings.t) (ps pe : Z)
    (current_user uuid : string) (now : Z) (w w' : World)
    (invoice : Invoice.t) :
  Billing.generate_invoice cfg ps pe current_user uuid now w
  = (Ok invoice, w') →
  (length (Invoice.line_items invoice)
   ≤ 3 * length (filter (λ d, ServerInDB.user_id d = current_user)
                   (servers (db w))))%nat
  ∧ ∀ servers,
      Servers.list_servers current_user w = Ok servers →
      (length (Invoice.line_items invoice) ≤ 3 * length servers)%nat.
Proof.
  intros Hgen.
  apply generate_invoice_Ok in Hgen as (_ & _ & _ & -> & _). simpl.
  assert (∀ l st,
            (length (foldl (Billing.bill_server cfg ps pe
                              (usage_samples (db w))) st l).1
             ≤ length st.1 + 3 * length l)%nat) as Hbound.
  { induction l as [|s l IH]; intros st; simpl; [lia|].
    specialize (IH (Billing.bill_server cfg ps pe (usage_samples (db w))
                      st s)).
    pose proof (length_bill_server cfg ps pe (usage_samples (db w)) st s).
    lia. }
  split.
  - specialize (Hbound (filter (λ d, ServerInDB.user_id d = current_user)
                          (servers (db w))) ([], 0%float)).
    simpl in Hbound. unfold Mongo.find. lia.
  - intros l. unfold Servers.list_servers.
    destruct (Servers.parse_all _) as [e|l'] eqn:Hparse; [done|].
    intros [= <-]. apply parse_all_inr in Hparse as ->.
    specialize (Hbound (Mongo.find (λ d, ServerInDB.user_id d = current_user)
                          (servers (db w))) ([], 0%float)).
    simpl in Hbound. lia.
Qed.

Lemma invoice_items_per_server_witness :
  let w := Scenario.store [Scenario.web] Scenario.hour_apart [] in
  ∃ invoice w',
    Billing.generate_invoice settings 0 7200000000 "alice" "inv1" 9000000 w
    = (Ok invoice, w')
    ∧ Servers.list_servers "alice" w = Ok [Scenario.web]
    ∧ (length (Invoice.line_items invoice) ≤ 3)%nat.
Proof.
  intros w. eexists _, _. split; [lazy; reflexivity|].
  split; [reflexivity|].
  apply (invoice_items_per_server settings 0 7200000000 "alice" "inv1"
           9000000 w _ _ eq_refl).
Defined.

Lemma Sorted_weaken {A} (R S : A → A → Prop) (l : list A) :
  (∀ a b, R a b → S a b) → Sorted R l → Sorted S l.
Proof.
  intros HRS Hs. induction Hs as [|a l Hs IH Hhd]; constructor; [done|].
  destruct Hhd; constructor. by apply HRS.
Qed.

(** X13. [list_invoices] answers exactly the invoices of the caller, the
    most recently created first. *)
Theorem list_invoices_newest_first (current_user : string) (w : World) :
  Sorted (λ a b, Invoice.created_at b ≤ Invoice.created_at a)
    (Billing.list_invoices current_user w)
  ∧ Billing.list_invoices current_user w
    ≡ₚ filter (λ d, Invoice.user_id d = current_user) (invoices (db w)).
Proof.
  unfold Billing.list_invoices, Mongo.find. split.
  - eapply Sorted_weaken; [|apply sort_by_Sorted].
    intros a b. unfold Mongo.by_key. lia.
  - apply sort_by_Permutation.
Qed.

(** ** Usage rows *)

Lemma total_count_Permutation (l k : list Usage.row) :
  l ≡ₚ k → total_count l = total_count k.
Proof.
  unfold total_count. induction 1; simpl; lia.
Qed.

Section Counting.
Context {A : Type}.
Variable key : A → Z.

Lemma bucket_sizes_cons_other (ks : list Z) (x : A) (l : list A) :
  key x ∉ ks → bucket_sizes key ks (x :: l) = bucket_sizes key ks l.
Proof.
  unfold bucket_sizes. induction ks as [|k ks IH]; intros Hx; [done|].
  simpl. apply not_elem_of_cons in Hx as [Hne Hx].
  rewrite filter_cons_False by done. by rewrite IH.
Qed.

Lemma bucket_sizes_cons (ks : list Z) (x : A) (l : list A) :
  NoDup ks → key x ∈ ks →
  bucket_sizes key ks (x :: l) = 1 + bucket_sizes key ks l.
Proof.
  induction ks as [|k ks IH]; intros Hnd Hx.
  - by apply not_elem_of_nil in Hx.
  - apply NoDup_cons in Hnd as [Hk Hnd].
    change (bucket_sizes key (k :: ks) (x :: l))
      with (Z.of_nat (length (filter (λ s, key s = k) (x :: l)))
            + bucket_sizes key ks (x :: l)).
    change (bucket_sizes key (k :: ks) l)
      with (Z.of_nat (length (filter (λ s, key s = k) l))
            + bucket_sizes key ks l).
    destruct (decide (key x = k)) as [Heq|Hne].
    + rewrite filter_cons_True by done.
      rewrite bucket_sizes_cons_other by (by rewrite Heq).
      simpl length. lia.
    + rewrite filter_cons_False by done.
      apply elem_of_cons in Hx as [?|Hx]; [done|].
      rewrite IH by done. lia.
Qed.

Lemma bucket_sizes_total (ks : list Z) (l : list A) :
  NoDup ks → (∀ x, x ∈ l → key x ∈ ks) →
  bucket_sizes key ks l = Z.of_nat (length l).
Proof.
  intros Hnd. induction l as [|x l IH]; intros Hall.
  - unfold bucket_sizes. clear. induction ks as [|k ks IH]; [done|].
    simpl in *. lia.
  - rewrite bucket_sizes_cons by (by try apply Hall, list_elem_of_here).
    rewrite IH by (intros y Hy; by apply Hall, list_elem_of_further).
    simpl length. lia.
Qed.
End Counting.

Lemma dateTrunc_window (bin ts : Z) :
  0 < bin →
  Agg.dateTrunc bin ts ≤ ts ∧ ts < Agg.dateTrunc bin ts + bin
  ∧ Agg.dateTrunc bin ts `mod` bin = 0.
Proof.
  intros Hbin. unfold Agg.dateTrunc.
  pose proof (Z.mod_pos_bound ts bin Hbin).
  split; [lia|]. split; [lia|].
  rewrite Zminus_mod_idemp_r. by rewrite Z.sub_diag, Z.mod_0_l by lia.
Qed.

Lemma bin_of_positive (interval : string) (bin : Z) :
  Usage.bin_of interval = Some bin → 0 < bin.
Proof.
  unfold Usage.bin_of. repeat case_decide; intros [= <-]; lia.
Qed.

(** X14. At "1m" the usage query answers the samples of the server in the
    range themselves, each once, in ascending order of [ts]; the two
    bounds of the range are compared as the driver encodes them, in whole
    milliseconds. *)
Theorem usage_raw_rows_in_time_order
    (group_order :
       list (Z * list UsageSample.t) → list (Z * list UsageSample.t))
    (server_id : string) (from_date to_date : Z) (current_user : string)
    (now : Z) (w : World) :
  is_Some (Mongo.find_one
             (λ d, ServerInDB.id d = server_id
                   ∧ ServerInDB.user_id d = current_user) (servers (db w))) →
  ∃ r samples,
    Usage.get_server_usage group_order server_id (Some from_date)
      (Some to_date) "1m" current_user now w = Ok r
    ∧ Usage.data r = Usage.Raw <$> samples
    ∧ Sorted (λ a b, UsageSample.ts a ≤ UsageSample.ts b) samples
    ∧ samples
      ≡ₚ filter (λ s, UsageSample.server_id s = server_id
                      ∧ Bson.datetime from_date ≤ UsageSample.ts s
                      ∧ UsageSample.ts s ≤ Bson.datetime to_date)
        (usage_samples (db w)).
Proof.
  intros Hsrv. eexists _, _. split.
  { apply get_server_usage_Ok; [done|]. apply list_elem_of_here. }
  split; [reflexivity|]. split.
  - apply sort_by_Sorted.
  - apply sort_by_Permutation.
Qed.

Lemma usage_raw_rows_in_time_order_witness :
  let w := Scenario.store [Scenario.web] Scenario.hour_apart [] in
  ∃ r samples,
    Usage.get_server_usage (λ g, g) "s1" (Some 999) (Some 3600000999)
      "1m" "alice" 0 w = Ok r
    ∧ Usage.data r = Usage.Raw <$> samples
    ∧ Sorted (λ a b, UsageSample.ts a ≤ UsageSample.ts b) samples
    ∧ samples
      ≡ₚ filter (λ s, UsageSample.server_id s = "s1"
                      ∧ 0 ≤ UsageSample.ts s
                      ∧ UsageSample.ts s ≤ 3600000000) Scenario.hour_apart.
Proof.
  intros w.
  apply (usage_raw_rows_in_time_order (λ g, g) "s1" 999 3600000999 "alice"
           0 w).
  by eexists.
Defined.

Lemma dateTrunc_in_window (bin start ts : Z) :
  0 < bin → start `mod` bin = 0 →
  Agg.dateTrunc bin ts = start ↔ start ≤ ts ∧ ts < start + bin.
Proof.
  intros Hbin Hstart. unfold Agg.dateTrunc.
  pose proof (Z.mod_pos_bound ts bin Hbin) as Hmod.
  pose proof (Z.div_mod ts bin ltac:(lia)) as Hts.
  pose proof (Z.div_mod start bin ltac:(lia)) as Hst.
  rewrite Hstart, Z.add_0_r in Hst.
  split; [lia|]. intros [Hlo Hhi].
  assert (ts `div` bin = start `div` bin) as Hq by nia.
  rewrite Hq in Hts. lia.
Qed.

(** X15. At "5m", "1h" and "1d" the rows of the usage query partition the
    samples of the server in the range: the rows start at distinct
    multiples of the interval, a row counts exactly the samples with
    [start <= ts < start + interval], which are at least one, and the
    counts of all rows add up to the number of samples in range. *)
Theorem usage_buckets_partition
    (group_order :
       list (Z * list UsageSample.t) → list (Z * list UsageSample.t))
    (server_id : string) (from_date to_date : Z) (interval : string)
    (bin : Z) (current_user : string) (now : Z) (w : World) :
  (∀ g, group_order g ≡ₚ g) →
  is_Some (Mongo.find_one
             (λ d, ServerInDB.id d = server_id
                   ∧ ServerInDB.user_id d = current_user) (servers (db w))) →
  Usage.bin_of interval = Some bin →
  let m :=
    Usage.matched server_id from_date to_date (usage_samples (db w)) in
  ∃ r,
    Usage.get_server_usage group_order server_id (Some from_date)
      (Some to_date) interval current_user now w = Ok r
    ∧ NoDup (row_ts <$> Usage.data r)
    ∧ total_count (Usage.data r) = Z.of_nat (length m)
    ∧ ∀ row, row ∈ Usage.data r →
        row_ts row `mod` bin = 0
        ∧ 0 < row_count row
        ∧ row_count row
          = Z.of_nat
              (length
                 (filter (λ s, row_ts row ≤ UsageSample.ts s
                               ∧ UsageSample.ts s < row_ts row + bin) m)).
Proof.
  intros Hperm Hsrv Hbin m.
  pose proof (bin_of_positive _ _ Hbin) as Hpos.
  assert (interval ∈ Usage.valid_intervals) as Hvalid.
  { unfold Usage.bin_of in Hbin. unfold Usage.valid_intervals.
    repeat case_decide; simplify_eq; set_solver. }
  eexists. split; [by apply get_server_usage_Ok|]. simpl. fold m.
  set (key := Agg.dateTrunc bin ∘ UsageSample.ts).
  set (keys := remove_dups (key <$> m)).
  assert (Usage.aggregate group_order interval m
          ≡ₚ (λ k, rounded_mean_row bin k m) <$> keys) as Hdata
    by (by apply aggregate_bin).
  assert (NoDup keys) as Hnd by apply NoDup_remove_dups.
  split; [|split].
  - rewrite Hdata, <- list_fmap_compose.
    by rewrite (list_fmap_ext _ id keys), list_fmap_id.
  - rewrite (total_count_Permutation _ _ Hdata).
    rewrite <- (bucket_sizes_total key keys m Hnd).
    + unfold total_count, bucket_sizes. clear.
      induction keys as [|k ks IH]; [done|]. simpl.
      f_equal. exact IH.
    + intros x Hx. apply elem_of_remove_dups. by apply list_elem_of_fmap_2.
  - intros row Hrow. rewrite Hdata in Hrow.
    apply list_elem_of_fmap in Hrow as (k & -> & Hk). simpl.
    apply elem_of_remove_dups, list_elem_of_fmap in Hk as (s & -> & Hs).
    destruct (dateTrunc_window bin (UsageSample.ts s) Hpos)
      as (Hlo & Hhi & Hmod).
    split; [done|].
    assert (filter (λ x, Agg.dateTrunc bin (UsageSample.ts x) = key s) m
            = filter (λ x, key s ≤ UsageSample.ts x
                           ∧ UsageSample.ts x < key s + bin) m) as Hsame.
    { apply list_filter_iff. intros x. by apply dateTrunc_in_window. }
    rewrite <- Hsame. split; [|done].
    assert (s ∈ filter (λ x, Agg.dateTrunc bin (UsageSample.ts x) = key s) m)
      as Hin by (by apply list_elem_of_filter).
    destruct (filter _ m); [by apply not_elem_of_nil in Hin|]. simpl. lia.
Qed.

Lemma usage_buckets_partition_witness :
  let w := Scenario.store [Scenario.web] Scenario.two_hours [] in
  ∃ r,
    Usage.get_server_usage (λ g, g) "s1" (Some 0) (Some 7199999999) "1h"
      "alice" 0 w = Ok r
    ∧ NoDup (row_ts <$> Usage.data r)
    ∧ total_count (Usage.data r) = 4.
Proof.
  intros w.
  destruct (usage_buckets_partition (λ g, g) "s1" 0 7199999999 "1h"
              3600000000 "alice" 0 w) as (r & Hrun & Hnd & Htotal & _).
  - done.
  - by eexists.
  - reflexivity.
  - exists r. split; [exact Hrun|]. split; [exact Hnd|exact Htotal].
Defined.

(** ** The sampler on a real reading *)

Lemma real_stats_keys (raw : Docker.RawStats) :
  ∃ cpu_pct ram_mib disk_gib,
    real_stats raw !! "cpu_percent" = Some cpu_pct
    ∧ real_stats raw !! "memory_mb" = Some ram_mib
    ∧ real_stats raw !! "disk_gb" = Some disk_gib
    ∧ (Docker.system_cpu_usage raw - Docker.pre_system_cpu_usage raw ≤ 0
       ∨ Docker.total_usage raw - Docker.pre_total_usage raw ≤ 0 →
       cpu_pct = 0%float)
    ∧ (Docker.storage_stats raw = None → disk_gib = 0%float)
    ∧ ram_mib
      = Py.round (Py.int_true_div (Docker.memory_usage raw) 1048576) 2.
Proof.
  unfold real_stats. eexists _, _, _.
  split; [by simplify_map_eq|]. split; [by simplify_map_eq|].
  split; [by simplify_map_eq|]. split; [|split; [|done]].
  - intros Hle. rewrite decide_False by lia. by vm_compute.
  - intros ->. by vm_compute.
Qed.

Lemma real_stats_nonempty (raw : Docker.RawStats) : real_stats raw ≠ ∅.
Proof.
  intros Heq. destruct (real_stats_keys raw) as (c & _ & _ & Hc & _).
  rewrite Heq in Hc. by rewrite lookup_empty in Hc.
Qed.

(** X16. A reading of a real runtime always has the three keys the sampler
    reads.  When the container of a server runs and the runtime delivers
    its stats, the task stores exactly one sample for that server, stamped
    with the sampling time cut to the millisecond and carrying the
    reading, and publishes [usage.sampled] with the time as it was read;
    the servers stay as they are, and the owner's "1m" usage query over a
    range containing that time returns the stored sample. *)
Theorem sampler_stores_the_reading (server_id container_id uuid : string)
    (now : Z) (w : World) (c : Docker.DockerClient) (k : Docker.Container)
    (raw : Docker.RawStats) :
  connected (docker_manager w) = Some c →
  Docker.get c container_id = Some k →
  Docker.Status k = "running" →
  Docker.Stats k = Some raw →
  ∃ sample,
    Sampler.sample_server_usage server_id container_id uuid now w
    = (publish
         (set_usage_samples w
            (usage_samples (db w) ++ [Bson.usage_sample sample]))
         (usage_sampled server_id now),
       [Sampler.info_sampled server_id])
    ∧ (UsageSample.id sample = uuid
       ∧ UsageSample.server_id sample = server_id
       ∧ UsageSample.ts sample = now
       ∧ UsageSample.ts (Bson.usage_sample sample) = Bson.datetime now
       ∧ real_stats raw !! "cpu_percent" = Some (UsageSample.cpu_pct sample)
       ∧ real_stats raw !! "memory_mb" = Some (UsageSample.ram_mib sample)
       ∧ real_stats raw !! "disk_gb" = Some (UsageSample.disk_gib sample))
    ∧ ∀ group_order current_user from_date to_date now',
        is_Some (Mongo.find_one
                   (λ d, ServerInDB.id d = server_id
                         ∧ ServerInDB.user_id d = current_user)
                   (servers (db w))) →
        from_date ≤ now → now ≤ to_date →
        ∃ r,
          Usage.get_server_usage group_order server_id (Some from_date)
            (Some to_date) "1m" current_user now'
            (Sampler.sample_server_usage server_id container_id uuid now w).1
          = Ok r
          ∧ Usage.Raw (Bson.usage_sample sample) ∈ Usage.data r.
Proof.
  intros Hc Hget Hstatus Hstats.
  destruct (connected_Some _ _ Hc) as [_ Hclient].
  destruct (real_stats_keys raw)
    as (cpu & ram & disk & Hcpu & Hram & Hdisk & _).
  exists (UsageSample.mk uuid server_id now cpu ram disk).
  assert (Sampler.sample_server_usage server_id container_id uuid now w
          = (publish
               (set_usage_samples w
                  (usage_samples (db w)
                   ++ [Bson.usage_sample
                         (UsageSample.mk uuid server_id now cpu ram disk)]))
               (usage_sampled server_id now),
             [Sampler.info_sampled server_id])) as Hrun.
  { unfold Sampler.sample_server_usage, Sampler.sample_body,
      is_container_running, get_container_stats.
    rewrite Hclient, Hc, Hget, Hstatus, Hstats.
    rewrite bool_decide_eq_true_2 by done.
    cbn [negb fmap option_fmap option_map].
    rewrite decide_False by apply real_stats_nonempty.
    unfold Sampler.build_sample. rewrite Hcpu, Hram, Hdisk. reflexivity. }
  split; [done|]. split; [done|].
  intros group_order current_user from_date to_date now' Hsrv Hfrom Hto.
  rewrite Hrun. eexists. split.
  { apply get_server_usage_Ok; [done|]. apply list_elem_of_here. }
  simpl. apply list_elem_of_fmap_2, elem_of_matched.
  split; [apply elem_of_app; right; apply list_elem_of_here|].
  split; [done|]. simpl. split; by apply Bson_datetime_mono.
Qed.

Lemma sampler_stores_the_reading_witness :
  let raw :=
    {| Docker.total_usage := 3000; Docker.pre_total_usage := 1000;
       Docker.system_cpu_usage := 50000; Docker.pre_system_cpu_usage := 10000;
       Docker.percpu_usage_len := 2; Docker.memory_usage := 268435456;
       Docker.storage_stats := None |} in
  let k :=
    {| Docker.Id := "c0"; Docker.Name := "autobit-server-s1";
       Docker.Image := "nginx:alpine"; Docker.CpuQuota := 50000;
       Docker.CpuPeriod := 100000; Docker.Memory := 1073741824;
       Docker.MemorySwap := 1073741824; Docker.Status := "running";
       Docker.Stats := Some raw |} in
  let c :=
    {| Docker.containers := [k]; Docker.images := ["nginx:alpine"];
       Docker.registry := []; Docker.created := 1 |} in
  let w :=
    {| db := db Scenario.live; docker_manager := DockerManager_init (Some c);
       nats := [] |} in
  (Sampler.sample_server_usage "s1" "c0" "u1" 30000123 w).1
  = publish
      (set_usage_samples w [UsageSample.mk "u1" "s1" 30000000 10 256 0])
      (usage_sampled "s1" 30000123).
Proof.
  intros raw k c w.
  destruct (sampler_stores_the_reading "s1" "c0" "u1" 30000123 w c k raw)
    as (sample & Hrun & (Hid & Hsid & Hts & _ & Hcpu & Hram & Hdisk) & _);
    [reflexivity..|].
  rewrite Hrun. destruct sample as [i s t cpu_pct ram_mib disk_gib].
  cbn [UsageSample.id UsageSample.server_id UsageSample.ts
       UsageSample.cpu_pct UsageSample.ram_mib UsageSample.disk_gib] in *.
  subst i s t.
  vm_compute in Hcpu. vm_compute in Hram. vm_compute in Hdisk.
  injection Hcpu as <-. injection Hram as <-. injection Hdisk as <-.
  reflexivity.
Defined.

Lemma delete_one_key {A} (key : A → string) (l : list A) (k : string) :
  NoDup (key <$> l) →
  Mongo.delete_one (λ d, key d = k) l = filter (λ d, key d ≠ k) l.
Proof.
  induction l as [|d r IH]; [done|]. simpl.
  intros [Hd Hr]%NoDup_cons. destruct (decide (key d = k)) as [Hk|Hk].
  - rewrite filter_cons_False by (by intros ?).
    symmetry. apply filter_all. intros x Hx Hxk. apply Hd.
    rewrite Hk, <- Hxk. by apply list_elem_of_fmap_2.
  - rewrite filter_cons_True by done. f_equal. by apply IH.
Qed.

(** X17. When the liveness probe answers no (the container is gone, has
    exited, or the adapter has no client), the task removes the server
    record and stores no sample and publishes nothing; with unique ids
    exactly that record goes, and its owner finds the server no more. *)
Theorem sampler_retires_orphans (server_id container_id uuid : string)
    (now : Z) (w : World) :
  is_container_running (docker_manager w) container_id = false →
  ∃ w',
    Sampler.sample_server_usage server_id container_id uuid now w
    = (w', [Sampler.warning_not_running container_id server_id])
    ∧ (usage_samples (db w') = usage_samples (db w)
       ∧ invoices (db w') = invoices (db w)
       ∧ transactions (db w') = transactions (db w)
       ∧ nats w' = nats w
       ∧ docker_manager w' = docker_manager w)
    ∧ (NoDup (ServerInDB.id <$> servers (db w)) →
       servers (db w')
       = filter (λ d, ServerInDB.id d ≠ server_id) (servers (db w))
       ∧ ∀ current_user,
           Servers.get_server server_id current_user w'
           = http HTTP_404_NOT_FOUND "Server not found").
Proof.
  intros Hdead. unfold Sampler.sample_server_usage, Sampler.sample_body.
  rewrite Hdead. cbn [negb]. eexists. split; [reflexivity|].
  split; [done|]. intros Hnd. cbn [db servers set_servers].
  rewrite (delete_one_key ServerInDB.id) by done. split; [done|].
  intros current_user. unfold Servers.get_server. cbn [db servers].
  destruct (Mongo.find_one _ _) as [d|] eqn:Hfind; [|done].
  apply find_one_Some in Hfind as (Hd & Hid & _).
  by apply list_elem_of_filter in Hd as [? _].
Qed.

Lemma sampler_retires_orphans_witness :
  let w := Scenario.store [Scenario.database; Scenario.web] [] [] in
  ∃ w',
    Sampler.sample_server_usage "s1" "c0" "u1" 30000000 w
    = (w', [Sampler.warning_not_running "c0" "s1"])
    ∧ servers (db w') = [Scenario.database]
    ∧ Servers.get_server "s1" "alice" w'
      = http HTTP_404_NOT_FOUND "Server not found".
Proof.
  intros w.
  destruct (sampler_retires_orphans "s1" "c0" "u1" 30000000 w)
    as (w' & Hrun & _ & Hgone); [reflexivity|].
  destruct Hgone as [Hservers Hget];
    [by apply (bool_decide_unpack _); vm_compute|].
  exists w'. split; [exact Hrun|]. split; [exact Hservers|apply Hget].
Defined.

(** ** The adapter on a real runtime *)

Section OneMatch.
Context {A : Type}.
Variable P : A → Prop.
Context `{!∀ x, Decision (P x)}.

Lemma find_one_snoc_fresh (l : list A) (a : A) :
  (∀ d, d ∈ l → ¬ P d) → P a → Mongo.find_one P (l ++ [a]) = Some a.
Proof.
  intros Hfresh Ha. unfold Mongo.find_one. rewrite filter_app.
  replace (filter P l) with (@nil A).
  - by rewrite filter_cons_True.
  - symmetry. apply elem_of_nil_inv. intros x Hx.
    apply list_elem_of_filter in Hx as [HP Hx]. by apply (Hfresh x).
Qed.

Lemma update_one_snoc_fresh (f : A → A) (l : list A) (a : A) :
  (∀ d, d ∈ l → ¬ P d) → P a →
  Mongo.update_one P f (l ++ [a]) = l ++ [f a].
Proof.
  intros Hfresh Ha. induction l as [|d r IH]; simpl.
  - by rewrite decide_True.
  - rewrite decide_False by (apply Hfresh, list_elem_of_here).
    f_equal. apply IH. intros x Hx. by apply Hfresh, list_elem_of_further.
Qed.

Lemma delete_one_snoc_fresh (l : list A) (a : A) :
  (∀ d, d ∈ l → ¬ P d) → P a → Mongo.delete_one P (l ++ [a]) = l.
Proof.
  intros Hfresh Ha. induction l as [|d r IH]; simpl.
  - by rewrite decide_True.
  - rewrite decide_False by (apply Hfresh, list_elem_of_here).
    f_equal. apply IH. intros x Hx. by apply Hfresh, list_elem_of_further.
Qed.

Lemma find_one_fresh (l : list A) :
  (∀ d, d ∈ l → ¬ P d) → Mongo.find_one P l = None.
Proof.
  intros Hfresh. destruct (Mongo.find_one P l) as [d|] eqn:Hfind; [|done].
  apply find_one_Some in Hfind as [Hd HP]. by destruct (Hfresh d Hd).
Qed.
End OneMatch.

Lemma ensure_image_containers (c c1 : Docker.DockerClient)
    (image_name : string) :
  Docker.ensure_image c image_name = Some c1 →
  Docker.containers c1 = Docker.containers c
  ∧ Docker.created c1 = Docker.created c
  ∧ image_name ∈ Docker.images c1.
Proof.
  unfold Docker.ensure_image. destruct (negb _); [done|].
  repeat case_decide; intros [= <-]; simpl; [done|].
  repeat split. apply list_elem_of_here.
Qed.

Lemma create_container_real (dm dm1 : DockerManager)
    (c : Docker.DockerClient) (server : ServerInDB.t) (h : string) :
  connected dm = Some c →
  create_container dm server = (inr h, dm1) →
  ∃ cpu_quota memory_limit c1,
    Py.int_of_float (ServerInDB.cpu_limit server * 100000)%float
    = inr cpu_quota
    ∧ Py.int_of_float (ServerInDB.ram_gib server * 1024 * 1024 * 1024)%float
      = inr memory_limit
    ∧ Docker.ensure_image c (Py.lower (ServerInDB.image server)) = Some c1
    ∧ (∀ k, k ∈ Docker.containers c →
            Docker.Name k ≠ "autobit-server-" +:+ ServerInDB.id server)
    ∧ h = Docker.new_id (Docker.created c)
    ∧ dm1
      = with_client dm
          {| Docker.containers :=
               Docker.containers c
               ++ [{| Docker.Id := h;
                      Docker.Name :=
                        "autobit-server-" +:+ ServerInDB.id server;
                      Docker.Image := Py.lower (ServerInDB.image server);
                      Docker.CpuQuota := cpu_quota;
                      Docker.CpuPeriod := 100000;
                      Docker.Memory := memory_limit;
                      Docker.MemorySwap := memory_limit;
                      Docker.Status := "created";
                      Docker.Stats := None |}];
             Docker.images := Docker.images c1;
             Docker.registry := Docker.registry c1;
             Docker.created := S (Docker.created c) |}.
Proof.
  intros Hc. unfold create_container. rewrite Hc.
  destruct (Py.int_of_float _) as [e|cpu_quota]; [done|].
  destruct (Py.int_of_float _) as [e|memory_limit]; [done|].
  destruct (Docker.ensure_image _ _) as [c1|] eqn:Himg; [|done].
  destruct (ensure_image_containers _ _ _ Himg) as (Hcont & Hcreated & _).
  unfold Docker.create. rewrite Hcont, Hcreated.
  destruct (decide (Exists _ _)) as [|Hfree]; [done|].
  intros [= <- <-]. exists cpu_quota, memory_limit, c1.
  repeat split; try done.
  intros k Hk Hname. apply Hfree. apply Exists_exists. by exists k.
Qed.

(** X18. On a real runtime, a container that [create_container] adds under
    an id not yet in use carries the name of the server, the CPU quota
    [int(cpu_limit * 100000)] over a period of 100000 and a memory limit
    equal to its swap limit; it is not running until started, runs after
    [start_container], does not run after [stop_container], and after
    [delete_container] it is gone, so that a further start fails and the
    containers are those there were before the creation. *)
Theorem container_life_cycle (dm dm1 : DockerManager)
    (c : Docker.DockerClient) (server : ServerInDB.t) (h : string) :
  connected dm = Some c →
  (∀ k, k ∈ Docker.containers c →
        Docker.Id k ≠ Docker.new_id (Docker.created c)) →
  create_container dm server = (inr h, dm1) →
  (∃ c1 k,
     connected dm1 = Some c1 ∧ Docker.get c1 h = Some k
     ∧ Docker.Name k = "autobit-server-" +:+ ServerInDB.id server
     ∧ Docker.Image k = Py.lower (ServerInDB.image server)
     ∧ Py.int_of_float (ServerInDB.cpu_limit server * 100000)%float
       = inr (Docker.CpuQuota k)
     ∧ Docker.CpuPeriod k = 100000
     ∧ Docker.MemorySwap k = Docker.Memory k)
  ∧ is_container_running dm1 h = false
  ∧ ∃ dm2 dm3 dm4,
      start_container dm1 h = (true, dm2)
      ∧ is_container_running dm2 h = true
      ∧ stop_container dm2 h = (true, dm3)
      ∧ is_container_running dm3 h = false
      ∧ delete_container dm3 h = (true, dm4)
      ∧ is_container_running dm4 h = false
      ∧ start_container dm4 h = (false, dm4)
      ∧ get_container_stats dm4 h = None
      ∧ Docker.containers <$> connected dm4 = Some (Docker.containers c).
Proof.
  intros Hc Hfresh Hcreate.
  destruct (create_container_real _ _ _ _ _ Hc Hcreate)
    as (cpu_quota & memory_limit & c1 & Hcpu & Hmem & Himg & Hname & Hh & ->).
  rewrite <- Hh in Hfresh.
  destruct (connected_Some _ _ Hc) as [Hav _].
  set (k := {| Docker.Id := h;
               Docker.Name := "autobit-server-" +:+ ServerInDB.id server;
               Docker.Image := Py.lower (ServerInDB.image server);
               Docker.CpuQuota := cpu_quota; Docker.CpuPeriod := 100000;
               Docker.Memory := memory_limit;
               Docker.MemorySwap := memory_limit;
               Docker.Status := "created"; Docker.Stats := None |}).
  assert (∀ d, d ∈ Docker.containers c → ¬ Docker.Id d = h) as Hnot
    by (intros d Hd; by apply Hfresh).
  assert (∀ l imgs reg n st,
            let c' := {| Docker.containers := l ++ [Docker.set_status st k];
                         Docker.images := imgs; Docker.registry := reg;
                         Docker.created := n |} in
            l = Docker.containers c →
            Docker.get c' h = Some (Docker.set_status st k)) as Hget.
  { intros l imgs reg n st c' ->. unfold Docker.get. simpl.
    by apply find_one_snoc_fresh. }
  split; [|split].
  - eexists _, k. split; [by apply (connected_with_client dm c)|].
    split; [|done]. unfold Docker.get. simpl.
    by apply find_one_snoc_fresh.
  - unfold is_container_running, with_client. cbn [client].
    unfold Docker.get. cbn [Docker.containers].
    by rewrite (find_one_snoc_fresh _ _ k).
  - unfold start_container, stop_container, delete_container,
      get_container_stats, is_container_running.
    unfold connected, with_client. cbn [available client]. rewrite Hav.
    cbn [negb]. unfold Docker.get, Docker.start, Docker.stop, Docker.remove,
      Docker.with_containers. cbn [Docker.containers].
    rewrite (find_one_snoc_fresh _ _ k) by done.
    eexists _, _, _. split; [reflexivity|]. cbn [client available negb].
    cbn [Docker.containers].
    rewrite (update_one_snoc_fresh _ _ _ k) by done.
    rewrite (find_one_snoc_fresh _ _ (Docker.set_status "running" k))
      by done.
    split; [done|]. split; [reflexivity|]. cbn [client available negb].
    cbn [Docker.containers].
    rewrite (update_one_snoc_fresh _ _ _ (Docker.set_status "running" k))
      by done.
    rewrite (find_one_snoc_fresh _ _
               (Docker.set_status "exited"
                  (Docker.set_status "running" k))) by done.
    split; [done|]. split; [reflexivity|]. cbn [client available negb].
    cbn [Docker.containers].
    rewrite (delete_one_snoc_fresh _ _
               (Docker.set_status "exited"
                  (Docker.set_status "running" k))) by done.
    rewrite (find_one_fresh _ _ Hnot). done.
Qed.

Lemma container_life_cycle_witness :
  let dm := DockerManager_init (Some Scenario.daemon) in
  let server :=
    ServerInDB.mk (Some "api") "Nginx:Alpine" 1.5 2 4.0 20.0 "s3" "alice"
      CREATED None 5000 5000 in
  ∃ dm1 dm2,
    create_container dm server = (inr "ctr-1", dm1)
    ∧ start_container dm1 "ctr-1" = (true, dm2)
    ∧ is_container_running dm2 "ctr-1" = true.
Proof.
  intros dm server.
  edestruct (container_life_cycle dm (create_container dm server).2
               Scenario.daemon server "ctr-1")
    as (_ & _ & dm2 & dm3 & dm4 & Hstart & Hrun & _).
  - reflexivity.
  - intros k Hk. apply list_elem_of_singleton in Hk as ->. done.
  - lazy. reflexivity.
  - eexists _, dm2. split; [lazy; reflexivity|].
    split; [exact Hstart|exact Hrun].
Defined.

Lemma find_one_delete_one_key {A} (key : A → string) (l : list A)
    (k : string) :
  NoDup (key <$> l) →
  Mongo.find_one (λ d, key d = k) (Mongo.delete_one (λ d, key d = k) l)
  = None.
Proof.
  intros Hnd. rewrite (delete_one_key key) by done.
  apply find_one_fresh. by intros d [Hd _]%list_elem_of_filter.
Qed.

Lemma create_container_failed (dm dm1 : DockerManager)
    (c : Docker.DockerClient) (server : ServerInDB.t) (e : exn) :
  connected dm = Some c →
  create_container dm server = (inl e, dm1) →
  ∃ c1, connected dm1 = Some c1
        ∧ Docker.containers c1 = Docker.containers c.
Proof.
  intros Hc. unfold create_container. rewrite Hc.
  destruct (Py.int_of_float _); [intros [= _ <-]; by exists c|].
  destruct (Py.int_of_float _); [intros [= _ <-]; by exists c|].
  destruct (Docker.ensure_image _ _) as [c1|] eqn:Himg;
    [|intros [= _ <-]; by exists c].
  destruct (ensure_image_containers _ _ _ Himg) as (Hcont & _).
  destruct (Docker.create _ _ _ _ _ _ _) as [[k c2]|]; [done|].
  intros [= _ <-]. exists c1. split; [|done].
  by apply (connected_with_client dm c).
Qed.

Lemma update_container_resources_failed (dm dm' : DockerManager)
    (c : Docker.DockerClient) (h : string) (server : ServerInDB.t) :
  connected dm = Some c →
  NoDup (Docker.Id <$> Docker.containers c) →
  update_container_resources dm h server = (false, dm') →
  ∃ c', connected dm' = Some c' ∧ Docker.get c' h = None.
Proof.
  intros Hc Hnd. unfold update_container_resources.
  assert (∃ dm2 c2, delete_container (stop_container dm h).2 h = (dm2.1, dm2.2)
                    ∧ connected dm2.2 = Some c2
                    ∧ Docker.get c2 h = None)
    as (dm2 & c2 & Hdel & Hc2 & Hgone).
  { unfold stop_container, delete_container. rewrite Hc.
    destruct (Docker.get c h) as [k|] eqn:Hget.
    - pose proof (find_one_Some _ _ _ Hget) as [_ Hk].
      cbn [snd]. rewrite (connected_with_client dm c) by done.
      unfold Docker.get, Docker.stop, Docker.with_containers.
      cbn [Docker.containers].
      rewrite (find_one_update_one_same _ _ _ k) by done.
      eexists (true, _), _. split; [reflexivity|]. cbn [snd].
      split; [by apply (connected_with_client dm c)|].
      unfold Docker.get, Docker.remove, Docker.with_containers.
      cbn [Docker.containers].
      apply (find_one_delete_one_key Docker.Id).
      by rewrite (fmap_update_one Docker.Id).
    - cbn [snd]. rewrite Hc, Hget. by eexists (false, dm), c. }
  destruct (stop_container dm h) as [b1 dm1]. cbn [snd] in Hdel.
  rewrite Hdel. destruct dm2 as [b2 dm2]. cbn [fst snd] in *.
  destruct (create_container dm2 server) as [[e|h'] dm3] eqn:Hcreate.
  - intros [= <-].
    destruct (create_container_failed _ _ _ _ _ Hc2 Hcreate)
      as (c3 & Hc3 & Hcont).
    exists c3. split; [done|]. unfold Docker.get in *. by rewrite Hcont.
  - by destruct (start_container dm3 h').
Qed.

(** Two answers that differ in their status code or in their detail. *)
Ltac answers_differ H :=
  apply (f_equal (λ p, match p.1 with
                       | Raise e => Some (status_code e, detail e)
                       | Ok _ => None
                       end)) in H;
  vm_compute in H; discriminate.

Lemma persist_is_not_a_failed_replace (server_id : string)
    (server : ServerInDB.t) (w w' : World) :
  Servers.persist server_id server w
  ≠ (except_500 "Failed to update server"
       (raised HTTP_500_INTERNAL_SERVER_ERROR
          "Failed to update server resources"), w').
Proof.
  unfold Servers.persist, Bson.server, parse.
  destruct (Bson.int64 _).
  - destruct (ServerInDB.name server); intros Hp; answers_differ Hp.
  - intros Hp. answers_differ Hp.
Qed.

(** X19. A replace that fails is not rolled back.  When a PATCH on a
    server of the caller is answered, on a real runtime whose container
    ids are unique, with the 500 that [update_server] raises for a failed
    replace ("Failed to update server: 500: Failed to update server
    resources"), then [update_container_resources] did answer [False], the
    store and the bus are what they were (the record still running, still
    bound to the old container), while the runtime no longer has that
    container: the liveness probe and the stats call for it find
    nothing. *)
Theorem failed_replace_is_not_rolled_back (server_id current_user : string)
    (server_update : ServerUpdate.t) (now : Z) (w w' : World)
    (server : ServerInDB.t) (h : string) (c : Docker.DockerClient) :
  Mongo.find_one
    (λ d, ServerInDB.id d = server_id ∧ ServerInDB.user_id d = current_user)
    (servers (db w)) = Some server →
  ServerInDB.container_id server = Some h →
  connected (docker_manager w) = Some c →
  NoDup (Docker.Id <$> Docker.containers c) →
  Servers.update_server server_id server_update current_user now w
  = (except_500 "Failed to update server"
       (raised HTTP_500_INTERNAL_SERVER_ERROR
          "Failed to update server resources"), w') →
  (∃ dm',
     update_container_resources (docker_manager w) h
       (Servers.apply_update server_update now server) = (false, dm')
     ∧ w' = set_docker_manager w dm')
  ∧ (db w' = db w ∧ nats w' = nats w)
  ∧ ServerInDB.status server = RUNNING
  ∧ is_container_running (docker_manager w') h = false
  ∧ get_container_stats (docker_manager w') h = None.
Proof.
  intros Hfind Hh Hc Hnd. unfold Servers.update_server. rewrite Hfind.
  destruct (parse "ServerInDB" server) as [x|s] eqn:Hparse.
  { intros Hp. answers_differ Hp. }
  apply parse_inr in Hparse as [-> _].
  destruct (Servers.no_fields server_update).
  { intros Hp. answers_differ Hp. }
  destruct (Servers.non_positive_field server_update) as [x|[f|]].
  { intros Hp. answers_differ Hp. }
  { intros Hp. answers_differ Hp. }
  cbn [ServerInDB.status ServerInDB.container_id Servers.apply_update].
  rewrite Hh.
  destruct (bool_decide (ServerInDB.status server = RUNNING)) eqn:Hrun;
    [|intros Hp; by apply persist_is_not_a_failed_replace in Hp].
  apply bool_decide_eq_true_1 in Hrun.
  destruct (Py.truthy (Some h)); cbn [andb];
    [|intros Hp; by apply persist_is_not_a_failed_replace in Hp].
  destruct (Servers.any_resource_field server_update);
    [|intros Hp; by apply persist_is_not_a_failed_replace in Hp].
  change (default "" (Some h)) with h.
  destruct (update_container_resources _ _ _) as [[] dm] eqn:Hupd;
    [intros Hp; by apply persist_is_not_a_failed_replace in Hp|].
  intros [= <-].
  destruct (update_container_resources_failed _ _ _ _ _ Hc Hnd Hupd)
    as (c' & Hc' & Hgone).
  split; [by exists dm|]. split; [done|]. split; [done|].
  cbn [docker_manager set_docker_manager].
  unfold is_container_running, get_container_stats. rewrite Hc'.
  destruct (connected_Some _ _ Hc') as [_ ->]. by rewrite Hgone.
Qed.

Lemma failed_replace_is_not_rolled_back_witness :
  ∃ w',
    Servers.update_server "s1"
      (ServerUpdate.mk Unset (Value 1e308%float) Unset Unset Unset) "alice"
      7000000 Scenario.live
    = (http 500
         "Failed to update server: 500: Failed to update server resources",
       w')
    ∧ db w' = db Scenario.live
    ∧ is_container_running (docker_manager Scenario.live) "c0" = true
    ∧ is_container_running (docker_manager w') "c0" = false.
Proof.
  destruct (Servers.update_server "s1"
              (ServerUpdate.mk Unset (Value 1e308%float) Unset Unset Unset)
              "alice" 7000000 Scenario.live) as [r w'] eqn:Hupd.
  assert (r = except_500 "Failed to update server"
                (raised HTTP_500_INTERNAL_SERVER_ERROR
                   "Failed to update server resources")) as ->
    by (lazy in Hupd; by injection Hupd as <- _).
  exists w'. split; [by vm_compute|].
  destruct (failed_replace_is_not_rolled_back "s1" "alice"
              (ServerUpdate.mk Unset (Value 1e308%float) Unset Unset Unset)
              7000000 Scenario.live w' Scenario.web "c0" Scenario.daemon)
    as (_ & [Hdb _] & _ & Hgone & _).
  - lazy. reflexivity.
  - reflexivity.
  - reflexivity.
  - by apply (bool_decide_unpack _); vm_compute.
  - exact Hupd.
  - split; [exact Hdb|]. split; [by vm_compute|exact Hgone].
Defined.
